(** * EC2 utilisation telemetry pipeline: a shallow embedding

    The development follows the two scripts of the repository:

    - [ec2_cloudwatch_metrics.py], the collection side: metric catalog,
      one fetch per (instance, metric), collection of the per-instance
      results and [restructure_dataframe];
    - [s3ToPostgresETL.py], the load side: [load_config],
      [extract_from_s3], [transform_to_daily], [upsert_to_postgres] and
      [main].

    Of the collection side the discovery of the instances, [load_config],
    [upload_to_s3] and [main] come after these, with the formatting of
    the object key they share with the load side.

    Conventions.  Python exceptions are values of [result]; a [str] is
    the sequence of its code points, all below 256 here; a [dict] is an
    association list in insertion order; a finite float64 is the exact
    rational it stands for ([Q]) and NaN / None / NA are explicit;
    timestamps are integers counting nanoseconds since the epoch; a
    calendar day is the number of days since the epoch.  What pandas and
    PostgreSQL decide, and the scripts do not, is a parameter: the
    float64 sums and means and the exceptions of the date arithmetic
    ([Etl.Pandas]), the server's refusals ([Etl.Postgres]). *)

From Stdlib Require Import ZArith QArith Qround String Ascii List Lia Permutation Sorted.
From Stdlib Require Import Qabs OrdersEx SetoidList.
From stdpp Require Import base option list gmap strings.
Import ListNotations.

Local Open Scope string_scope.
Local Open Scope list_scope.
Local Open Scope Z_scope.

(** ** Python values shared by both scripts *)

Module Py.

(** Exceptions, by class, with their one argument: the message, or the
    key for a [KeyError]. *)
Inductive exn : Type :=
| ValueError (msg : string)
| RuntimeError (msg : string)
| KeyError (key : string)
| IndexError (msg : string)
| ClientError (msg : string)
| DBAPIError (msg : string).

(** [c in s] for a one-character [c]. *)
Fixpoint contains (c : ascii) (s : string) : bool :=
  match s with
  | EmptyString => false
  | String d rest => Ascii.eqb d c || contains c rest
  end.

Definition hex_digit (n : nat) : ascii :=
  ascii_of_nat (if n <? 10 then 48 + n else 87 + n)%nat.

(** [str.isprintable] on one code point below 256. *)
Definition printable (c : ascii) : bool :=
  let n := nat_of_ascii c in
  ((32 <=? n) && (n <=? 126) || (161 <=? n) && negb (n =? 173))%nat.

Definition apostrophe : ascii := ascii_of_nat 39.
Definition double_quote : ascii := ascii_of_nat 34.
Definition backslash : ascii := ascii_of_nat 92.

(** The characters [repr] writes for one character inside the given
    quotes. *)
Definition escaped (quote c : ascii) : string :=
  let n := nat_of_ascii c in
  if Ascii.eqb c quote || Ascii.eqb c backslash
  then String backslash (String c EmptyString)
  else if (n =? 9)%nat then String backslash "t"
  else if (n =? 10)%nat then String backslash "n"
  else if (n =? 13)%nat then String backslash "r"
  else if printable c then String c EmptyString
  else String backslash
         (String "x" (String (hex_digit (n / 16)%nat)
                        (String (hex_digit (n mod 16)%nat) EmptyString))).

Fixpoint escape (quote : ascii) (s : string) : string :=
  match s with
  | EmptyString => EmptyString
  | String c rest => append (escaped quote c) (escape quote rest)
  end.

(** [repr(s)]: single quotes, unless the text holds one and no double
    quote. *)
Definition repr (s : string) : string :=
  let quote :=
    if contains apostrophe s && negb (contains double_quote s)
    then double_quote else apostrophe in
  String quote (append (escape quote s) (String quote EmptyString)).

(** [str(e)]: the message; a [KeyError] shows the [repr] of its key. *)
Definition str (e : exn) : string :=
  match e with
  | KeyError k => repr k
  | ValueError m | RuntimeError m | IndexError m
  | ClientError m | DBAPIError m => m
  end.

(** A float64: NaN, an infinity, or a finite number by its exact
    value. *)
Inductive float : Type :=
| nan
| inf (negative : bool)
| finite (q : Q).

Inductive result (A : Type) : Type :=
| Ok (a : A)
| Raise (e : exn).
Arguments Ok {A} a.
Arguments Raise {A} e.

Definition bind {A B} (r : result A) (k : A -> result B) : result B :=
  match r with
  | Ok a => k a
  | Raise e => Raise e
  end.

Definition is_ok {A} (r : result A) : bool :=
  match r with Ok _ => true | Raise _ => false end.

(** [for x in xs: ys.append(f(x))], stopping at the first exception. *)
Fixpoint for_each {A B} (f : A -> result B) (xs : list A) : result (list B) :=
  match xs with
  | [] => Ok []
  | x :: rest =>
      bind (f x) (fun y => bind (for_each f rest) (fun ys => Ok (y :: ys)))
  end.

(** [s.split(sep)] for a one-character separator. *)
Fixpoint split (sep : ascii) (s : string) : list string :=
  match s with
  | EmptyString => [EmptyString]
  | String c rest =>
      if Ascii.eqb c sep then EmptyString :: split sep rest
      else match split sep rest with
           | [] => [String c EmptyString]
           | h :: t => String c h :: t
           end
  end.

(** [s.startswith(c)] for a one-character [c]. *)
Definition startswith (c : ascii) (s : string) : bool :=
  match s with
  | EmptyString => false
  | String d _ => Ascii.eqb d c
  end.

(** [s.lower()] on the ASCII letters. *)
Definition lower_ascii (c : ascii) : ascii :=
  let n := nat_of_ascii c in
  if ((65 <=? n) && (n <=? 90))%nat then ascii_of_nat (n + 32) else c.

Fixpoint lower (s : string) : string :=
  match s with
  | EmptyString => EmptyString
  | String c rest => String (lower_ascii c) (lower rest)
  end.

(** [int(s)]: blanks around, an optional sign, decimal digits that may be
    separated by single underscores.  The blanks are tab, line feed,
    vertical tab, form feed, carriage return and space, and the two
    spaces beyond ASCII that a code point below 256 can be, U+0085 and
    U+00A0, which [int] turns into spaces first; the separators U+001C to
    U+001F are not among them.  Below 256 the only decimal digits are 0
    to 9.  The limit that interpreters from 3.11 on put on the number of
    digits (4300 unless configured) is left out. *)
Definition is_space (c : ascii) : bool :=
  let n := nat_of_ascii c in
  ((9 <=? n) && (n <=? 13) || (n =? 32) || (n =? 133) || (n =? 160))%nat.

Fixpoint lstrip (s : string) : string :=
  match s with
  | EmptyString => EmptyString
  | String c rest => if is_space c then lstrip rest else s
  end.

Definition strip (s : string) : string :=
  String.rev (lstrip (String.rev (lstrip s))).

Definition digit (c : ascii) : option Z :=
  let n := nat_of_ascii c in
  if ((48 <=? n) && (n <=? 57))%nat then Some (Z.of_nat n - 48) else None.

Fixpoint digits (acc : Z) (after_digit : bool) (s : string) : option Z :=
  match s with
  | EmptyString => if after_digit then Some acc else None
  | String c rest =>
      match digit c with
      | Some d => digits (10 * acc + d) true rest
      | None =>
          if Ascii.eqb c "_" && after_digit then digits acc false rest
          else None
      end
  end.

Definition int (s : string) : option Z :=
  match strip s with
  | String "-" rest => option_map Z.opp (digits 0 false rest)
  | String "+" rest => digits 0 false rest
  | body => digits 0 false body
  end.

(** A [dict]: keys in insertion order, each key once. *)
Definition dict (V : Type) : Type := list (string * V).

Fixpoint get {V} (k : string) (d : dict V) : option V :=
  match d with
  | [] => None
  | (k', v) :: rest => if String.eqb k' k then Some v else get k rest
  end.

(** [d[k] = v]: an existing key keeps its place. *)
Fixpoint set {V} (k : string) (v : V) (d : dict V) : dict V :=
  match d with
  | [] => [(k, v)]
  | (k', v') :: rest =>
      if String.eqb k' k then (k', v) :: rest else (k', v') :: set k v rest
  end.

(** [d.update(e)] and the dict built from a sequence of items. *)
Definition update {V} (d e : dict V) : dict V :=
  fold_left (fun acc kv => set (fst kv) (snd kv) acc) e d.

Definition of_items {V} (items : list (string * V)) : dict V :=
  update [] items.

Definition keys {V} (d : dict V) : list string := map fst d.

End Py.

#[global] Instance result_ret : MRet Py.result := @Py.Ok.
#[global] Instance result_bind : MBind Py.result := fun A B k r => Py.bind r k.

(** ** The collection side: [ec2_cloudwatch_metrics.py] *)

Module Collector.

(** What a cell of a record or of a frame can hold: Python's [None], the
    missing value of pandas (NaN, NaT and [pd.NA] alike), text, an
    integer, a float, an instant. *)
Inductive value : Type :=
| VNone
| NA
| VStr (s : string)
| VInt (n : Z)
| VFloat (q : Q)
| VTime (t : Z).

Record MetricDef : Type := {
  metric : string;
  stats : list string;
  category : string;
}.

Definition EC2_STANDARD_METRICS : list MetricDef := [
  {| metric := "CPUUtilization"; stats := ["Average"; "Maximum"; "Minimum"]; category := "CPU" |};
  {| metric := "CPUCreditUsage"; stats := ["Sum"; "Maximum"; "Minimum"]; category := "CPU" |};
  {| metric := "CPUCreditBalance"; stats := ["Average"]; category := "CPU" |};
  {| metric := "CPUSurplusCreditBalance"; stats := ["Average"]; category := "CPU" |};
  {| metric := "CPUSurplusCreditsCharged"; stats := ["Sum"]; category := "CPU" |};
  {| metric := "DiskReadBytes"; stats := ["Sum"; "Average"]; category := "Disk" |};
  {| metric := "DiskWriteBytes"; stats := ["Sum"; "Average"]; category := "Disk" |};
  {| metric := "DiskReadOps"; stats := ["Sum"; "Average"]; category := "Disk" |};
  {| metric := "DiskWriteOps"; stats := ["Sum"; "Average"]; category := "Disk" |};
  {| metric := "NetworkIn"; stats := ["Sum"; "Average"]; category := "Network" |};
  {| metric := "NetworkOut"; stats := ["Sum"; "Average"]; category := "Network" |};
  {| metric := "NetworkPacketsIn"; stats := ["Sum"; "Average"]; category := "Network" |};
  {| metric := "NetworkPacketsOut"; stats := ["Sum"; "Average"]; category := "Network" |};
  {| metric := "StatusCheckFailed"; stats := ["Sum"]; category := "StatusCheck" |};
  {| metric := "StatusCheckFailed_Instance"; stats := ["Sum"]; category := "StatusCheck" |};
  {| metric := "StatusCheckFailed_System"; stats := ["Sum"]; category := "StatusCheck" |};
  {| metric := "EBSReadBytes"; stats := ["Sum"; "Average"]; category := "EBS" |};
  {| metric := "EBSWriteBytes"; stats := ["Sum"; "Average"]; category := "EBS" |};
  {| metric := "EBSReadOps"; stats := ["Sum"; "Average"]; category := "EBS" |};
  {| metric := "EBSWriteOps"; stats := ["Sum"; "Average"]; category := "EBS" |};
  {| metric := "EBSIOBalance%"; stats := ["Average"]; category := "EBS" |};
  {| metric := "EBSByteBalance%"; stats := ["Average"]; category := "EBS" |}
].

Definition MEMORY_METRICS : list MetricDef := [
  {| metric := "mem_used_percent"; stats := ["Average"; "Maximum"]; category := "Memory" |};
  {| metric := "mem_used"; stats := ["Average"; "Maximum"]; category := "Memory" |};
  {| metric := "mem_available"; stats := ["Average"; "Minimum"]; category := "Memory" |};
  {| metric := "mem_total"; stats := ["Average"]; category := "Memory" |};
  {| metric := "mem_cached"; stats := ["Average"]; category := "Memory" |};
  {| metric := "mem_buffered"; stats := ["Average"]; category := "Memory" |}
].

(** An entry of the list [discover_ec2_instances] returns. *)
Record Instance : Type := {
  instance_id : string;
  instance_name : string;
  instance_type : string;
  state : string;
  az : string;
  private_ip : string;
  public_ip : string;
  launch_time : string;
  platform : string;
}.

(** The keyword arguments of [get_metric_statistics].  [Statistics] and
    [ExtendedStatistics] are [None] when the key is not set. *)
Record Request : Type := {
  Namespace : string;
  MetricName : string;
  Dimensions : list (string * string);
  StartTime : Z;
  EndTime : Z;
  Period : Z;
  Statistics : option (list string);
  ExtendedStatistics : option (list string);
}.

(** One element of [response["Datapoints"]]: the statistics requested
    plainly sit beside ["Timestamp"] and ["Unit"], the percentiles under
    ["ExtendedStatistics"].  A field is [None] when its key is absent. *)
Record Datapoint : Type := {
  Timestamp : option Z;
  Unit : option string;
  plain : Py.dict Q;
  ExtendedStatistics_ : option (Py.dict Q);
}.

(** The CloudWatch client: the ["Datapoints"] entry of the response, if
    any, or the exception of the call. *)
Definition Client : Type := Request -> Py.result (option (list Datapoint)).

Definition float_or_None (o : option Q) : value :=
  match o with
  | Some q => VFloat q
  | None => VNone
  end.

(** [next((d["Value"] for d in dimensions if d["Name"] == "InstanceId"), "")]. *)
Fixpoint dimension_value (dimensions : list (string * string)) : string :=
  match dimensions with
  | [] => ""
  | (name, v) :: rest =>
      if String.eqb name "InstanceId" then v else dimension_value rest
  end.

Definition standard_of (stats : list string) : list string :=
  List.filter (fun s => negb (Py.startswith "p" s)) stats.

Definition extended_of (stats : list string) : list string :=
  List.filter (Py.startswith "p") stats.

(** [kwargs["Statistics"] = standard] only [if standard]. *)
Definition if_any (l : list string) : option (list string) :=
  match l with
  | [] => None
  | _ => Some l
  end.

Definition kwargs_of (namespace : string) (dimensions : list (string * string))
    (metric_def : MetricDef) (start_time end_time period : Z) : Request :=
  {| Namespace := namespace;
     MetricName := metric metric_def;
     Dimensions := dimensions;
     StartTime := start_time;
     EndTime := end_time;
     Period := period;
     Statistics := if_any (standard_of (stats metric_def));
     ExtendedStatistics := if_any (extended_of (stats metric_def)) |}.

(** The body of the loop over [datapoints]. *)
Definition row_of (namespace : string) (dimensions : list (string * string))
    (metric_def : MetricDef) (period : Z) (dp : Datapoint)
  : Py.result (Py.dict value) :=
  match Timestamp dp with
  | None => Py.Raise (Py.KeyError "Timestamp")
  | Some ts =>
      let row :=
        [ ("namespace", VStr namespace);
          ("instance_id", VStr (dimension_value dimensions));
          ("metric_name", VStr (metric metric_def));
          ("category", VStr (category metric_def));
          ("timestamp", VTime ts);
          ("unit", VStr (default "None" (Unit dp)));
          ("period_sec", VInt period) ] in
      let row :=
        fold_left
          (fun row stat =>
             Py.set ("stat_" +:+ Py.lower stat)
                    (float_or_None (Py.get stat (plain dp))) row)
          (standard_of (stats metric_def)) row in
      let row :=
        fold_left
          (fun row stat =>
             Py.set ("stat_" +:+ Py.lower stat)
                    (float_or_None
                       (Py.get stat (default [] (ExtendedStatistics_ dp)))) row)
          (extended_of (stats metric_def)) row in
      Py.Ok row
  end.

(** [fetch_metric_datapoints]: the records, and the requests sent to the
    client. *)
Definition fetch_metric_datapoints (cw_client : Client) (namespace : string)
    (dimensions : list (string * string)) (metric_def : MetricDef)
    (start_time end_time period : Z)
  : Py.result (list (Py.dict value)) * list Request :=
  let kwargs :=
    kwargs_of namespace dimensions metric_def start_time end_time period in
  match cw_client kwargs with
  | Py.Raise _ => (Py.Ok [], [kwargs])
  | Py.Ok response =>
      (Py.for_each (row_of namespace dimensions metric_def period)
                   (default [] response),
       [kwargs])
  end.

(** One of the two loops of [fetch_instance_metrics] over a catalog. *)
Fixpoint fetch_catalog (cw_client : Client) (namespace : string)
    (dimensions : list (string * string)) (catalog : list MetricDef)
    (start_time end_time period : Z)
  : Py.result (list (Py.dict value)) * list Request :=
  match catalog with
  | [] => (Py.Ok [], [])
  | metric_def :: rest =>
      match fetch_metric_datapoints cw_client namespace dimensions metric_def
              start_time end_time period with
      | (Py.Raise e, sent) => (Py.Raise e, sent)
      | (Py.Ok records, sent) =>
          let '(r, sent') :=
            fetch_catalog cw_client namespace dimensions rest
              start_time end_time period in
          (more ← r; Py.Ok (records ++ more), sent ++ sent')
      end
  end.

(** The argument of [rec.update(...)]. *)
Definition metadata (instance_meta : Instance) : Py.dict value :=
  [ ("instance_name", VStr (instance_name instance_meta));
    ("instance_type", VStr (instance_type instance_meta));
    ("state", VStr (state instance_meta));
    ("az", VStr (az instance_meta));
    ("private_ip", VStr (private_ip instance_meta));
    ("public_ip", VStr (public_ip instance_meta));
    ("launch_time", VStr (launch_time instance_meta));
    ("platform", VStr (platform instance_meta)) ].

Definition fetch_instance_metrics (cw_client : Client) (instance_meta : Instance)
    (memory_namespace : string) (start_time end_time period : Z)
  : Py.result (list (Py.dict value)) * list Request :=
  let dims := [("InstanceId", instance_id instance_meta)] in
  match fetch_catalog cw_client "AWS/EC2" dims EC2_STANDARD_METRICS
          start_time end_time period with
  | (Py.Raise e, sent) => (Py.Raise e, sent)
  | (Py.Ok ec2, sent) =>
      match fetch_catalog cw_client memory_namespace dims MEMORY_METRICS
              start_time end_time period with
      | (Py.Raise e, sent') => (Py.Raise e, sent ++ sent')
      | (Py.Ok mem, sent') =>
          (Py.Ok (map (fun rec => Py.update rec (metadata instance_meta))
                      (ec2 ++ mem)),
           sent ++ sent')
      end
  end.

(** *** Frames *)

(** A frame: the column index, and one dict per row whose keys are the
    columns, in the same order. *)
Record DataFrame : Type := {
  columns : list string;
  rows : list (Py.dict value);
}.

(** [pd.DataFrame()]. *)
Definition empty : DataFrame := {| columns := []; rows := [] |}.

(** [col in df.columns]. *)
Definition has (col : string) (cols : list string) : bool :=
  existsb (String.eqb col) cols.

Definition add_column (cols : list string) (col : string) : list string :=
  if has col cols then cols else cols ++ [col].

(** The cells of one row under the given columns; a column the row lacks
    gives the missing value. *)
Definition reindex (cols : list string) (row : Py.dict value) : Py.dict value :=
  map (fun c => (c, default NA (Py.get c row))) cols.

(** [pd.DataFrame(records)]: the columns are the keys of the records in
    the order they first appear. *)
Definition pd_DataFrame (records : list (Py.dict value)) : DataFrame :=
  let cols :=
    fold_left (fun cols rec => fold_left add_column (Py.keys rec) cols)
              records [] in
  {| columns := cols; rows := map (reindex cols) records |}.

(** [df[col] = ...], the new cell computed from the row. *)
Definition setitem (col : string) (cell : Py.dict value -> value)
    (df : DataFrame) : DataFrame :=
  {| columns := add_column (columns df) col;
     rows := map (fun row => Py.set col (cell row) row) (rows df) |}.

(** [df[col] = convert(df[col])] for a conversion that can raise. *)
Definition convert (col : string) (f : value -> Py.result value)
    (df : DataFrame) : Py.result DataFrame :=
  rows' ← Py.for_each
            (fun row => v ← f (default NA (Py.get col row));
                        Py.Ok (Py.set col v row))
            (rows df);
  Py.Ok {| columns := add_column (columns df) col; rows := rows' |}.

(** [df.insert(0, col, v)]. *)
Definition insert0 (col : string) (v : value) (df : DataFrame)
  : Py.result DataFrame :=
  if has col (columns df)
  then Py.Raise (Py.ValueError ("cannot insert " +:+ col +:+ ", already exists"))
  else Py.Ok {| columns := col :: columns df;
                rows := map (cons (col, v)) (rows df) |}.

(** [df[cols]]. *)
Definition getitem (cols : list string) (df : DataFrame) : Py.result DataFrame :=
  match List.filter (fun c => negb (has c (columns df))) cols with
  | [] => Py.Ok {| columns := cols; rows := map (reindex cols) (rows df) |}
  | c :: _ => Py.Raise (Py.KeyError c)
  end.

(** The conversions of the type-enforcement block, cell by cell.  The
    extractor stores instants under [timestamp], an integer under
    [period_sec] and floats or [None] in the statistic columns, and on
    such cells, within the range of the target type, the conversions
    are these.  Text in those columns, which pandas would try to parse,
    is not interpreted here: it is refused by the two strict conversions
    and coerced to NaN by the lenient one, and the statements that speak
    of the outcome of the conversions are made for records with the
    cells of the extractor ([Shape.typed]). *)
Definition to_datetime (v : value) : Py.result value :=
  match v with
  | VTime t => Py.Ok (VTime t)
  | VInt n => Py.Ok (VTime n)
  | VFloat q => Py.Ok (VTime (Qfloor q))
  | VNone | NA => Py.Ok NA
  | VStr _ => Py.Raise (Py.ValueError "Unknown datetime string format")
  end.

(** The signed 32-bit integer a 64-bit one is cut down to. *)
Definition wrap32 (n : Z) : Z := (n + 2 ^ 31) mod 2 ^ 32 - 2 ^ 31.

(** The whole part of a float, rounded toward zero. *)
Definition truncate (q : Q) : Z := Z.quot (Qnum q) (Zpos (Qden q)).

Definition astype_int32 (v : value) : Py.result value :=
  match v with
  | VInt n => Py.Ok (VInt (wrap32 n))
  | VFloat q => Py.Ok (VInt (wrap32 (truncate q)))
  | VTime t => Py.Ok (VInt (wrap32 t))
  | VNone | NA | VStr _ =>
      Py.Raise (Py.ValueError "cannot convert to integer")
  end.

Definition to_numeric (v : value) : value :=
  match v with
  | VFloat q => VFloat q
  | VInt n => VFloat (inject_Z n)
  | VTime t => VFloat (inject_Z t)
  | VNone | NA | VStr _ => NA
  end.

(** The order [sort_values] uses on one column: missing values last.
    The columns the frame is sorted by hold text, and [timestamp]
    instants; between values of different kinds, which pandas refuses to
    compare, the order here is by kind. *)
Definition rank (v : value) : Z :=
  match v with
  | VInt _ | VFloat _ => 0
  | VTime _ => 1
  | VStr _ => 2
  | VNone | NA => 3
  end.

Definition as_Q (v : value) : Q :=
  match v with
  | VInt n => inject_Z n
  | VFloat q => q
  | _ => 0%Q
  end.

Definition value_compare (a b : value) : comparison :=
  match a, b with
  | VStr s, VStr t => String.compare s t
  | VTime s, VTime t => Z.compare s t
  | (VInt _ | VFloat _), (VInt _ | VFloat _) => Qcompare (as_Q a) (as_Q b)
  | _, _ => Z.compare (rank a) (rank b)
  end.

Fixpoint row_compare (by_ : list string) (r1 r2 : Py.dict value) : comparison :=
  match by_ with
  | [] => Eq
  | c :: rest =>
      match value_compare (default NA (Py.get c r1)) (default NA (Py.get c r2)) with
      | Eq => row_compare rest r1 r2
      | o => o
      end
  end.

Fixpoint insert_row (by_ : list string) (r : Py.dict value)
    (sorted : list (Py.dict value)) : list (Py.dict value) :=
  match sorted with
  | [] => [r]
  | r' :: rest =>
      match row_compare by_ r r' with
      | Gt => r' :: insert_row by_ r rest
      | _ => r :: sorted
      end
  end.

(** [df.sort_values(by, inplace=True)] and [reset_index(drop=True)]; the
    order among rows that compare equal is the one they came in. *)
Definition sort_values (by_ : list string) (df : DataFrame) : DataFrame :=
  {| columns := columns df;
     rows := foldr (insert_row by_) [] (rows df) |}.

(** *** Restructure *)

Definition STAT_COLUMNS : list string :=
  ["stat_average"; "stat_maximum"; "stat_minimum"; "stat_sum"].

Definition ordered_cols : list string :=
  [ "extracted_at"; "timestamp";
    "instance_id"; "instance_name"; "instance_type"; "state";
    "az"; "private_ip"; "public_ip"; "platform"; "launch_time";
    "namespace"; "category"; "metric_name"; "unit"; "period_sec";
    "stat_average"; "stat_maximum"; "stat_minimum"; "stat_sum" ].

(** The loop [if col not in df.columns: df[col] = pd.NA]. *)
Definition ensure_columns (cols : list string) (df : DataFrame) : DataFrame :=
  fold_left
    (fun df col => if has col (columns df) then df
                   else setitem col (fun _ => NA) df)
    cols df.

(** The loop over the statistic and the extra columns. *)
Definition numeric_columns (cols : list string) (df : DataFrame) : DataFrame :=
  fold_left
    (fun df col =>
       if has col (columns df)
       then setitem col (fun row => to_numeric (default NA (Py.get col row))) df
       else df)
    cols df.

(** [restructure_dataframe]; [now] is the clock read for [extracted_at],
    whose ISO text the type-enforcement block parses back. *)
Definition restructure_dataframe (records : list (Py.dict value)) (now : Z)
  : Py.result DataFrame :=
  let df := pd_DataFrame records in
  let df := ensure_columns STAT_COLUMNS df in
  df ← insert0 "extracted_at" (VTime now) df;
  let extra_cols :=
    List.filter (fun c => negb (has c ordered_cols)) (columns df) in
  df ← getitem (ordered_cols ++ extra_cols) df;
  df ← convert "timestamp" to_datetime df;
  df ← convert "extracted_at" to_datetime df;
  df ← convert "period_sec" astype_int32 df;
  let df := numeric_columns (STAT_COLUMNS ++ extra_cols) df in
  Py.Ok (sort_values ["instance_id"; "category"; "metric_name"; "timestamp"] df).

(** *** Parallel extraction *)

(** What one future contributes to [all_records]: the records of its
    instance, or nothing when [future.result()] raises. *)
Definition future_records (cw_client : Client) (memory_namespace : string)
    (start_time end_time period : Z) (inst : Instance)
  : list (Py.dict value) :=
  match (fetch_instance_metrics cw_client inst memory_namespace
           start_time end_time period).1 with
  | Py.Ok records => records
  | Py.Raise _ => []
  end.

(** The list [all_records] once the pool is joined; [completed] is the
    order in which [as_completed] hands the futures back. *)
Definition all_records (cw_client : Client) (completed : list Instance)
    (memory_namespace : string) (start_time end_time period : Z)
  : list (Py.dict value) :=
  flat_map (future_records cw_client memory_namespace start_time end_time period)
           completed.

Definition extract_all_ec2_metrics (cw_client : Client)
    (instances completed : list Instance) (memory_namespace : string)
    (start_time end_time period : Z) (now : Z) : Py.result DataFrame :=
  match instances with
  | [] => Py.Ok empty
  | _ =>
      match all_records cw_client completed memory_namespace
              start_time end_time period with
      | [] => Py.Ok empty
      | records => restructure_dataframe records now
      end
  end.

End Collector.

(** ** The load side: [s3ToPostgresETL.py] *)

(** A row of the Parquet files, in the schema [restructure_dataframe] writes.
    Only the columns the load side reads are kept.  [timestamp] is the cell
    after [pd.to_datetime(..., errors="coerce")]: [None] is NaT. *)
Module Raw.
Record t : Type := mk {
  timestamp : option Z;
  instance_id : string;
  instance_name : string;
  instance_type : string;
  metric_name : string;
  category : string;
  unit_ : string;
  az : string;
  platform : string;
  stat_average : option Q;
  stat_maximum : option Q;
  stat_minimum : option Q;
  stat_sum : option Q;
}.
End Raw.

(** The columns of [group_keys], in the order of the source. *)
Module Key.
Record t : Type := mk {
  instance_id : string;
  instance_name : string;
  instance_type : string;
  metric_name : string;
  day_bucket : Z;
  category : string;
  unit_ : string;
  az : string;
  platform : string;
}.

Definition lex (c d : comparison) : comparison :=
  match c with Eq => d | _ => c end.

(** Order of the group index: column by column, strings by code point. *)
Definition compare (a b : t) : comparison :=
  lex (String.compare (instance_id a) (instance_id b))
 (lex (String.compare (instance_name a) (instance_name b))
 (lex (String.compare (instance_type a) (instance_type b))
 (lex (String.compare (metric_name a) (metric_name b))
 (lex (Z.compare (day_bucket a) (day_bucket b))
 (lex (String.compare (category a) (category b))
 (lex (String.compare (unit_ a) (unit_ b))
 (lex (String.compare (az a) (az b))
      (String.compare (platform a) (platform b))))))))).

Definition leb (a b : t) : bool :=
  match compare a b with Gt => false | _ => true end.
End Key.

#[global] Instance Key_eq_dec : EqDecision Key.t.
Proof. solve_decision. Defined.

(** A row of the aggregated frame: the group key and the four
    statistics.  The greatest and the least of a group are values of its
    rows, or missing; a mean and a sum are what the float64 arithmetic
    gives. *)
Module Daily.
Record t : Type := mk {
  key : Key.t;
  stat_average : Py.float;
  stat_maximum : option Q;
  stat_minimum : option Q;
  stat_sum : Py.float;
}.
End Daily.

Module Etl.

Record Config : Type := {
  s3_bucket : string;
  s3_prefix : string;
  lookback_days : option Z;
}.

(** [s3fs.S3FileSystem]: listing, and [fs.open] followed by
    [pd.read_parquet]. *)
Record S3FileSystem : Type := {
  glob : string -> Py.result (list string);
  read_parquet : string -> Py.result (list Raw.t);
}.

(** *** What pandas decides *)

Definition total (xs : list Q) : Q := Qred (fold_left Qplus xs 0%Q).

(** The number is whole. *)
Definition is_whole (q : Q) : bool := Qnum q mod Zpos (Qden q) =? 0.

(** Whole numbers whose magnitudes add up to 2^53 at most: float64
    adds them, in any order and grouping, without rounding. *)
Definition adds_exactly (xs : list Q) : bool :=
  forallb is_whole xs && Qle_bool (total (map Qabs xs)) (inject_Z (2 ^ 53)).

(** The parts of pandas the scripts rely on and do not fix.  Which
    exception leaves the date arithmetic, and how the float64 sum and
    mean of a group are carried out (the order of the additions, the
    compensation of the rounding errors), differs between the versions
    of the library.  Every version adds and divides whole numbers exactly
    as long as the results can be held. *)
Record Pandas : Type := {
  (** raised when a duration or an instant leaves the signed 64-bit count
      of nanoseconds *)
  out_of_bounds : Py.exn;
  (** raised by [pd.Timestamp] for fields that form no date *)
  no_such_date : Z -> Z -> Z -> Py.exn;
  (** the reducers ["sum"] and ["mean"] on the values of a group that are
      not missing, in the order of the rows *)
  np_sum : list Q -> Py.float;
  np_mean : list Q -> Py.float;
  np_sum_exact : forall xs,
    adds_exactly xs = true -> np_sum xs = Py.finite (total xs);
  np_mean_exact : forall xs,
    xs <> [] -> adds_exactly xs = true ->
    is_whole (total xs / inject_Z (Z.of_nat (length xs))) = true ->
    np_mean xs = Py.finite (Qred (total xs / inject_Z (Z.of_nat (length xs))));
}.

(** *** Step 1: extract *)

Definition NS_PER_DAY : Z := 86400000000000.

Definition is_leap (y : Z) : bool :=
  (y mod 4 =? 0) && (negb (y mod 100 =? 0) || (y mod 400 =? 0)).

Definition days_in_month (y m : Z) : Z :=
  if m =? 2 then (if is_leap y then 29 else 28)
  else if (m =? 4) || (m =? 6) || (m =? 9) || (m =? 11) then 30
  else 31.

(** Days from 1970-01-01 to the given civil date. *)
Definition days_from_civil (y m d : Z) : Z :=
  let y' := if m <=? 2 then y - 1 else y in
  let era := y' / 400 in
  let yoe := y' - era * 400 in
  let mp := if 2 <? m then m - 3 else m + 9 in
  let doy := (153 * mp + 2) / 5 + d - 1 in
  let doe := yoe * 365 + yoe / 4 - yoe / 100 + doy in
  era * 146097 + doe - 719468.

(** [pd.Timestamp(year=, month=, day=, tz="UTC")]: the fields must form a
    date of the calendar, years 1 to 9999.  A timestamp built from fields
    is not bound to the nanosecond range. *)
Definition pd_Timestamp (lib : Pandas) (year month day : Z) : Py.result Z :=
  if (1 <=? year) && (year <=? 9999) && (1 <=? month) && (month <=? 12)
     && (1 <=? day) && (day <=? days_in_month year month)
  then Py.Ok (days_from_civil year month day * NS_PER_DAY)
  else Py.Raise (no_such_date lib year month day).

(** One item of the comprehension
    [{p.split("=")[0]: int(p.split("=")[1]) for p in f.split("/") if "=" in p}]. *)
Definition partition_item (p : string) : Py.result (string * Z) :=
  match Py.split "=" p with
  | k :: v :: _ =>
      match Py.int v with
      | Some n => Py.Ok (k, n)
      | None => Py.Raise (Py.ValueError "invalid literal for int() with base 10")
      end
  | _ => Py.Raise (Py.IndexError "list index out of range")
  end.

Definition subscript (parts : Py.dict Z) (k : string) : Py.result Z :=
  match Py.get k parts with
  | Some v => Py.Ok v
  | None => Py.Raise (Py.KeyError k)
  end.

(** The body of the [try]: the date encoded in the path of [f]. *)
Definition file_date (lib : Pandas) (f : string) : Py.result Z :=
  items ← Py.for_each partition_item
            (List.filter (Py.contains "=") (Py.split "/" f));
  let parts := Py.of_items items in
  year ← subscript parts "year";
  month ← subscript parts "month";
  day ← subscript parts "day";
  pd_Timestamp lib year month day.

(** One turn of the loop over [all_files]: the [except] branch keeps the
    file. *)
Definition keep_file (lib : Pandas) (cutoff_date : Z) (f : string) : bool :=
  match file_date lib f with
  | Py.Ok d => cutoff_date <=? d
  | Py.Raise _ => true
  end.

(** A signed 64-bit count of nanoseconds, the least value left to NaT. *)
Definition in_int64 (n : Z) : bool := (- 2 ^ 63 <? n) && (n <? 2 ^ 63).

(** [pd.Timestamp.now(tz="UTC") - pd.Timedelta(days=lookback_days)], which
    stands before the loop and outside its [try]: the duration, and then
    the difference, must fit the nanosecond count. *)
Definition cutoff_date (lib : Pandas) (now lookback : Z) : Py.result Z :=
  if in_int64 (lookback * NS_PER_DAY) && in_int64 (now - lookback * NS_PER_DAY)
  then Py.Ok (now - lookback * NS_PER_DAY)
  else Py.Raise (out_of_bounds lib).

(** [if cfg.get("lookback_days")]: absent, [None] and [0] are falsy. *)
Definition truthy (o : option Z) : bool :=
  match o with
  | Some n => negb (n =? 0)
  | None => false
  end.

(** The lookback filter of [extract_from_s3]; [now] is
    [pd.Timestamp.now(tz="UTC")]. *)
Definition filter_lookback (lib : Pandas) (cfg : Config) (now : Z)
    (all_files : list string) : Py.result (list string) :=
  if truthy (lookback_days cfg) then
    cutoff ← cutoff_date lib now (default 0 (lookback_days cfg));
    Py.Ok (List.filter (keep_file lib cutoff) all_files)
  else Py.Ok all_files.

(** [pd.concat(dfs, ignore_index=True)]. *)
Definition pd_concat (dfs : list (list Raw.t)) : Py.result (list Raw.t) :=
  match dfs with
  | [] => Py.Raise (Py.ValueError "No objects to concatenate")
  | _ => Py.Ok (concat dfs)
  end.

Definition s3_path (cfg : Config) : string :=
  "s3://" +:+ s3_bucket cfg +:+ "/" +:+ s3_prefix cfg +:+ "/".

Definition glob_pattern (cfg : Config) : string :=
  s3_bucket cfg +:+ "/" +:+ s3_prefix cfg +:+ "/**/*.parquet".

Definition extract_from_s3 (lib : Pandas) (cfg : Config) (fs : S3FileSystem)
    (now : Z) : Py.result (list Raw.t) :=
  match glob fs (glob_pattern cfg) with
  | Py.Raise e => Py.Raise (Py.RuntimeError ("Failed to list S3 files: " +:+ Py.str e))
  | Py.Ok all_files =>
      match all_files with
      | [] => Py.Raise (Py.ValueError ("No Parquet files found at " +:+ s3_path cfg))
      | _ =>
          kept ← filter_lookback lib cfg now all_files;
          dfs ← Py.for_each (read_parquet fs) kept;
          pd_concat dfs
      end
  end.

(** *** Step 2: transform *)

(** [df["timestamp"].dt.date], as a day count. *)
Definition day_of (ts : Z) : Z := ts / NS_PER_DAY.

Definition group_key (r : Raw.t) (ts : Z) : Key.t :=
  {| Key.instance_id := Raw.instance_id r;
     Key.instance_name := Raw.instance_name r;
     Key.instance_type := Raw.instance_type r;
     Key.metric_name := Raw.metric_name r;
     Key.day_bucket := day_of ts;
     Key.category := Raw.category r;
     Key.unit_ := Raw.unit_ r;
     Key.az := Raw.az r;
     Key.platform := Raw.platform r |}.

(** [df.dropna(subset=["timestamp"])] and the new [day_bucket] column:
    the rows that survive, each with its group key. *)
Definition with_day_bucket (df : list Raw.t) : list (Key.t * Raw.t) :=
  omap (fun r => ts ← Raw.timestamp r; Some (group_key r ts, r)) df.

(** The reducers of [agg_map]; all of them skip NaN.  On a group with no
    value, mean, max and min give NaN and sum gives 0. *)
Definition dropna (xs : list (option Q)) : list Q := omap id xs.

Definition Qmax (a b : Q) : Q := if Qle_bool a b then b else a.
Definition Qmin (a b : Q) : Q := if Qle_bool a b then a else b.

Definition mean (lib : Pandas) (xs : list (option Q)) : Py.float :=
  match dropna xs with
  | [] => Py.nan
  | vs => np_mean lib vs
  end.

Definition max (xs : list (option Q)) : option Q :=
  match dropna xs with
  | [] => None
  | v :: vs => Some (fold_left Qmax vs v)
  end.

Definition min (xs : list (option Q)) : option Q :=
  match dropna xs with
  | [] => None
  | v :: vs => Some (fold_left Qmin vs v)
  end.

Definition sum (lib : Pandas) (xs : list (option Q)) : Py.float :=
  match dropna xs with
  | [] => Py.finite 0
  | vs => np_sum lib vs
  end.

(** The rows of one group. *)
Definition group (k : Key.t) (rows : list (Key.t * Raw.t)) : list Raw.t :=
  (filter (fun kr => kr.1 = k) rows).*2.

Definition agg (lib : Pandas) (k : Key.t) (g : list Raw.t) : Daily.t :=
  {| Daily.key := k;
     Daily.stat_average := mean lib (map Raw.stat_average g);
     Daily.stat_maximum := max (map Raw.stat_maximum g);
     Daily.stat_minimum := min (map Raw.stat_minimum g);
     Daily.stat_sum := sum lib (map Raw.stat_sum g) |}.

(** The group index: each key once, in increasing order. *)
Fixpoint insert_key (k : Key.t) (ks : list Key.t) : list Key.t :=
  match ks with
  | [] => [k]
  | k' :: rest => if Key.leb k k' then k :: ks else k' :: insert_key k rest
  end.

Definition sort_keys (ks : list Key.t) : list Key.t :=
  foldr insert_key [] ks.

Definition group_index (rows : list (Key.t * Raw.t)) : list Key.t :=
  sort_keys (remove_dups rows.*1).

(** [df.groupby(group_keys, dropna=False).agg(agg_map).reset_index()].
    Every column named in [group_keys] and in [agg_map] exists in
    [Raw.t], so the two guards on [df.columns] keep them all and the last
    loop over the statistic columns adds none. *)
Definition transform_to_daily (lib : Pandas) (df : list Raw.t) : list Daily.t :=
  let rows := with_day_bucket df in
  map (fun k => agg lib k (group k rows)) (group_index rows).

(** *** Step 3: load *)

(** The table [ec2_metrics_latest].  Its unique index on
    (instance_id, metric_name, day_bucket), which
    [on_conflict_do_update(index_elements=...)] names, makes it a finite
    map from that triple to the remaining columns. *)
Record Stored : Type := {
  instance_name : string;
  instance_type : string;
  category : string;
  unit_ : string;
  az : string;
  platform : string;
  stat_average : Py.float;
  stat_maximum : option Q;
  stat_minimum : option Q;
  stat_sum : Py.float;
  loaded_at : option Z;
}.

Abbreviation Table := (gmap (string * string * Z) Stored).

(** What the scripts do not fix about the warehouse: the value
    [loaded_at] takes when a row is inserted without one (the column
    default of the schema file, which is not part of the sources), and
    whether the server refuses a statement for a reason of its own
    (another constraint, a lost connection, a missing table), with the
    exception it raises then. *)
Record Postgres : Type := {
  loaded_at_default : Z -> option Z;
  refuses : Table -> list Daily.t -> option Py.exn;
}.

Definition conflict_key (r : Daily.t) : string * string * Z :=
  (Key.instance_id (Daily.key r), Key.metric_name (Daily.key r),
   Key.day_bucket (Daily.key r)).

(** The columns a record brings, with the given [loaded_at]. *)
Definition excluded (r : Daily.t) (at_ : option Z) : Stored :=
  {| instance_name := Key.instance_name (Daily.key r);
     instance_type := Key.instance_type (Daily.key r);
     category := Key.category (Daily.key r);
     unit_ := Key.unit_ (Daily.key r);
     az := Key.az (Daily.key r);
     platform := Key.platform (Daily.key r);
     stat_average := Daily.stat_average r;
     stat_maximum := Daily.stat_maximum r;
     stat_minimum := Daily.stat_minimum r;
     stat_sum := Daily.stat_sum r;
     loaded_at := at_ |}.

(** One row of [INSERT ... ON CONFLICT (instance_id, metric_name,
    day_bucket) DO UPDATE SET ...]: [update_cols] holds every column but
    the three of the key, and [loaded_at = NOW()]. *)
Definition on_conflict_do_update (pg : Postgres) (now : Z)
    (tbl : Table) (r : Daily.t) : Table :=
  match tbl !! conflict_key r with
  | Some _ => <[conflict_key r := excluded r (Some now)]> tbl
  | None => <[conflict_key r := excluded r (loaded_at_default pg now)]> tbl
  end.

(** PostgreSQL's rule for [INSERT ... ON CONFLICT DO UPDATE]: one
    statement may not touch the same row twice, so it fails when two of
    its rows carry the same conflict key. *)
Fixpoint repeats_key (seen : gmap (string * string * Z) ())
    (batch : list Daily.t) : bool :=
  match batch with
  | [] => false
  | r :: rest =>
      match seen !! conflict_key r with
      | Some _ => true
      | None => repeats_key (<[conflict_key r := tt]> seen) rest
      end
  end.

Definition has_duplicate_key (batch : list Daily.t) : bool :=
  repeats_key ∅ batch.

Definition CardinalityViolation : Py.exn :=
  Py.DBAPIError "ON CONFLICT DO UPDATE command cannot affect row a second time".

Definition _upsert_batch (pg : Postgres) (now : Z) (conn : Table)
    (batch : list Daily.t) : Py.result Table :=
  match refuses pg conn batch with
  | Some e => Py.Raise e
  | None =>
      if has_duplicate_key batch then Py.Raise CardinalityViolation
      else Py.Ok (fold_left (on_conflict_do_update pg now) batch conn)
  end.

Definition BATCH : nat := 1000.

(** [range(0, len(records), BATCH)]. *)
Definition batch_starts (len : nat) : list nat :=
  map (fun j => (j * BATCH)%nat) (seq 0 (Nat.div (len + BATCH - 1) BATCH)).

(** [records[i : i + BATCH]] for each [i] of the range. *)
Definition chunks (records : list Daily.t) : list (list Daily.t) :=
  map (fun i => take BATCH (drop i records)) (batch_starts (length records)).

(** The loop over the chunks on one connection.  The second component
    lists the statements sent, in order. *)
Fixpoint upsert_chunks (pg : Postgres) (now : Z) (conn : Table)
    (todo : list (list Daily.t)) : Py.result Table * list (list Daily.t) :=
  match todo with
  | [] => (Py.Ok conn, [])
  | chunk :: rest =>
      match _upsert_batch pg now conn chunk with
      | Py.Raise e => (Py.Raise e, [chunk])
      | Py.Ok conn' =>
          let '(r, sent) := upsert_chunks pg now conn' rest in
          (r, chunk :: sent)
      end
  end.

(** [upsert_to_postgres]: the result, the table once the
    [with engine.begin()] block is left (committed on a normal exit,
    rolled back when an exception leaves it), and the statements sent.
    [now] is the transaction's [NOW()]. *)
Definition upsert_to_postgres (pg : Postgres) (now : Z)
    (df : list Daily.t) (tbl : Table)
  : Py.result nat * Table * list (list Daily.t) :=
  match df with
  | [] => (Py.Ok 0%nat, tbl, [])
  | _ =>
      match upsert_chunks pg now tbl (chunks df) with
      | (Py.Ok conn, sent) => (Py.Ok (length df), conn, sent)
      | (Py.Raise e, sent) => (Py.Raise e, tbl, sent)
      end
  end.

(** [main], from the extraction on.  [apply_schema] before it and the
    two read-only reports after it leave the rows of the table alone.
    [now] is the clock read by [extract_from_s3], [txn_now] the
    transaction time of the load. *)
Definition main (lib : Pandas) (pg : Postgres) (cfg : Config)
    (fs : S3FileSystem) (now txn_now : Z) (tbl : Table)
  : Py.result nat * Table * list (list Daily.t) :=
  match extract_from_s3 lib cfg fs now with
  | Py.Raise e => (Py.Raise e, tbl, [])
  | Py.Ok raw_df =>
      upsert_to_postgres pg txn_now (transform_to_daily lib raw_df) tbl
  end.

(** *** Vocabulary of the statements about the aggregation *)

(** The row has a timestamp and falls in the group of key [k]. *)
Definition in_group (k : Key.t) (r : Raw.t) : bool :=
  match Raw.timestamp r with
  | Some ts => bool_decide (group_key r ts = k)
  | None => false
  end.

(** *** Vocabulary of the statements about the load *)

(** A stored row without its load time. *)
Definition forget_loaded_at (row : Stored) : Stored :=
  {| instance_name := instance_name row;
     instance_type := instance_type row;
     category := category row;
     unit_ := unit_ row;
     az := az row;
     platform := platform row;
     stat_average := stat_average row;
     stat_maximum := stat_maximum row;
     stat_minimum := stat_minimum row;
     stat_sum := stat_sum row;
     loaded_at := None |}.

(** The last record of a list that carries the given conflict key. *)
Definition last_with_key (k : string * string * Z) (records : list Daily.t)
  : option Daily.t :=
  last (filter (fun r => conflict_key r = k) records).

(** A server with no refusal of its own, and [DEFAULT NOW()] on
    [loaded_at]. *)
Definition accepting : Postgres :=
  {| loaded_at_default := Some; refuses := fun _ _ => None |}.

(** The keys come in strictly increasing order, as those of a daily
    frame do. *)
Fixpoint increasing (ks : list Key.t) : bool :=
  match ks with
  | a :: (b :: _) as rest =>
      match Key.compare a b with Lt => increasing rest | _ => false end
  | _ => true
  end.

(** The stored row holds the columns of the record, one by one. *)
Definition carries (row : Stored) (r : Daily.t) : Prop :=
  instance_name row = Key.instance_name (Daily.key r)
  /\ instance_type row = Key.instance_type (Daily.key r)
  /\ category row = Key.category (Daily.key r)
  /\ unit_ row = Key.unit_ (Daily.key r)
  /\ az row = Key.az (Daily.key r)
  /\ platform row = Key.platform (Daily.key r)
  /\ stat_average row = Daily.stat_average r
  /\ stat_maximum row = Daily.stat_maximum r
  /\ stat_minimum row = Daily.stat_minimum r
  /\ stat_sum row = Daily.stat_sum r.

End Etl.

(** ** Vocabulary of the statements about the collection *)

Module CollectorSpec.
Import Collector.

(** The client that answers with no datapoint wherever [cw_client]
    raises, and like it elsewhere. *)
Definition quiet (cw_client : Client) : Client := fun req =>
  match cw_client req with
  | Py.Raise _ => Py.Ok (Some [])
  | r => r
  end.

(** The (namespace, metric) pairs fetched for every instance. *)
Definition plan (memory_namespace : string) : list (string * MetricDef) :=
  map (pair "AWS/EC2") EC2_STANDARD_METRICS
  ++ map (pair memory_namespace) MEMORY_METRICS.

Definition dims (inst : Instance) : list (string * string) :=
  [("InstanceId", instance_id inst)].

(** Every datapoint the client returns has its ["Timestamp"]. *)
Definition timestamped (cw_client : Client) : Prop :=
  forall req dps dp,
    cw_client req = Py.Ok (Some dps) -> dp ∈ dps -> is_Some (Timestamp dp).

(** What the type-enforcement block makes of a value of a statistic
    column. *)
Definition numeric (v : value) : Prop :=
  v = NA \/ exists q, v = VFloat q.

(** The cell of a record or row under a column, missing when the key
    is absent. *)
Definition view (row : Py.dict value) (c : string) : value :=
  default NA (Py.get c row).

Definition unwrap (r : Py.result value) : value :=
  match r with
  | Py.Ok v => v
  | Py.Raise _ => NA
  end.

(** The cell [restructure_dataframe] leaves under column [c] in the row
    made from record [rec], stated column by column. *)
Definition cell (now : Z) (rec : Py.dict value) (c : string) : value :=
  if String.eqb "extracted_at" c then VTime now
  else if String.eqb "timestamp" c then unwrap (to_datetime (view rec c))
  else if String.eqb "period_sec" c then unwrap (astype_int32 (view rec c))
  else if has c STAT_COLUMNS || negb (has c ordered_cols)
  then to_numeric (view rec c)
  else view rec c.

(** The cells once the three strict conversions are done, before the
    statistic and extra columns are made numeric. *)
Definition staged (now : Z) (rec : Py.dict value) (c : string) : value :=
  if String.eqb "period_sec" c then unwrap (astype_int32 (view rec "period_sec"))
  else if String.eqb "extracted_at" c then VTime now
  else if String.eqb "timestamp" c then unwrap (to_datetime (view rec "timestamp"))
  else view rec c.

(** The rows of a frame follow the records, one for one: each row has
    exactly the columns of the frame, and its cells are given by [V]. *)
Definition tracks (V : Py.dict value -> string -> value)
    (records : list (Py.dict value)) (df : DataFrame) : Prop :=
  Forall2 (fun rec row => Py.keys row = columns df
                          /\ forall c, view row c = V rec c)
          records (rows df).

End CollectorSpec.

(** ** Sample data for the examples *)

Module Sample.

(** 2024-01-01T00:00:00Z and the day it starts. *)
Definition t0 : Z := 1704067200000000000.
Definition day0 : Z := 19723.

(** A datapoint of [r-1] / [CPUUtilization] on 2024-01-01, some minutes
    after midnight, with the given average. *)
Definition cpu_point (minute : Z) (average : Q) : Raw.t :=
  {| Raw.timestamp := Some (t0 + minute * 60000000000);
     Raw.instance_id := "r-1";
     Raw.instance_name := "web";
     Raw.instance_type := "t3.micro";
     Raw.metric_name := "CPUUtilization";
     Raw.category := "CPU";
     Raw.unit_ := "Percent";
     Raw.az := "us-east-1a";
     Raw.platform := "linux";
     Raw.stat_average := Some average;
     Raw.stat_maximum := None;
     Raw.stat_minimum := None;
     Raw.stat_sum := None |}.

Definition one_day : list Raw.t :=
  [cpu_point 1 10%Q; cpu_point 2 20%Q; cpu_point 3 30%Q].

Definition cpu_key (day : Z) : Key.t :=
  {| Key.instance_id := "r-1";
     Key.instance_name := "web";
     Key.instance_type := "t3.micro";
     Key.metric_name := "CPUUtilization";
     Key.day_bucket := day;
     Key.category := "CPU";
     Key.unit_ := "Percent";
     Key.az := "us-east-1a";
     Key.platform := "linux" |}.

(** The aggregate of [r-1] / [CPUUtilization] for a day, with the given
    average. *)
Definition cpu_daily (day : Z) (average : Q) : Daily.t :=
  {| Daily.key := cpu_key day;
     Daily.stat_average := Py.finite average;
     Daily.stat_maximum := None;
     Daily.stat_minimum := None;
     Daily.stat_sum := Py.finite 0 |}.

(** The same aggregate for another instance or instance type. *)
Definition daily_of (id type : string) (day : Z) (average : Q) : Daily.t :=
  {| Daily.key :=
       {| Key.instance_id := id;
          Key.instance_name := "web";
          Key.instance_type := type;
          Key.metric_name := "CPUUtilization";
          Key.day_bucket := day;
          Key.category := "CPU";
          Key.unit_ := "Percent";
          Key.az := "us-east-1a";
          Key.platform := "linux" |};
     Daily.stat_average := Py.finite average;
     Daily.stat_maximum := None;
     Daily.stat_minimum := None;
     Daily.stat_sum := Py.finite 0 |}.

(** A library whose sums and means are the exact ones, which is what
    float64 gives on the whole numbers of these examples. *)
Definition pandas : Etl.Pandas :=
  {| Etl.out_of_bounds := Py.ValueError "Out of bounds nanosecond timestamp";
     Etl.no_such_date := fun _ _ _ => Py.ValueError "date value out of range";
     Etl.np_sum := fun xs => Py.finite (Etl.total xs);
     Etl.np_mean := fun xs =>
       Py.finite (Qred (Etl.total xs / inject_Z (Z.of_nat (length xs))));
     Etl.np_sum_exact := fun _ _ => eq_refl;
     Etl.np_mean_exact := fun _ _ _ _ => eq_refl |}.

(** A datapoint of [r-1] / [NetworkIn] on 2024-01-01, some minutes after
    midnight, with the given number of bytes as its sum. *)
Definition net_point (minute : Z) (bytes : Q) : Raw.t :=
  {| Raw.timestamp := Some (t0 + minute * 60000000000);
     Raw.instance_id := "r-1";
     Raw.instance_name := "web";
     Raw.instance_type := "t3.micro";
     Raw.metric_name := "NetworkIn";
     Raw.category := "Network";
     Raw.unit_ := "Bytes";
     Raw.az := "us-east-1a";
     Raw.platform := "linux";
     Raw.stat_average := Some bytes;
     Raw.stat_maximum := None;
     Raw.stat_minimum := None;
     Raw.stat_sum := Some bytes |}.

Definition net_day : list Raw.t :=
  [net_point 1 20%Q; net_point 2 30%Q; net_point 3 40%Q].

(** The same datapoint after the instance was resized during the day. *)
Definition resized (r : Raw.t) : Raw.t :=
  {| Raw.timestamp := Raw.timestamp r;
     Raw.instance_id := Raw.instance_id r;
     Raw.instance_name := Raw.instance_name r;
     Raw.instance_type := "t3.large";
     Raw.metric_name := Raw.metric_name r;
     Raw.category := Raw.category r;
     Raw.unit_ := Raw.unit_ r;
     Raw.az := Raw.az r;
     Raw.platform := Raw.platform r;
     Raw.stat_average := Raw.stat_average r;
     Raw.stat_maximum := Raw.stat_maximum r;
     Raw.stat_minimum := Raw.stat_minimum r;
     Raw.stat_sum := Raw.stat_sum r |}.

Definition cfg : Etl.Config :=
  {| Etl.s3_bucket := "bucket"; Etl.s3_prefix := "prefix";
     Etl.lookback_days := Some 90 |}.

Definition file0 : string :=
  "bucket/prefix/year=2024/month=01/day=01/metrics_010203.parquet".

(** A store with one file, holding [one_day]. *)
Definition fs : Etl.S3FileSystem :=
  {| Etl.glob := fun _ => Py.Ok [file0];
     Etl.read_parquet := fun _ => Py.Ok one_day |}.

(** A store with nothing under the prefix. *)
Definition empty_fs : Etl.S3FileSystem :=
  {| Etl.glob := fun _ => Py.Ok [];
     Etl.read_parquet := fun _ => Py.Ok one_day |}.

(** The store after one run of the collector, and after a second run
    two hours later: each run has uploaded one object, and as the window
    of the second run covers that of the first, both objects hold the
    datapoints of [net_day]. *)
Definition later_file : string :=
  "bucket/prefix/year=2024/month=01/day=01/metrics_030203.parquet".

Definition net_fs : Etl.S3FileSystem :=
  {| Etl.glob := fun _ => Py.Ok [file0];
     Etl.read_parquet := fun _ => Py.Ok net_day |}.

Definition net_fs_later : Etl.S3FileSystem :=
  {| Etl.glob := fun _ => Py.Ok [file0; later_file];
     Etl.read_parquet := fun _ => Py.Ok net_day |}.

(** A lookback no duration of pandas can hold. *)
Definition endless : Etl.Config :=
  {| Etl.s3_bucket := "bucket"; Etl.s3_prefix := "prefix";
     Etl.lookback_days := Some 1000000000000 |}.

(** The clock of a run on 2024-01-02. *)
Definition clock : Z := 1704153600000000000.

(** A daily frame of 2001 rows, in the order [transform_to_daily] gives:
    a thousand days of [r-0]; day 0 of [r-1], once before and once after
    the instance was resized, and 998 days of [r-2]; day 0 of [r-3].  The
    loader cuts it into three batches, and the second one holds the key
    ([r-1], [CPUUtilization], 0) twice. *)
Definition first_batch : list Daily.t :=
  map (fun d => daily_of "r-0" "t3.micro" (Z.of_nat d) 20%Q) (seq 0 1000).

Definition second_batch : list Daily.t :=
  [daily_of "r-1" "t3.large" 0 20%Q; daily_of "r-1" "t3.micro" 0 25%Q]
  ++ map (fun d => daily_of "r-2" "t3.micro" (Z.of_nat d) 20%Q) (seq 0 998).

Definition third_batch : list Daily.t := [daily_of "r-3" "t3.micro" 0 20%Q].

Definition three_batches : list Daily.t :=
  first_batch ++ second_batch ++ third_batch.

Definition first_loaded : Etl.Table :=
  fold_left (Etl.on_conflict_do_update Etl.accepting 1704153600000000000)
            first_batch ∅.

(** The first two points of [one_day], the instance resized between
    them. *)
Definition resized_day : list Raw.t :=
  [cpu_point 1 10%Q; resized (cpu_point 2 20%Q)].

(** A metric asking for a plain statistic and a percentile. *)
Definition mixed : Collector.MetricDef :=
  {| Collector.metric := "CPUUtilization";
     Collector.stats := ["Average"; "p95"];
     Collector.category := "CPU" |}.

Definition inst : Collector.Instance :=
  {| Collector.instance_id := "r-1";
     Collector.instance_name := "web";
     Collector.instance_type := "t3.micro";
     Collector.state := "running";
     Collector.az := "us-east-1a";
     Collector.private_ip := "10.0.0.1";
     Collector.public_ip := "";
     Collector.launch_time := "2023-12-01T00:00:00+00:00";
     Collector.platform := "linux" |}.

Definition cpu_datapoint : Collector.Datapoint :=
  {| Collector.Timestamp := Some t0;
     Collector.Unit := Some "Percent";
     Collector.plain := [("Average", 10%Q); ("Maximum", 12%Q)];
     Collector.ExtendedStatistics_ := None |}.

(** A client that answers for CPUUtilization, is throttled on NetworkIn
    and has no data for the rest. *)
Definition client : Collector.Client := fun req =>
  if String.eqb (Collector.MetricName req) "CPUUtilization"
  then Py.Ok (Some [cpu_datapoint])
  else if String.eqb (Collector.MetricName req) "NetworkIn"
  then Py.Raise (Py.ClientError "Throttling: Rate exceeded")
  else Py.Ok None.

(** What the extractor collects from [client] for [inst], and the frame
    made of it at [clock]. *)
Definition collected : list (Py.dict Collector.value) :=
  Collector.all_records client [inst] "CWAgent" 0 t0 60.

Definition frame : Collector.DataFrame :=
  match Collector.restructure_dataframe collected clock with
  | Py.Ok df => df
  | Py.Raise _ => Collector.empty
  end.

Definition bad_month : string :=
  "prefix/year=2024/month=13/day=01/metrics_010203.parquet".


(** A store whose listing holds the path with month 13 and [file0]. *)
Definition fs13 : Etl.S3FileSystem :=
  {| Etl.glob := fun _ => Py.Ok [bad_month; file0];
     Etl.read_parquet := fun _ => Py.Ok one_day |}.

Definition an_hour : Z := 3600000000000.

End Sample.

(** ** The rest of the collection side: key, upload, discovery, [main] *)

(** ** Formatting, as the f-strings and [strftime] of the collector do *)

Module Fmt.

Definition digit_char (d : Z) : ascii := ascii_of_nat (Z.to_nat (48 + d)).

(** The decimal digits of a natural number, most significant first, put
    in front of [acc]. *)
Fixpoint decimal (fuel : nat) (n : Z) (acc : string) : string :=
  match fuel with
  | O => acc
  | S fuel' =>
      let acc' := String (digit_char (n mod 10)) acc in
      if n <? 10 then acc' else decimal fuel' (n / 10) acc'
  end.

Definition digits_of (n : Z) : string :=
  decimal (S (Z.to_nat (Z.log2 n))) n "".

(** [str(n)], which is also [f"{n}"]. *)
Definition str (n : Z) : string :=
  if n <? 0 then String "-" (digits_of (- n)) else digits_of n.

Fixpoint zeros (k : nat) (s : string) : string :=
  match k with
  | O => s
  | S k' => String "0" (zeros k' s)
  end.

(** [f"{n:0{w}d}"]: the sign first, then zeros up to the width. *)
Definition zero_padded (w : nat) (n : Z) : string :=
  if n <? 0
  then String "-" (zeros (w - 1 - String.length (digits_of (- n))) (digits_of (- n)))
  else zeros (w - String.length (digits_of n)) (digits_of n).

End Fmt.

(** A [datetime] in UTC, by its fields. *)
Module Datetime.
Record t : Type := mk {
  year : Z;
  month : Z;
  day : Z;
  hour : Z;
  minute : Z;
  second : Z;
  microsecond : Z;
}.

(** [strftime('%H%M%S')]. *)
Definition strftime_HMS (d : t) : string :=
  Fmt.zero_padded 2 (hour d) +:+ Fmt.zero_padded 2 (minute d)
  +:+ Fmt.zero_padded 2 (second d).

(** [isoformat()] of an aware UTC datetime. *)
Definition isoformat (d : t) : string :=
  Fmt.zero_padded 4 (year d) +:+ "-" +:+ Fmt.zero_padded 2 (month d) +:+ "-"
  +:+ Fmt.zero_padded 2 (day d) +:+ "T" +:+ Fmt.zero_padded 2 (hour d) +:+ ":"
  +:+ Fmt.zero_padded 2 (minute d) +:+ ":" +:+ Fmt.zero_padded 2 (second d)
  +:+ (if microsecond d =? 0 then ""
       else "." +:+ Fmt.zero_padded 6 (microsecond d))
  +:+ "+00:00".

(** The instant, in nanoseconds since the epoch. *)
Definition to_ns (d : t) : Z :=
  Etl.days_from_civil (year d) (month d) (day d) * Etl.NS_PER_DAY
  + ((hour d * 60 + minute d) * 60 + second d) * 1000000000
  + microsecond d * 1000.

End Datetime.

(** ** [upload_to_s3] *)

Module Upload.

(** The keyword arguments of [put_object]. *)
Record PutObject : Type := {
  Bucket : string;
  Key : string;
  Body : list Byte.byte;
  ContentType : string;
  Metadata : Py.dict string;
}.

(** The S3 client: the exception of the call, if it raises. *)
Definition Client : Type := PutObject -> option Py.exn.

Definition key (prefix : string) (run_time : Datetime.t) : string :=
  prefix +:+ "/"
  +:+ "year=" +:+ Fmt.str (Datetime.year run_time) +:+ "/"
  +:+ "month=" +:+ Fmt.zero_padded 2 (Datetime.month run_time) +:+ "/"
  +:+ "day=" +:+ Fmt.zero_padded 2 (Datetime.day run_time) +:+ "/"
  +:+ "metrics_" +:+ Datetime.strftime_HMS run_time +:+ ".parquet".

(** [upload_to_s3]: the URI, and the calls made to the client. *)
Definition upload_to_s3 (s3_client : Client) (bucket prefix : string)
    (data : list Byte.byte) (run_time : Datetime.t)
  : Py.result string * list PutObject :=
  let request :=
    {| Bucket := bucket;
       Key := key prefix run_time;
       Body := data;
       ContentType := "application/octet-stream";
       Metadata := [ ("source", "cloudwatch-ec2-extractor");
                     ("extracted_at", Datetime.isoformat run_time) ] |} in
  match s3_client request with
  | Some e => (Py.Raise e, [request])
  | None => (Py.Ok ("s3://" +:+ bucket +:+ "/" +:+ key prefix run_time), [request])
  end.

(** The path under which [fs.glob] lists an object. *)
Definition listed (bucket key : string) : string := bucket +:+ "/" +:+ key.

End Upload.

Module Text.

(** Every character is a decimal digit. *)
Fixpoint all_digits (s : string) : bool :=
  match s with
  | EmptyString => true
  | String c rest =>
      match Py.digit c with Some _ => true | None => false end && all_digits rest
  end.

End Text.

(** ** [discover_ec2_instances] *)

Module Discovery.

(** One element of [reservation["Instances"]]; a field is [None] when
    its key is absent. *)
Record Described : Type := {
  InstanceId : option string;
  Tags : option (list (Py.dict string));
  InstanceType : option string;
  State : option (Py.dict string);
  Placement : option (Py.dict string);
  PrivateIpAddress : option string;
  PublicIpAddress : option string;
  LaunchTime : option Datetime.t;
  Platform : option string;
}.

(** [reservation["Instances"]] and [page["Reservations"]], when the key
    is there. *)
Definition Reservation : Type := option (list Described).
Definition Page : Type := option (list Reservation).

(** The paginator of [describe_instances] for the given filters: the
    pages in order, or the exception of the call that fetches one. *)
Definition Client : Type :=
  list (string * list string) -> list (Py.result Page).

Definition filters : list (string * list string) :=
  [("instance-state-name", ["running"; "stopped"; "pending"])].

(** [d[k]]. *)
Definition item {A : Type} (k : string) (o : option A) : Py.result A :=
  match o with
  | Some a => Py.Ok a
  | None => Py.Raise (Py.KeyError k)
  end.

(** [next((t["Value"] for t in tags if t["Key"] == "Name"), "unnamed")]. *)
Fixpoint name_tag (tags : list (Py.dict string)) : Py.result string :=
  match tags with
  | [] => Py.Ok "unnamed"
  | t :: rest =>
      k ← item "Key" (Py.get "Key" t);
      if String.eqb k "Name" then item "Value" (Py.get "Value" t)
      else name_tag rest
  end.

(** The body of the innermost loop. *)
Definition describe (inst : Described) : Py.result Collector.Instance :=
  name ← name_tag (default [] (Tags inst));
  let launch := LaunchTime inst in
  instance_id ← item "InstanceId" (InstanceId inst);
  state ← item "State" (State inst);
  state_name ← item "Name" (Py.get "Name" state);
  Py.Ok {| Collector.instance_id := instance_id;
           Collector.instance_name := name;
           Collector.instance_type := default "unknown" (InstanceType inst);
           Collector.state := state_name;
           Collector.az :=
             default "" (Py.get "AvailabilityZone" (default [] (Placement inst)));
           Collector.private_ip := default "" (PrivateIpAddress inst);
           Collector.public_ip := default "" (PublicIpAddress inst);
           Collector.launch_time :=
             match launch with
             | Some t => Datetime.isoformat t
             | None => ""
             end;
           Collector.platform := default "linux" (Platform inst) |}.

Definition reservation_instances (reservation : Reservation)
  : Py.result (list Collector.Instance) :=
  insts ← item "Instances" reservation;
  Py.for_each describe insts.

Definition page_instances (page : Page) : Py.result (list Collector.Instance) :=
  reservations ← item "Reservations" page;
  found ← Py.for_each reservation_instances reservations;
  Py.Ok (concat found).

Fixpoint pages_instances (pages : list (Py.result Page))
  : Py.result (list Collector.Instance) :=
  match pages with
  | [] => Py.Ok []
  | Py.Raise e :: _ => Py.Raise e
  | Py.Ok page :: rest =>
      found ← page_instances page;
      more ← pages_instances rest;
      Py.Ok (found ++ more)
  end.

Definition discover_ec2_instances (ec2_client : Client)
  : Py.result (list Collector.Instance) :=
  pages_instances (ec2_client filters).

(** The entries of the pages the paginator hands out, in order. *)
Definition entries (pages : list (Py.result Page)) : list Described :=
  flat_map
    (fun page =>
       match page with
       | Py.Ok (Some reservations) => concat (map (default []) reservations)
       | _ => []
       end)
    pages.

End Discovery.

(** ** The two [load_config] *)

Module Env.

(** [os.environ] once [load_dotenv] has run. *)
Definition environ : Type := gmap string string.

(** [not os.getenv(k)]: the variable is unset or empty. *)
Definition blank (env : environ) (k : string) : bool :=
  match env !! k with
  | Some v => String.eqb v ""
  | None => true
  end.

(** How [load_config] ends: with the configuration, with
    [EnvironmentError] for the keys listed, or with the [ValueError] of
    [int] on the text given. *)
Inductive outcome (A : Type) : Type :=
| Loaded (a : A)
| EnvironmentError (missing : list string)
| ValueError (text : string).
Arguments Loaded {A} a.
Arguments EnvironmentError {A} missing.
Arguments ValueError {A} text.

(** [int(os.getenv(k, n))]. *)
Definition int_or (env : environ) (k : string) (n : Z) : string + Z :=
  match env !! k with
  | None => inr n
  | Some text =>
      match Py.int text with
      | Some v => inr v
      | None => inl text
      end
  end.

End Env.

Module EtlConfig.

Record t : Type := {
  s3_key : string;
  s3_secret : string;
  db_url : string;
  cfg : Etl.Config;
}.

Definition required : list string :=
  [ "S3_ACCESS_KEY_ID"; "S3_SECRET_ACCESS_KEY"; "S3_BUCKET"; "S3_PREFIX";
    "DB_HOST"; "DB_PORT"; "DB_NAME"; "DB_USER"; "DB_PASSWORD" ].

Definition load_config (env : Env.environ) : Env.outcome t :=
  match List.filter (Env.blank env) required with
  | [] =>
      let getenv k := default "None" (env !! k) in
      match Env.int_or env "ETL_LOOKBACK_DAYS" 90 with
      | inl text => Env.ValueError text
      | inr days =>
          Env.Loaded
            {| s3_key := getenv "S3_ACCESS_KEY_ID";
               s3_secret := getenv "S3_SECRET_ACCESS_KEY";
               db_url := "postgresql://" +:+ getenv "DB_USER" +:+ ":"
                         +:+ getenv "DB_PASSWORD" +:+ "@" +:+ getenv "DB_HOST"
                         +:+ ":" +:+ getenv "DB_PORT" +:+ "/" +:+ getenv "DB_NAME";
               cfg := {| Etl.s3_bucket := getenv "S3_BUCKET";
                         Etl.s3_prefix := getenv "S3_PREFIX";
                         Etl.lookback_days := Some days |} |}
      end
  | missing => Env.EnvironmentError missing
  end.

End EtlConfig.

Module CollectorConfig.

Record t : Type := {
  cw_access_key : string;
  cw_secret_key : string;
  s3_access_key : string;
  s3_secret_key : string;
  region : string;
  s3_bucket : string;
  s3_prefix : string;
  lookback_minutes : Z;
  period_seconds : Z;
  memory_namespace : string;
}.

Definition required : list string :=
  [ "AWS_ACCESS_KEY_ID"; "AWS_SECRET_ACCESS_KEY";
    "S3_ACCESS_KEY_ID"; "S3_SECRET_ACCESS_KEY";
    "AWS_REGION"; "S3_BUCKET"; "S3_PREFIX" ].

Definition load_config (env : Env.environ) : Env.outcome t :=
  match List.filter (Env.blank env) required with
  | [] =>
      let getenv k := default "None" (env !! k) in
      match Env.int_or env "LOOKBACK_MINUTES" 60 with
      | inl text => Env.ValueError text
      | inr minutes =>
          match Env.int_or env "PERIOD_SECONDS" 60 with
          | inl text => Env.ValueError text
          | inr seconds =>
              Env.Loaded
                {| cw_access_key := getenv "AWS_ACCESS_KEY_ID";
                   cw_secret_key := getenv "AWS_SECRET_ACCESS_KEY";
                   s3_access_key := getenv "S3_ACCESS_KEY_ID";
                   s3_secret_key := getenv "S3_SECRET_ACCESS_KEY";
                   region := default "us-east-1" (env !! "AWS_REGION");
                   s3_bucket := getenv "S3_BUCKET";
                   s3_prefix := default "ec2-cloudwatch-metrics" (env !! "S3_PREFIX");
                   lookback_minutes := minutes;
                   period_seconds := seconds;
                   memory_namespace :=
                     default "CWAgent" (env !! "MEMORY_METRIC_NAMESPACE") |}
          end
      end
  | missing => Env.EnvironmentError missing
  end.

End CollectorConfig.

(** ** [main] of the collector *)

Module CollectorMain.

(** What [main] talks to. *)
Record Services : Type := {
  ec2 : Discovery.Client;
  cloudwatch : Collector.Client;
  (** the order in which [as_completed] hands the futures back: each
      future once *)
  as_completed : list Collector.Instance -> list Collector.Instance;
  as_completed_once : forall instances, as_completed instances ≡ₚ instances;
  s3 : Upload.Client;
  (** [to_parquet_bytes], the serialisation done by pyarrow *)
  to_parquet_bytes : Collector.DataFrame -> Py.result (list Byte.byte);
  (** [open(name, "wb")] and [f.write(data)]: the exception, if any *)
  write_file : string -> list Byte.byte -> option Py.exn;
}.

(** What a run has done: the requests sent to CloudWatch, the calls of
    [put_object], and the local files written. *)
Record Trace : Type := {
  requests : list Collector.Request;
  puts : list Upload.PutObject;
  writes : list (string * list Byte.byte);
}.

(** [df.empty]. *)
Definition is_empty (df : Collector.DataFrame) : bool :=
  match Collector.rows df, Collector.columns df with
  | [], _ | _, [] => true
  | _, _ => false
  end.

(** [strftime('%Y%m%d_%H%M%S')], for the years from 1000 on. *)
Definition strftime_Ymd_HMS (t : Datetime.t) : string :=
  Fmt.zero_padded 4 (Datetime.year t) +:+ Fmt.zero_padded 2 (Datetime.month t)
  +:+ Fmt.zero_padded 2 (Datetime.day t) +:+ "_" +:+ Datetime.strftime_HMS t.

Definition local_file (run_time : Datetime.t) : string :=
  "ec2_metrics_" +:+ strftime_Ymd_HMS run_time +:+ ".parquet".

(** [timedelta(days=5)], in nanoseconds. *)
Definition five_days : Z := 432000000000000.

(** The requests of the pool, future by future. *)
Definition pool_requests (cw_client : Collector.Client)
    (completed : list Collector.Instance) (memory_namespace : string)
    (start_time end_time period : Z) : list Collector.Request :=
  flat_map
    (fun inst => (Collector.fetch_instance_metrics cw_client inst
                    memory_namespace start_time end_time period).2)
    completed.

(** [main], from the discovery on.  [run_time] is the clock read at the
    start, [now] the one read by [restructure_dataframe]. *)
Definition main (cfg : CollectorConfig.t) (w : Services)
    (run_time : Datetime.t) (now : Z) : Py.result unit * Trace :=
  let quiet := {| requests := []; puts := []; writes := [] |} in
  match Discovery.discover_ec2_instances (ec2 w) with
  | Py.Raise e => (Py.Raise e, quiet)
  | Py.Ok [] => (Py.Ok tt, quiet)
  | Py.Ok instances =>
      let end_time := Datetime.to_ns run_time in
      let start_time := end_time - five_days in
      let completed := as_completed w instances in
      let sent :=
        pool_requests (cloudwatch w) completed
          (CollectorConfig.memory_namespace cfg) start_time end_time
          (CollectorConfig.period_seconds cfg) in
      let fetched := {| requests := sent; puts := []; writes := [] |} in
      match Collector.extract_all_ec2_metrics (cloudwatch w) instances completed
              (CollectorConfig.memory_namespace cfg) start_time end_time
              (CollectorConfig.period_seconds cfg) now with
      | Py.Raise e => (Py.Raise e, fetched)
      | Py.Ok df =>
          if is_empty df then (Py.Ok tt, fetched)
          else
            match to_parquet_bytes w df with
            | Py.Raise e => (Py.Raise e, fetched)
            | Py.Ok parquet_bytes =>
                match Upload.upload_to_s3 (s3 w) (CollectorConfig.s3_bucket cfg)
                        (CollectorConfig.s3_prefix cfg) parquet_bytes run_time with
                | (Py.Raise e, calls) =>
                    (Py.Raise e,
                     {| requests := sent; puts := calls; writes := [] |})
                | (Py.Ok _, calls) =>
                    let written := [(local_file run_time, parquet_bytes)] in
                    match write_file w (local_file run_time) parquet_bytes with
                    | Some e =>
                        (Py.Raise e,
                         {| requests := sent; puts := calls; writes := written |})
                    | None =>
                        (Py.Ok tt,
                         {| requests := sent; puts := calls; writes := written |})
                    end
                end
            end
      end
  end.

End CollectorMain.

(** ** Vocabulary of the further statements *)

Module Plan.
Import Collector.

(** The requests of one instance, in the order of the two catalogs. *)
Definition requests (inst : Instance) (memory_namespace : string)
    (start_time end_time period : Z) : list Request :=
  map (fun nd => kwargs_of nd.1 (CollectorSpec.dims inst) nd.2
                   start_time end_time period)
      (CollectorSpec.plan memory_namespace).

(** The keys the extractor and the metadata merge give every record. *)
Definition record_keys : list string :=
  [ "namespace"; "instance_id"; "metric_name"; "category"; "timestamp";
    "unit"; "period_sec";
    "instance_name"; "instance_type"; "state"; "az"; "private_ip";
    "public_ip"; "launch_time"; "platform" ].

(** [c.startswith(p)]. *)
Fixpoint starts_with (p c : string) : bool :=
  match p with
  | EmptyString => true
  | String a p' =>
      match c with
      | EmptyString => false
      | String b c' => Ascii.eqb a b && starts_with p' c'
      end
  end.

End Plan.

#[global] Instance Instance_eq_dec : EqDecision Collector.Instance.
Proof. solve_decision. Defined.

Module Shape.
Import Collector CollectorSpec.

(** What every record of an instance looks like once the metadata has
    been merged into it. *)
Definition stamped (inst : Instance) (memory_namespace : string) (period : Z)
    (rec : Py.dict value) : Prop :=
  view rec "instance_id" = VStr (instance_id inst)
  /\ view rec "instance_name" = VStr (instance_name inst)
  /\ view rec "instance_type" = VStr (instance_type inst)
  /\ view rec "state" = VStr (state inst)
  /\ view rec "az" = VStr (az inst)
  /\ view rec "private_ip" = VStr (private_ip inst)
  /\ view rec "public_ip" = VStr (public_ip inst)
  /\ view rec "launch_time" = VStr (launch_time inst)
  /\ view rec "platform" = VStr (platform inst)
  /\ view rec "period_sec" = VInt period
  /\ (exists t, view rec "timestamp" = VTime t)
  /\ (exists u, view rec "unit" = VStr u)
  /\ (exists namespace metric_def,
        (namespace, metric_def) ∈ plan memory_namespace
        /\ view rec "namespace" = VStr namespace
        /\ view rec "metric_name" = VStr (metric metric_def)
        /\ view rec "category" = VStr (category metric_def))
  /\ (forall c, c ∈ Plan.record_keys -> c ∈ Py.keys rec)
  /\ (forall c, c ∈ Py.keys rec ->
        c ∈ Plan.record_keys \/ Plan.starts_with "stat_" c = true).

(** The cells the extractor stores under the columns that the
    type-enforcement block converts strictly or sorts by: under timestamp
    an instant, which pandas can hold as a count of nanoseconds; under
    period_sec an integer, which fits 32 bits; text under instance_id,
    category and metric_name. *)
Definition typed (rec : Py.dict value) : bool :=
  match view rec "timestamp", view rec "period_sec", view rec "instance_id",
        view rec "category", view rec "metric_name" with
  | VTime t, VInt n, VStr _, VStr _, VStr _ =>
      (- 2 ^ 63 <? t) && (t <? 2 ^ 63) && (- 2 ^ 31 <=? n) && (n <? 2 ^ 31)
  | _, _, _, _, _ => false
  end.

(** What a row is sorted by. *)
Definition sort_key (row : Py.dict value)
  : option (string * string * string * Z) :=
  match view row "instance_id", view row "category",
        view row "metric_name", view row "timestamp" with
  | VStr i, VStr c, VStr m, VTime t => Some (i, c, m, t)
  | _, _, _, _ => None
  end.

(** The order of the sort keys: instance_id first, then category, then
    metric_name, each as Python compares text, then the timestamp. *)
Definition key_le (a b : string * string * string * Z) : Prop :=
  let '(i1, c1, m1, t1) := a in
  let '(i2, c2, m2, t2) := b in
  String.compare i1 i2 = Lt
  \/ (i1 = i2
      /\ (String.compare c1 c2 = Lt
          \/ (c1 = c2
              /\ (String.compare m1 m2 = Lt
                  \/ (m1 = m2 /\ t1 <= t2))))).

(** The row comes before the other, or they have the same sort key. *)
Definition in_order (a b : Py.dict value) : Prop :=
  exists ka kb, sort_key a = Some ka /\ sort_key b = Some kb /\ key_le ka kb.

End Shape.

(** The conditions under which [restructure_dataframe] returns. *)
Definition restructurable (records : list (Py.dict Collector.value)) : Prop :=
  (forall rec, rec ∈ records -> "extracted_at" ∉ Py.keys rec)
  /\ (forall c, c ∈ Collector.ordered_cols ->
        c = "extracted_at" \/ c ∈ Collector.STAT_COLUMNS
        \/ exists rec, rec ∈ records /\ c ∈ Py.keys rec)
  /\ (forall rec, rec ∈ records ->
        Py.is_ok (Collector.to_datetime (CollectorSpec.view rec "timestamp"))
        = true
        /\ Py.is_ok (Collector.astype_int32
                       (CollectorSpec.view rec "period_sec")) = true).

(** The row has a timestamp. *)
Definition has_timestamp (r : Raw.t) : bool :=
  match Raw.timestamp r with Some _ => true | None => false end.

(** Two statistics that are both missing or hold the same number. *)
Definition same_number (a b : option Q) : Prop :=
  match a, b with
  | Some x, Some y => (x == y)%Q
  | None, None => True
  | _, _ => False
  end.

(** Three comparisons that compose as those of a strict order do. *)
Definition composes (c1 c2 c3 : comparison) : Prop :=
  (c1 = Eq -> c2 = Eq -> c3 = Eq) /\ (c1 = Eq -> c2 = Lt -> c3 = Lt)
  /\ (c1 = Lt -> c2 = Eq -> c3 = Lt) /\ (c1 = Lt -> c2 = Lt -> c3 = Lt).

(** ** Further sample data *)

Module Cases.

(** The clock of a run on 2025-01-01, a year after [Sample.file0] was
    written. *)
Definition late_clock : Z := 1735689600000000000.

Definition file1 : string :=
  "bucket/prefix/year=2024/month=01/day=02/metrics_010203.parquet".

(** A store with two files, the second of which cannot be read. *)
Definition broken_fs : Etl.S3FileSystem :=
  {| Etl.glob := fun _ => Py.Ok [Sample.file0; file1];
     Etl.read_parquet := fun f =>
       if String.eqb f file1 then Py.Raise (Py.ClientError "AccessDenied")
       else Py.Ok Sample.one_day |}.

End Cases.

Module Scenario.

(** A row of a collected file whose timestamp is missing. *)
Definition untimed : Raw.t :=
  {| Raw.timestamp := None;
     Raw.instance_id := "r-1";
     Raw.instance_name := "web";
     Raw.instance_type := "t3.micro";
     Raw.metric_name := "CPUUtilization";
     Raw.category := "CPU";
     Raw.unit_ := "Percent";
     Raw.az := "us-east-1a";
     Raw.platform := "linux";
     Raw.stat_average := Some 10%Q;
     Raw.stat_maximum := None;
     Raw.stat_minimum := None;
     Raw.stat_sum := None |}.

(** A store with one file, holding [untimed] only. *)
Definition untimed_fs : Etl.S3FileSystem :=
  {| Etl.glob := fun _ => Py.Ok [Sample.file0];
     Etl.read_parquet := fun _ => Py.Ok [untimed] |}.

(** The aggregate of [Sample.one_day]. *)
Definition one_day_daily : Daily.t :=
  Etl.agg Sample.pandas (Sample.cpu_key Sample.day0) Sample.one_day.

(** The record the extractor makes of [Sample.cpu_datapoint]. *)
Definition cpu_record : Py.dict Collector.value :=
  default [] (head Sample.collected).

(** A datapoint without its ["Timestamp"], and a client that answers
    every request with it. *)
Definition untimed_point : Collector.Datapoint :=
  {| Collector.Timestamp := None;
     Collector.Unit := Some "Percent";
     Collector.plain := [("Average", 10%Q)];
     Collector.ExtendedStatistics_ := None |}.

Definition untimed_client : Collector.Client :=
  fun _ => Py.Ok (Some [untimed_point]).

Definition cpu_metric : Collector.MetricDef :=
  {| Collector.metric := "CPUUtilization";
     Collector.stats := ["Average"; "Maximum"; "Minimum"];
     Collector.category := "CPU" |}.

Definition network_in : Collector.MetricDef :=
  {| Collector.metric := "NetworkIn";
     Collector.stats := ["Sum"; "Average"];
     Collector.category := "Network" |}.

(** The row the fetch makes of [Sample.cpu_datapoint], before the
    metadata of the instance is merged into it. *)
Definition cpu_row : Py.dict Collector.value :=
  [ ("namespace", Collector.VStr "AWS/EC2");
    ("instance_id", Collector.VStr "r-1");
    ("metric_name", Collector.VStr "CPUUtilization");
    ("category", Collector.VStr "CPU");
    ("timestamp", Collector.VTime Sample.t0);
    ("unit", Collector.VStr "Percent");
    ("period_sec", Collector.VInt 60);
    ("stat_average", Collector.VFloat 10);
    ("stat_maximum", Collector.VFloat 12);
    ("stat_minimum", Collector.VNone) ].

(** A client that answers for CPUUtilization with two datapoints, the
    later one first, and for NetworkIn with one; what the extractor
    collects from it, and the frame made of that. *)
Definition later_datapoint : Collector.Datapoint :=
  {| Collector.Timestamp := Some (Sample.t0 + 60000000000);
     Collector.Unit := Some "Percent";
     Collector.plain := [("Average", 20%Q); ("Maximum", 22%Q)];
     Collector.ExtendedStatistics_ := None |}.

Definition network_datapoint : Collector.Datapoint :=
  {| Collector.Timestamp := Some Sample.t0;
     Collector.Unit := Some "Bytes";
     Collector.plain := [("Sum", 90%Q); ("Average", 30%Q)];
     Collector.ExtendedStatistics_ := None |}.

Definition busy_client : Collector.Client := fun req =>
  if String.eqb (Collector.MetricName req) "CPUUtilization"
  then Py.Ok (Some [later_datapoint; Sample.cpu_datapoint])
  else if String.eqb (Collector.MetricName req) "NetworkIn"
  then Py.Ok (Some [network_datapoint])
  else Py.Ok None.

Definition busy_records : list (Py.dict Collector.value) :=
  Collector.all_records busy_client [Sample.inst] "CWAgent" 0 Sample.t0 60.

Definition busy_frame : Collector.DataFrame :=
  match Collector.restructure_dataframe busy_records Sample.clock with
  | Py.Ok df => df
  | Py.Raise _ => Collector.empty
  end.

(** A run of the collector on 2024-01-01 at 01:02:03. *)
Definition run_time : Datetime.t :=
  {| Datetime.year := 2024; Datetime.month := 1; Datetime.day := 1;
     Datetime.hour := 1; Datetime.minute := 2; Datetime.second := 3;
     Datetime.microsecond := 0 |}.

Definition put : Upload.PutObject :=
  {| Upload.Bucket := "bucket";
     Upload.Key := Upload.key "prefix" run_time;
     Upload.Body := [];
     Upload.ContentType := "application/octet-stream";
     Upload.Metadata := [ ("source", "cloudwatch-ec2-extractor");
                          ("extracted_at", Datetime.isoformat run_time) ] |}.

(** The environment of the collector with the seven required variables
    and nothing else. *)
Definition collector_env : Env.environ :=
  list_to_map
    [ ("AWS_ACCESS_KEY_ID", "AKIA1"); ("AWS_SECRET_ACCESS_KEY", "s1");
      ("S3_ACCESS_KEY_ID", "AKIA2"); ("S3_SECRET_ACCESS_KEY", "s2");
      ("AWS_REGION", "eu-west-1"); ("S3_BUCKET", "bucket");
      ("S3_PREFIX", "prefix") ].

Definition collector_cfg : CollectorConfig.t :=
  {| CollectorConfig.cw_access_key := "AKIA1";
     CollectorConfig.cw_secret_key := "s1";
     CollectorConfig.s3_access_key := "AKIA2";
     CollectorConfig.s3_secret_key := "s2";
     CollectorConfig.region := "eu-west-1";
     CollectorConfig.s3_bucket := "bucket";
     CollectorConfig.s3_prefix := "prefix";
     CollectorConfig.lookback_minutes := 60;
     CollectorConfig.period_seconds := 60;
     CollectorConfig.memory_namespace := "CWAgent" |}.

(** What [describe_instances] says of one running instance. *)
Definition described : Discovery.Described :=
  {| Discovery.InstanceId := Some "r-1";
     Discovery.Tags := Some [[("Key", "Name"); ("Value", "web")]];
     Discovery.InstanceType := Some "t3.micro";
     Discovery.State := Some [("Name", "running")];
     Discovery.Placement := Some [("AvailabilityZone", "us-east-1a")];
     Discovery.PrivateIpAddress := Some "10.0.0.1";
     Discovery.PublicIpAddress := None;
     Discovery.LaunchTime := None;
     Discovery.Platform := None |}.

Definition found : Collector.Instance :=
  {| Collector.instance_id := "r-1";
     Collector.instance_name := "web";
     Collector.instance_type := "t3.micro";
     Collector.state := "running";
     Collector.az := "us-east-1a";
     Collector.private_ip := "10.0.0.1";
     Collector.public_ip := "";
     Collector.launch_time := "";
     Collector.platform := "linux" |}.

(** Services with one instance, for which CloudWatch answers as
    [Sample.client] does; every write succeeds. *)
Definition services : CollectorMain.Services :=
  {| CollectorMain.ec2 := fun _ => [Py.Ok (Some [Some [described]])];
     CollectorMain.cloudwatch := Sample.client;
     CollectorMain.as_completed := fun instances => instances;
     CollectorMain.as_completed_once := fun instances => Permutation_refl _;
     CollectorMain.s3 := fun _ => None;
     CollectorMain.to_parquet_bytes := fun _ => Py.Ok [];
     CollectorMain.write_file := fun _ _ => None |}.

(** The same services when CloudWatch has no data at all. *)
Definition silent : CollectorMain.Services :=
  {| CollectorMain.ec2 := fun _ => [Py.Ok (Some [Some [described]])];
     CollectorMain.cloudwatch := fun _ => Py.Ok None;
     CollectorMain.as_completed := fun instances => instances;
     CollectorMain.as_completed_once := fun instances => Permutation_refl _;
     CollectorMain.s3 := fun _ => None;
     CollectorMain.to_parquet_bytes := fun _ => Py.Ok [];
     CollectorMain.write_file := fun _ _ => None |}.

(** The first request of the run of [services] at [run_time]. *)
Definition first_request : Collector.Request :=
  Collector.kwargs_of "AWS/EC2" (CollectorSpec.dims found) cpu_metric
    (Datetime.to_ns run_time - CollectorMain.five_days)
    (Datetime.to_ns run_time) 60.

End Scenario.

(** * Facts about the load side *)

Section Chunks.
Context {A : Type}.

Lemma concat_take_drop (n : nat) (l : list A) (k : nat) :
  concat (map (fun i => take n (drop i l))
              (map (fun j => (j * n)%nat) (seq 0 k)))
  = take (k * n) l.
Proof.
  induction k as [|k IH].
  - reflexivity.
  - rewrite seq_S, !map_app, concat_app, IH. simpl.
    rewrite app_nil_r, take_take_drop. f_equal. lia.
Qed.
End Chunks.

Lemma concat_chunks (records : list Daily.t) :
  concat (Etl.chunks records) = records.
Proof.
  unfold Etl.chunks, Etl.batch_starts.
  rewrite concat_take_drop. apply take_ge.
  generalize (length records). intros n.
  assert (Hb : Etl.BATCH <> 0%nat) by (unfold Etl.BATCH; lia).
  pose proof (Nat.div_mod_eq (n + Etl.BATCH - 1) Etl.BATCH) as Hd.
  pose proof (Nat.mod_upper_bound (n + Etl.BATCH - 1) Etl.BATCH Hb) as Hm.
  revert Hb Hd Hm. generalize ((n + Etl.BATCH - 1) / Etl.BATCH)%nat.
  generalize ((n + Etl.BATCH - 1) mod Etl.BATCH)%nat.
  generalize Etl.BATCH. intros b m d Hb Hd Hm. nia.
Qed.

Section Loader.
Variable pg : Etl.Postgres.
Variable now : Z.

Let step := Etl.on_conflict_do_update pg now.

Lemma step_lookup_eq (tbl : Etl.Table) (r : Daily.t) :
  step tbl r !! Etl.conflict_key r
  = Some (Etl.excluded r (match tbl !! Etl.conflict_key r with
                          | Some _ => Some now
                          | None => Etl.loaded_at_default pg now
                          end)).
Proof.
  unfold step, Etl.on_conflict_do_update.
  destruct (tbl !! Etl.conflict_key r); apply lookup_insert_eq.
Qed.

Lemma step_lookup_ne (tbl : Etl.Table) (r : Daily.t) (k : string * string * Z) :
  Etl.conflict_key r <> k -> step tbl r !! k = tbl !! k.
Proof.
  intros Hne. unfold step, Etl.on_conflict_do_update.
  destruct (tbl !! Etl.conflict_key r); by apply lookup_insert_ne.
Qed.

Lemma load_lookup_other (records : list Daily.t) (tbl : Etl.Table)
    (k : string * string * Z) :
  k ∉ map Etl.conflict_key records ->
  fold_left step records tbl !! k = tbl !! k.
Proof.
  revert tbl. induction records as [|r records IH]; intros tbl Hk; [done|].
  simpl in *. rewrite not_elem_of_cons in Hk. destruct Hk as [Hne Hk].
  rewrite IH by done. by apply step_lookup_ne.
Qed.

Lemma load_is_Some (records : list Daily.t) (tbl : Etl.Table)
    (k : string * string * Z) :
  is_Some (fold_left step records tbl !! k)
  <-> is_Some (tbl !! k) \/ k ∈ map Etl.conflict_key records.
Proof.
  revert tbl. induction records as [|r records IH]; intros tbl; simpl.
  - rewrite elem_of_nil. tauto.
  - rewrite IH, elem_of_cons.
    destruct (decide (Etl.conflict_key r = k)) as [<-|Hne].
    + rewrite step_lookup_eq. split; [auto|]. intros _. left. eauto.
    + rewrite step_lookup_ne by done. split; [tauto|].
      intros [?|[?|?]]; [tauto|congruence|tauto].
Qed.


Lemma last_with_key_snoc (k : string * string * Z) (records : list Daily.t)
    (r : Daily.t) :
  Etl.last_with_key k (records ++ [r])
  = if decide (Etl.conflict_key r = k) then Some r
    else Etl.last_with_key k records.
Proof.
  unfold Etl.last_with_key. rewrite filter_app.
  destruct (decide (Etl.conflict_key r = k)) as [He|Hne].
  - rewrite filter_cons_True, filter_nil by done. apply last_snoc.
  - rewrite filter_cons_False, filter_nil by done. by rewrite app_nil_r.
Qed.

(** Apart from [loaded_at], the row under a key after a load is the one
    the last record with that key brings, and the old one when no record
    has the key. *)
Lemma load_lookup_forget (records : list Daily.t) (tbl : Etl.Table)
    (k : string * string * Z) :
  Etl.forget_loaded_at <$> fold_left step records tbl !! k
  = match Etl.last_with_key k records with
    | Some r => Some (Etl.excluded r None)
    | None => Etl.forget_loaded_at <$> tbl !! k
    end.
Proof.
  induction records as [|r records IH] using rev_ind; [done|].
  rewrite fold_left_app, last_with_key_snoc. simpl.
  destruct (decide (Etl.conflict_key r = k)) as [<-|Hne].
  - by rewrite step_lookup_eq.
  - by rewrite step_lookup_ne.
Qed.

Lemma last_with_key_None (k : string * string * Z) (records : list Daily.t) :
  Etl.last_with_key k records = None <-> k ∉ map Etl.conflict_key records.
Proof.
  induction records as [|r records IH] using rev_ind.
  - split; [intros _; apply not_elem_of_nil | done].
  - rewrite last_with_key_snoc, map_app, not_elem_of_app. simpl.
    rewrite list_elem_of_singleton.
    destruct (decide (Etl.conflict_key r = k)) as [<-|Hne].
    + split; [done | tauto].
    + rewrite IH. split; [intros ?; split; [done | congruence] | tauto].
Qed.

Lemma last_with_key_Some (k : string * string * Z) (records : list Daily.t)
    (r : Daily.t) :
  Etl.last_with_key k records = Some r -> r ∈ records /\ Etl.conflict_key r = k.
Proof.
  unfold Etl.last_with_key. intros Hl.
  apply last_Some_elem_of in Hl. by apply list_elem_of_filter in Hl as [? ?].
Qed.

(** A load that is accepted throughout is the fold of the single-row
    step over the records in order, and every chunk has been sent. *)
Lemma upsert_chunks_Ok (todo : list (list Daily.t)) (conn conn' : Etl.Table)
    (sent : list (list Daily.t)) :
  Etl.upsert_chunks pg now conn todo = (Py.Ok conn', sent) ->
  sent = todo /\ conn' = fold_left step (concat todo) conn.
Proof.
  revert conn sent. induction todo as [|chunk todo IH]; intros conn sent; simpl.
  - intros [= <- <-]. done.
  - unfold Etl._upsert_batch. destruct (Etl.refuses pg conn chunk); [done|].
    destruct (Etl.has_duplicate_key chunk); [done|].
    destruct (Etl.upsert_chunks pg now _ todo) as [r sent'] eqn:Hrest.
    intros [= -> <-]. apply IH in Hrest as [-> ->].
    by rewrite fold_left_app.
Qed.

(** A load that is accepted throughout has sent no chunk that repeats a
    key. *)
Lemma upsert_chunks_Ok_keys (todo : list (list Daily.t)) (conn conn' : Etl.Table)
    (sent : list (list Daily.t)) :
  Etl.upsert_chunks pg now conn todo = (Py.Ok conn', sent) ->
  Forall (fun chunk => Etl.has_duplicate_key chunk = false) todo.
Proof.
  revert conn sent. induction todo as [|chunk todo IH]; intros conn sent; simpl.
  - constructor.
  - unfold Etl._upsert_batch. destruct (Etl.refuses pg conn chunk); [done|].
    destruct (Etl.has_duplicate_key chunk) eqn:Hdup; [done|].
    destruct (Etl.upsert_chunks pg now _ todo) as [r sent'] eqn:Hrest.
    intros [= -> <-]. constructor; [done|]. by eapply IH.
Qed.

(** A load that raises stopped at the first chunk that was refused: the
    chunks before it went through, it was sent, none after it was. *)
Lemma upsert_chunks_Raise (todo : list (list Daily.t)) (conn : Etl.Table)
    (e : Py.exn) (sent : list (list Daily.t)) :
  Etl.upsert_chunks pg now conn todo = (Py.Raise e, sent) ->
  exists done_ failed rest,
    todo = done_ ++ failed :: rest
    /\ sent = done_ ++ [failed]
    /\ Etl._upsert_batch pg now (fold_left step (concat done_) conn) failed
       = Py.Raise e
    /\ Etl.upsert_chunks pg now conn done_
       = (Py.Ok (fold_left step (concat done_) conn), done_).
Proof.
  revert conn sent. induction todo as [|chunk todo IH]; intros conn sent; simpl.
  - done.
  - destruct (Etl._upsert_batch pg now conn chunk) as [conn1|e'] eqn:Hb.
    + destruct (Etl.upsert_chunks pg now _ todo) as [r sent'] eqn:Hrest.
      intros [= -> <-].
      assert (conn1 = fold_left step chunk conn) as ->.
      { unfold Etl._upsert_batch in Hb.
        destruct (Etl.refuses pg conn chunk); [done|].
        destruct (Etl.has_duplicate_key chunk); [done|]. by injection Hb as <-. }
      apply IH in Hrest as (done_ & failed & rest & -> & -> & Hf & Hd).
      exists (chunk :: done_), failed, rest. simpl.
      rewrite Hb, Hd, fold_left_app. done.
    + intros [= -> <-]. exists [], chunk, todo. done.
Qed.
End Loader.

Lemma chunks_nil : Etl.chunks [] = [].
Proof. reflexivity. Qed.

(** The two ways [upsert_to_postgres] ends: every record merged in order
    and the count returned, or an exception and the table as it was. *)
Lemma upsert_to_postgres_cases (pg : Etl.Postgres) (now : Z) (df : list Daily.t)
    (tbl tbl' : Etl.Table) (r : Py.result nat) (sent : list (list Daily.t)) :
  Etl.upsert_to_postgres pg now df tbl = (r, tbl', sent) ->
  (r = Py.Ok (length df)
   /\ tbl' = fold_left (Etl.on_conflict_do_update pg now) df tbl
   /\ sent = Etl.chunks df)
  \/ (exists e, r = Py.Raise e /\ tbl' = tbl).
Proof.
  unfold Etl.upsert_to_postgres. destruct df as [|r0 df].
  - intros [= <- <- <-]. left. done.
  - destruct (Etl.upsert_chunks pg now tbl (Etl.chunks (r0 :: df)))
      as [[conn|e] sent'] eqn:Hc; intros [= <- <- <-].
    + left. apply upsert_chunks_Ok in Hc as [-> ->].
      by rewrite concat_chunks.
    + right. eauto.
Qed.

(** ** The extraction window *)

(** C10.  When the listing under the bucket and prefix is empty,
    [extract_from_s3] raises [ValueError] instead of returning an empty
    frame, and [main] ends with that exception: the table is as it was and
    no statement has been sent to the warehouse. *)
Theorem empty_listing_aborts (lib : Etl.Pandas) (pg : Etl.Postgres) (cfg : Etl.Config)
    (fs : Etl.S3FileSystem) (now txn_now : Z) (tbl : Etl.Table) :
  Etl.glob fs (Etl.glob_pattern cfg) = Py.Ok [] ->
  Etl.extract_from_s3 lib cfg fs now
  = Py.Raise (Py.ValueError ("No Parquet files found at " +:+ Etl.s3_path cfg))
  /\ Etl.main lib pg cfg fs now txn_now tbl
     = (Py.Raise (Py.ValueError ("No Parquet files found at " +:+ Etl.s3_path cfg)),
        tbl, []).
Proof.
  intros Hglob.
  assert (Etl.extract_from_s3 lib cfg fs now
          = Py.Raise (Py.ValueError ("No Parquet files found at " +:+ Etl.s3_path cfg)))
    as He by (unfold Etl.extract_from_s3; by rewrite Hglob).
  split; [done|]. unfold Etl.main. by rewrite He.
Qed.

Lemma empty_listing_aborts_witness :
  Etl.extract_from_s3 Sample.pandas Sample.cfg Sample.empty_fs Sample.clock
  = Py.Raise (Py.ValueError "No Parquet files found at s3://bucket/prefix/")
  /\ Etl.main Sample.pandas Etl.accepting Sample.cfg Sample.empty_fs
       Sample.clock Sample.clock ∅
     = (Py.Raise (Py.ValueError "No Parquet files found at s3://bucket/prefix/"),
        ∅, []).
Proof.
  exact (empty_listing_aborts Sample.pandas Etl.accepting Sample.cfg
           Sample.empty_fs Sample.clock Sample.clock ∅ eq_refl).
Defined.

Lemma keep_file_unparsable (lib : Etl.Pandas) (cutoff : Z) (f : string)
    (e : Py.exn) :
  Etl.file_date lib f = Py.Raise e -> Etl.keep_file lib cutoff f = true.
Proof. unfold Etl.keep_file. by intros ->. Qed.

(** The cutoff is there exactly when the duration and the difference fit
    the nanosecond count. *)
Lemma cutoff_date_Ok (lib : Etl.Pandas) (now lb cutoff : Z) :
  Etl.cutoff_date lib now lb = Py.Ok cutoff
  <-> cutoff = now - lb * Etl.NS_PER_DAY
      /\ - 2 ^ 63 < lb * Etl.NS_PER_DAY < 2 ^ 63
      /\ - 2 ^ 63 < now - lb * Etl.NS_PER_DAY < 2 ^ 63.
Proof.
  unfold Etl.cutoff_date, Etl.in_int64.
  destruct (Z.ltb_spec (- 2 ^ 63) (lb * Etl.NS_PER_DAY)),
    (Z.ltb_spec (lb * Etl.NS_PER_DAY) (2 ^ 63)),
    (Z.ltb_spec (- 2 ^ 63) (now - lb * Etl.NS_PER_DAY)),
    (Z.ltb_spec (now - lb * Etl.NS_PER_DAY) (2 ^ 63)); simpl;
    (split; [intros [= <-] || intros [=] | intros (-> & ? & ?)]);
    first [done | lia].
Qed.

Lemma cutoff_date_Raise (lib : Etl.Pandas) (now lb : Z) (e : Py.exn) :
  Etl.cutoff_date lib now lb = Py.Raise e -> e = Etl.out_of_bounds lib.
Proof.
  unfold Etl.cutoff_date. destruct (_ && _); [done|]. by intros [= <-].
Qed.

(** The two ways the filter returns: no lookback is set, or the cutoff
    could be computed. *)
Lemma filter_lookback_Ok (lib : Etl.Pandas) (cfg : Etl.Config) (now : Z)
    (all_files kept : list string) :
  Etl.filter_lookback lib cfg now all_files = Py.Ok kept
  <-> (Etl.truthy (Etl.lookback_days cfg) = false /\ kept = all_files)
      \/ (exists lb cutoff,
            Etl.lookback_days cfg = Some lb /\ lb <> 0
            /\ Etl.cutoff_date lib now lb = Py.Ok cutoff
            /\ kept = List.filter (Etl.keep_file lib cutoff) all_files).
Proof.
  unfold Etl.filter_lookback.
  destruct (Etl.lookback_days cfg) as [lb|]; simpl.
  - destruct (Z.eqb_spec lb 0) as [->|Hnz]; simpl.
    + split; [intros [= <-]; by left|].
      intros [[_ ->]|(lb & c & Hlb & Hnz & _)]; [done|].
      injection Hlb as <-. done.
    + split.
      * destruct (Etl.cutoff_date lib now lb) as [c|] eqn:Hc; [|done].
        intros [= <-]. right. eauto 10.
      * intros [[Hno _]|(lb' & c & Hlb & _ & Hc & ->)]; [done|].
        injection Hlb as <-. by rewrite Hc.
  - split; [intros [= <-]; by left|].
    intros [[_ ->]|(lb & c & ? & _)]; done.
Qed.

Lemma filter_lookback_spec (lib : Etl.Pandas) (cfg : Etl.Config) (now : Z)
    (all_files kept : list string) (f : string) :
  Etl.filter_lookback lib cfg now all_files = Py.Ok kept ->
  f ∈ kept
  <-> f ∈ all_files
      /\ (forall lb, Etl.lookback_days cfg = Some lb -> lb <> 0 ->
            Etl.keep_file lib (now - lb * Etl.NS_PER_DAY) f = true).
Proof.
  intros Hk. apply filter_lookback_Ok in Hk
    as [[Hno ->]|(lb & c & Hlb & Hnz & Hc & ->)].
  - split; [|tauto]. intros Hf. split; [done|]. intros lb Hlb Hnz.
    rewrite Hlb in Hno. simpl in Hno.
    by rewrite (proj2 (Z.eqb_neq lb 0) Hnz) in Hno.
  - apply cutoff_date_Ok in Hc as (-> & _).
    rewrite list_elem_of_In, filter_In, <- list_elem_of_In. split.
    + intros [Hf Hkeep]. split; [done|]. intros lb' Hlb' _.
      rewrite Hlb in Hlb'. by injection Hlb' as <-.
    + intros [Hf Hkeep]. split; [done|]. by apply Hkeep.
Qed.

(** C7, as the code has it.  Whenever the cutoff date can be computed
    (no lookback is set, or the lookback in days and the cutoff fit the
    64-bit count of nanoseconds), a listed file whose path does not
    yield a valid date (the [try] body raises, whatever the reason) is
    among the files the extraction reads; a listed file is left out only
    when a lookback is set, its path gives a date, and that date is
    before the cutoff.  The path with [month=13] is such an unparsable
    path. *)
Theorem unparsable_partition_is_kept (lib : Etl.Pandas) (cfg : Etl.Config)
    (fs : Etl.S3FileSystem) (now : Z) (all_files : list string) (f : string)
    (e : Py.exn) :
  Etl.glob fs (Etl.glob_pattern cfg) = Py.Ok all_files ->
  f ∈ all_files ->
  Etl.file_date lib f = Py.Raise e ->
  (forall lb, Etl.lookback_days cfg = Some lb -> lb <> 0 ->
     - 2 ^ 63 < lb * Etl.NS_PER_DAY < 2 ^ 63
     /\ - 2 ^ 63 < now - lb * Etl.NS_PER_DAY < 2 ^ 63) ->
  exists kept,
    Etl.filter_lookback lib cfg now all_files = Py.Ok kept
    /\ f ∈ kept
    /\ Etl.extract_from_s3 lib cfg fs now
       = (dfs ← Py.for_each (Etl.read_parquet fs) kept; Etl.pd_concat dfs)
    /\ (forall g, g ∈ all_files -> g ∉ kept ->
          exists lb d, Etl.lookback_days cfg = Some lb /\ lb <> 0
                       /\ Etl.file_date lib g = Py.Ok d
                       /\ d < now - lb * Etl.NS_PER_DAY)
    /\ Etl.file_date lib Sample.bad_month
       = Py.Raise (Etl.no_such_date lib 2024 13 1).
Proof.
  intros Hglob Hf He Hfits.
  assert (exists kept, Etl.filter_lookback lib cfg now all_files = Py.Ok kept)
    as [kept Hkept].
  { unfold Etl.filter_lookback.
    destruct (Etl.lookback_days cfg) as [lb|] eqn:Hlb; simpl; [|eauto].
    destruct (Z.eqb_spec lb 0) as [->|Hnz]; simpl; [eauto|].
    destruct (Hfits lb eq_refl Hnz) as [H1 H2].
    rewrite (proj2 (cutoff_date_Ok lib now lb _) (conj eq_refl (conj H1 H2))).
    simpl. eauto. }
  exists kept. split; [done|].
  pose proof (filter_lookback_spec lib cfg now all_files kept) as Hspec.
  split; [|split; [|split]].
  - apply Hspec; [done|]. split; [done|]. intros lb _ _.
    by eapply keep_file_unparsable.
  - unfold Etl.extract_from_s3. rewrite Hglob.
    destruct all_files; [by apply elem_of_nil in Hf|]. by rewrite Hkept.
  - intros g Hg Hout. rewrite (Hspec g Hkept) in Hout.
    destruct (Etl.lookback_days cfg) as [lb|] eqn:Hlb;
      [|exfalso; apply Hout; split; [done | discriminate]].
    destruct (Z.eqb_spec lb 0) as [->|Hnz];
      [exfalso; apply Hout; split; [done|]; by intros ? [= <-]|].
    unfold Etl.keep_file in Hout.
    destruct (Etl.file_date lib g) as [d|e'];
      [|exfalso; apply Hout; split; [done | done]].
    exists lb, d. repeat split; try done.
    destruct (Z.leb_spec (now - lb * Etl.NS_PER_DAY) d) as [Hle|]; [|done].
    exfalso. apply Hout. split; [done|]. intros lb' [= <-] _.
    by apply Z.leb_le.
  - reflexivity.
Qed.

Lemma unparsable_partition_is_kept_witness :
  exists kept,
    Etl.filter_lookback Sample.pandas Sample.cfg Sample.clock
      [Sample.bad_month; Sample.file0] = Py.Ok kept
    /\ Sample.bad_month ∈ kept.
Proof.
  destruct (unparsable_partition_is_kept Sample.pandas Sample.cfg Sample.fs13
              Sample.clock [Sample.bad_month; Sample.file0] Sample.bad_month
              (Py.ValueError "date value out of range")
              eq_refl (list_elem_of_here _ _) eq_refl)
    as (kept & Hkept & Hin & _).
  - intros lb [= <-] _. vm_compute. repeat split; reflexivity.
  - exists kept. split; [exact Hkept | exact Hin].
Defined.

(** C7 as the specification words it does not hold for every
    configuration.  With a lookback of 10^12 days the duration cannot be
    built, and as the cutoff is computed before the loop and outside its
    [try], the extraction raises before it looks at any file: the listed
    path with [month=13] is not included, and neither is any other. *)
Lemma endless_lookback_raises :
  Etl.glob Sample.fs13 (Etl.glob_pattern Sample.endless)
  = Py.Ok [Sample.bad_month; Sample.file0]
  /\ Py.is_ok (Etl.file_date Sample.pandas Sample.bad_month) = false
  /\ Etl.filter_lookback Sample.pandas Sample.endless Sample.clock
       [Sample.bad_month; Sample.file0]
     = Py.Raise (Etl.out_of_bounds Sample.pandas)
  /\ Etl.extract_from_s3 Sample.pandas Sample.endless Sample.fs13 Sample.clock
     = Py.Raise (Etl.out_of_bounds Sample.pandas)
  /\ Etl.main Sample.pandas Etl.accepting Sample.endless Sample.fs13
       Sample.clock Sample.clock ∅
     = (Py.Raise (Etl.out_of_bounds Sample.pandas), ∅, []).
Proof. repeat split; vm_compute; reflexivity. Qed.

(** ** The upsert *)








(** All the batches of a load run inside one transaction.  When a batch
    is refused, the exception leaves [upsert_to_postgres]: the table is
    what it was before the load (the writes of the batches that went
    through before are undone with it), the refused batch is the last
    statement sent, and the batches after it are never sent. *)
Lemma refused_batch_aborts_load (pg : Etl.Postgres) (now : Z)
    (df : list Daily.t) (tbl tbl' : Etl.Table) (e : Py.exn)
    (sent : list (list Daily.t)) :
  Etl.upsert_to_postgres pg now df tbl = (Py.Raise e, tbl', sent) ->
  tbl' = tbl
  /\ exists done_ failed rest,
       Etl.chunks df = done_ ++ failed :: rest
       /\ sent = done_ ++ [failed]
       /\ Etl._upsert_batch pg now
            (fold_left (Etl.on_conflict_do_update pg now) (concat done_) tbl)
            failed = Py.Raise e.
Proof.
  unfold Etl.upsert_to_postgres. destruct df as [|r0 df]; [done|].
  destruct (Etl.upsert_chunks pg now tbl (Etl.chunks (r0 :: df)))
    as [[conn|e'] sent'] eqn:Hc; intros [= <- <- <-].
  split; [done|].
  apply upsert_chunks_Raise in Hc as (done_ & failed & rest & ? & ? & ? & _).
  eauto 10.
Qed.

(** C2.  The batches of a load do not have a transaction each.  The
    frame has 2001 rows, in the order of a daily frame, and is cut into
    three batches.  The first is accepted (a thousand rows written), the
    second holds a key twice and is refused, the third would be
    accepted: after the load the table is empty, so the first batch has
    not been kept, and only two statements have been sent, so the third
    batch has not been tried. *)
Lemma batches_are_not_independent :
  Etl.increasing (map Daily.key Sample.three_batches) = true
  /\ Etl.chunks Sample.three_batches
     = [Sample.first_batch; Sample.second_batch; Sample.third_batch]
  /\ Etl._upsert_batch Etl.accepting Sample.clock ∅ Sample.first_batch
     = Py.Ok Sample.first_loaded
  /\ size Sample.first_loaded = 1000%nat
  /\ Etl._upsert_batch Etl.accepting Sample.clock Sample.first_loaded
       Sample.second_batch
     = Py.Raise Etl.CardinalityViolation
  /\ Py.is_ok (Etl._upsert_batch Etl.accepting Sample.clock Sample.first_loaded
                 Sample.third_batch) = true
  /\ Etl.upsert_to_postgres Etl.accepting Sample.clock Sample.three_batches ∅
     = (Py.Raise Etl.CardinalityViolation, ∅,
        [Sample.first_batch; Sample.second_batch]).
Proof.
  split; [vm_compute; reflexivity|].
  split; [vm_compute; reflexivity|].
  split.
  { unfold Etl._upsert_batch.
    assert (Etl.refuses Etl.accepting ∅ Sample.first_batch = None) as ->
      by (vm_compute; reflexivity).
    assert (Etl.has_duplicate_key Sample.first_batch = false) as ->
      by (vm_compute; reflexivity).
    unfold Sample.first_loaded, Sample.clock. reflexivity. }
  split; [vm_compute; reflexivity|].
  split; [vm_compute; reflexivity|].
  split; [vm_compute; reflexivity|].
  vm_compute; reflexivity.
Qed.

(** ** Running the load twice *)

Lemma triple_eta {A B C : Type} (x : A * B * C) (a : A) :
  x.1.1 = a -> x = (a, x.1.2, x.2).
Proof. destruct x as [[? ?] ?]. simpl. by intros ->. Qed.

Section Rerun.
Variable pg : Etl.Postgres.

(** Once a key is in the table, a load that brings it stamps it with
    the time of that load. *)
Lemma load_loaded_at (now : Z) (df : list Daily.t) (tbl : Etl.Table)
    (k : string * string * Z) :
  k ∈ map Etl.conflict_key df ->
  is_Some (tbl !! k) ->
  Etl.loaded_at <$> fold_left (Etl.on_conflict_do_update pg now) df tbl !! k
  = Some (Some now).
Proof.
  intros Hk Htbl. induction df as [|r df IH] using rev_ind.
  - by apply elem_of_nil in Hk.
  - rewrite fold_left_app. simpl.
    destruct (decide (Etl.conflict_key r = k)) as [<-|Hne].
    + rewrite step_lookup_eq.
      assert (is_Some (fold_left (Etl.on_conflict_do_update pg now) df tbl
                         !! Etl.conflict_key r)) as [row ->]
        by (apply load_is_Some; by left).
      done.
    + rewrite step_lookup_ne by done. apply IH.
      rewrite map_app, elem_of_app in Hk. destruct Hk as [Hk|Hk]; [done|].
      simpl in Hk. apply list_elem_of_singleton in Hk. congruence.
Qed.

(** Loading the same records a second time, at another time, into the
    table the first load left. *)
Lemma reload_same_records (t1 t2 : Z) (df : list Daily.t) (tbl : Etl.Table) :
  let tbl1 := fold_left (Etl.on_conflict_do_update pg t1) df tbl in
  let tbl2 := fold_left (Etl.on_conflict_do_update pg t2) df tbl1 in
  dom tbl2 = dom tbl1
  /\ (forall k, Etl.forget_loaded_at <$> tbl2 !! k
                = Etl.forget_loaded_at <$> tbl1 !! k)
  /\ (forall r, r ∈ df ->
        Etl.loaded_at <$> tbl2 !! Etl.conflict_key r = Some (Some t2)).
Proof.
  intros tbl1 tbl2. split; [|split].
  - apply set_eq. intros k. rewrite !elem_of_dom. unfold tbl2.
    rewrite load_is_Some. unfold tbl1. rewrite load_is_Some. tauto.
  - intros k. unfold tbl2. rewrite load_lookup_forget.
    unfold tbl1. rewrite load_lookup_forget.
    by destruct (Etl.last_with_key k df).
  - intros r Hr. apply load_loaded_at.
    + apply list_elem_of_fmap. eauto.
    + apply load_is_Some. right. apply list_elem_of_fmap. eauto.
Qed.
End Rerun.

(** C1, as the code has it.  Let a run of the load go through, and let
    a second run follow it, on the same store or on a store that has
    received further objects.  A second run that fails leaves the table
    of the first.  One that goes through adds a row only under a key it
    aggregates and the table did not hold, and leaves the rows of the
    keys it does not aggregate as they were; under every key it
    aggregates the table then holds the columns of the aggregate it
    computed (of the last one, should two of its rows share the key),
    [loaded_at] being its own time where the key was there before.  So
    the two runs leave the same values in every column but [loaded_at]
    whenever the second run computes the aggregates the first computed,
    as it does when it reads the same rows; then it also reports the
    same count and sends the same statements. *)
Theorem rerun_stores_latest_aggregates (lib : Etl.Pandas) (pg : Etl.Postgres)
    (cfg : Etl.Config) (fs1 fs2 : Etl.S3FileSystem) (now1 now2 t1 t2 : Z)
    (tbl tbl1 tbl2 : Etl.Table) (n1 : nat) (r2 : Py.result nat)
    (sent1 sent2 : list (list Daily.t)) (raw1 : list Raw.t) :
  Etl.extract_from_s3 lib cfg fs1 now1 = Py.Ok raw1 ->
  Etl.main lib pg cfg fs1 now1 t1 tbl = (Py.Ok n1, tbl1, sent1) ->
  Etl.main lib pg cfg fs2 now2 t2 tbl1 = (r2, tbl2, sent2) ->
  (forall e, r2 = Py.Raise e -> tbl2 = tbl1)
  /\ (forall n2, r2 = Py.Ok n2 ->
        exists raw2,
          Etl.extract_from_s3 lib cfg fs2 now2 = Py.Ok raw2
          /\ n2 = length (Etl.transform_to_daily lib raw2)
          /\ (forall k, is_Some (tbl2 !! k)
                <-> is_Some (tbl1 !! k)
                    \/ k ∈ map Etl.conflict_key (Etl.transform_to_daily lib raw2))
          /\ (forall k,
                k ∉ map Etl.conflict_key (Etl.transform_to_daily lib raw2) ->
                tbl2 !! k = tbl1 !! k)
          /\ (forall k o,
                Etl.last_with_key k (Etl.transform_to_daily lib raw2) = Some o ->
                exists row, tbl2 !! k = Some row
                            /\ Etl.carries row o
                            /\ (is_Some (tbl1 !! k) ->
                                Etl.loaded_at row = Some t2))
          /\ (Etl.transform_to_daily lib raw2 = Etl.transform_to_daily lib raw1 ->
              n2 = n1 /\ sent2 = sent1 /\ dom tbl2 = dom tbl1
              /\ forall k, Etl.forget_loaded_at <$> tbl2 !! k
                           = Etl.forget_loaded_at <$> tbl1 !! k)).
Proof.
  unfold Etl.main. intros -> H1.
  apply upsert_to_postgres_cases in H1 as [([= ->] & -> & ->)|(e & ? & _)];
    [|done].
  destruct (Etl.extract_from_s3 lib cfg fs2 now2) as [raw2|e2].
  2:{ intros [= <- <- <-]. split; [done | done]. }
  set (df1 := Etl.transform_to_daily lib raw1).
  set (df2 := Etl.transform_to_daily lib raw2).
  intros H2.
  apply upsert_to_postgres_cases in H2 as [(-> & -> & ->)|(e & -> & ->)];
    [|split; [done | done]].
  split; [done|]. intros n2 [= <-]. exists raw2. fold df2.
  split; [done|]. split; [done|].
  split; [intros k; apply load_is_Some|].
  split; [intros k Hk; by apply load_lookup_other|].
  split.
  - intros k o Hlast.
    pose proof (load_lookup_forget pg t2 df2
                  (fold_left (Etl.on_conflict_do_update pg t1) df1 tbl) k)
      as Hf.
    rewrite Hlast in Hf. revert Hf.
    destruct (fold_left (Etl.on_conflict_do_update pg t2) df2 _ !! k)
      as [row|] eqn:Hrow; [|done].
    simpl. intros [= Hf]. exists row. split; [done|].
    split; [by unfold Etl.carries|]. intros Hold.
    apply last_with_key_Some in Hlast as [Ho Hk].
    pose proof (load_loaded_at pg t2 df2 _ k
                  ltac:(rewrite <- Hk; apply list_elem_of_fmap; eauto) Hold)
      as Hat.
    rewrite Hrow in Hat. by injection Hat.
  - intros Hsame. rewrite Hsame. split; [done|]. split; [done|].
    destruct (reload_same_records pg t1 t2 df1 tbl) as (Hd & Hf & _).
    done.
Qed.

Lemma rerun_stores_latest_aggregates_witness :
  let run1 := Etl.main Sample.pandas Etl.accepting Sample.cfg Sample.net_fs
                Sample.clock Sample.clock ∅ in
  let run2 := Etl.main Sample.pandas Etl.accepting Sample.cfg Sample.net_fs_later
                (Sample.clock + Sample.an_hour) (Sample.clock + Sample.an_hour)
                run1.1.2 in
  (forall e, run2.1.1 = Py.Raise e -> run2.1.2 = run1.1.2)
  /\ (forall n2, run2.1.1 = Py.Ok n2 ->
        exists raw2,
          Etl.extract_from_s3 Sample.pandas Sample.cfg Sample.net_fs_later
            (Sample.clock + Sample.an_hour) = Py.Ok raw2
          /\ n2 = length (Etl.transform_to_daily Sample.pandas raw2)
          /\ forall k o,
               Etl.last_with_key k (Etl.transform_to_daily Sample.pandas raw2)
               = Some o ->
               exists row, run2.1.2 !! k = Some row /\ Etl.carries row o).
Proof.
  intros run1 run2.
  assert (run1 = (Py.Ok 1%nat, run1.1.2, run1.2)) as H1
    by (apply triple_eta; vm_compute; reflexivity).
  assert (run2 = (run2.1.1, run2.1.2, run2.2)) as H2
    by (apply triple_eta; reflexivity).
  destruct (rerun_stores_latest_aggregates Sample.pandas Etl.accepting
              Sample.cfg Sample.net_fs Sample.net_fs_later
              Sample.clock (Sample.clock + Sample.an_hour)
              Sample.clock (Sample.clock + Sample.an_hour)
              ∅ _ _ 1%nat _ _ _ Sample.net_day eq_refl H1 H2) as [Hfail Hok].
  split; [exact Hfail|]. intros n2 Hn2.
  destruct (Hok n2 Hn2) as (raw2 & Hraw & Hn & _ & _ & Hrow & _).
  exists raw2. split; [exact Hraw|]. split; [exact Hn|].
  intros k o Hlast. destruct (Hrow k o Hlast) as (row & Hl & Hc & _).
  exists row. split; [exact Hl | exact Hc].
Defined.

(** C1 as the specification words it does not hold.  The collector runs
    twice over the same datapoints of CloudWatch, two hours apart, and
    each time the load follows.  Every run of the collector uploads an
    object of its own, so the second load finds two objects with the same
    three datapoints and aggregates six rows.  Both loads go through and
    the table has one row after each, but the sum of the day has gone
    from 90 to 180. *)
Lemma rerun_doubles_the_sum :
  let run1 := Etl.main Sample.pandas Etl.accepting Sample.cfg Sample.net_fs
                Sample.clock Sample.clock ∅ in
  let run2 := Etl.main Sample.pandas Etl.accepting Sample.cfg Sample.net_fs_later
                (Sample.clock + 2 * Sample.an_hour)
                (Sample.clock + 2 * Sample.an_hour) run1.1.2 in
  Etl.read_parquet Sample.net_fs_later Sample.later_file
  = Etl.read_parquet Sample.net_fs Sample.file0
  /\ Etl.extract_from_s3 Sample.pandas Sample.cfg Sample.net_fs_later
       (Sample.clock + 2 * Sample.an_hour)
     = Py.Ok (Sample.net_day ++ Sample.net_day)
  /\ run1.1.1 = Py.Ok 1%nat
  /\ run2.1.1 = Py.Ok 1%nat
  /\ size run1.1.2 = 1%nat
  /\ size run2.1.2 = 1%nat
  /\ Etl.stat_sum <$> run1.1.2 !! ("r-1", "NetworkIn", Sample.day0)
     = Some (Py.finite 90)
  /\ Etl.stat_sum <$> run2.1.2 !! ("r-1", "NetworkIn", Sample.day0)
     = Some (Py.finite 180)
  /\ Etl.forget_loaded_at <$> run2.1.2 !! ("r-1", "NetworkIn", Sample.day0)
     <> Etl.forget_loaded_at <$> run1.1.2 !! ("r-1", "NetworkIn", Sample.day0).
Proof.
  intros run1 run2.
  split; [reflexivity|].
  split; [vm_compute; reflexivity|].
  split; [vm_compute; reflexivity|].
  split; [vm_compute; reflexivity|].
  split; [vm_compute; reflexivity|].
  split; [vm_compute; reflexivity|].
  split; [vm_compute; reflexivity|].
  split; [vm_compute; reflexivity|].
  vm_compute. discriminate.
Qed.

(** * Facts about the daily aggregation *)

Lemma insert_key_perm (k : Key.t) (ks : list Key.t) :
  Etl.insert_key k ks ≡ₚ k :: ks.
Proof.
  induction ks as [|k' ks IH]; simpl; [done|].
  destruct (Key.leb k k'); [done|]. rewrite IH. apply Permutation_swap.
Qed.

Lemma sort_keys_perm (ks : list Key.t) : Etl.sort_keys ks ≡ₚ ks.
Proof.
  induction ks as [|k ks IH]; simpl; [done|].
  by rewrite insert_key_perm, IH.
Qed.

Lemma group_index_NoDup (rows : list (Key.t * Raw.t)) :
  NoDup (Etl.group_index rows).
Proof.
  unfold Etl.group_index. rewrite sort_keys_perm. apply NoDup_remove_dups.
Qed.

Lemma elem_of_group_index (rows : list (Key.t * Raw.t)) (k : Key.t) :
  k ∈ Etl.group_index rows <-> k ∈ rows.*1.
Proof.
  unfold Etl.group_index. rewrite sort_keys_perm. apply elem_of_remove_dups.
Qed.

Lemma daily_keys (lib : Etl.Pandas) (df : list Raw.t) :
  map Daily.key (Etl.transform_to_daily lib df)
  = Etl.group_index (Etl.with_day_bucket df).
Proof.
  unfold Etl.transform_to_daily. rewrite map_map. simpl. apply map_id.
Qed.

(** The group of a key is made of the rows of the frame that have a
    timestamp and whose nine key columns, with the day of the timestamp,
    are that key, in the order of the frame. *)
Lemma group_is_filter (k : Key.t) (df : list Raw.t) :
  Etl.group k (Etl.with_day_bucket df) = List.filter (Etl.in_group k) df.
Proof.
  unfold Etl.group, Etl.with_day_bucket, Etl.in_group.
  induction df as [|r df IH]; [done|]. simpl.
  destruct (Raw.timestamp r) as [ts|]; simpl; [|done].
  rewrite filter_cons. simpl.
  destruct (decide (Etl.group_key r ts = k)) as [He|Hne].
  - rewrite bool_decide_eq_true_2 by done. simpl. f_equal. exact IH.
  - rewrite bool_decide_eq_false_2 by done. exact IH.
Qed.

Lemma elem_of_with_day_bucket (df : list Raw.t) (k : Key.t) (r : Raw.t) :
  (k, r) ∈ Etl.with_day_bucket df
  <-> r ∈ df /\ exists ts, Raw.timestamp r = Some ts /\ Etl.group_key r ts = k.
Proof.
  unfold Etl.with_day_bucket. rewrite list_elem_of_omap. split.
  - intros (r' & Hr' & Heq). destruct (Raw.timestamp r') as [ts|] eqn:Hts;
      simpl in Heq; [|done].
    injection Heq as <- <-. eauto.
  - intros (Hr & ts & Hts & <-). exists r. split; [done|]. by rewrite Hts.
Qed.

Lemma elem_of_daily (lib : Etl.Pandas) (df : list Raw.t) (o : Daily.t) :
  o ∈ Etl.transform_to_daily lib df
  <-> o = Etl.agg lib (Daily.key o) (List.filter (Etl.in_group (Daily.key o)) df)
      /\ exists r ts, r ∈ df /\ Raw.timestamp r = Some ts
                      /\ Etl.group_key r ts = Daily.key o.
Proof.
  unfold Etl.transform_to_daily. rewrite list_elem_of_In, in_map_iff. split.
  - intros (k & <- & Hk). simpl. rewrite group_is_filter. split; [done|].
    rewrite <- list_elem_of_In, elem_of_group_index, list_elem_of_fmap in Hk.
    destruct Hk as ([k' r] & -> & Hkr). simpl.
    apply elem_of_with_day_bucket in Hkr as (? & ts & ? & ?). eauto.
  - intros (Ho & r & ts & Hr & Hts & Hk). exists (Daily.key o).
    rewrite group_is_filter. split; [done|].
    rewrite <- list_elem_of_In, elem_of_group_index, list_elem_of_fmap.
    exists (Daily.key o, r). split; [done|].
    apply elem_of_with_day_bucket. eauto.
Qed.

(** The reducers. *)




Lemma Qmax_spec (a b : Q) :
  (Etl.Qmax a b = a \/ Etl.Qmax a b = b)
  /\ (a <= Etl.Qmax a b)%Q /\ (b <= Etl.Qmax a b)%Q.
Proof.
  unfold Etl.Qmax. destruct (Qle_bool a b) eqn:Hle.
  - apply Qle_bool_iff in Hle. split; [by right|]. split; [done | apply Qle_refl].
  - split; [by left|]. split; [apply Qle_refl|].
    apply Qlt_le_weak, Qnot_le_lt. intros Hab.
    apply Qle_bool_iff in Hab. congruence.
Qed.

Lemma Qmin_spec (a b : Q) :
  (Etl.Qmin a b = a \/ Etl.Qmin a b = b)
  /\ (Etl.Qmin a b <= a)%Q /\ (Etl.Qmin a b <= b)%Q.
Proof.
  unfold Etl.Qmin. destruct (Qle_bool a b) eqn:Hle.
  - apply Qle_bool_iff in Hle. split; [by left|]. split; [apply Qle_refl | done].
  - split; [by right|]. split; [|apply Qle_refl].
    apply Qlt_le_weak, Qnot_le_lt. intros Hab.
    apply Qle_bool_iff in Hab. congruence.
Qed.

Lemma fold_Qmax_spec (vs : list Q) (v : Q) :
  fold_left Etl.Qmax vs v ∈ v :: vs
  /\ forall x, x ∈ v :: vs -> (x <= fold_left Etl.Qmax vs v)%Q.
Proof.
  revert v. induction vs as [|w vs IH]; intros v; simpl.
  - split; [apply list_elem_of_here|].
    intros x Hx. apply list_elem_of_singleton in Hx as ->. apply Qle_refl.
  - destruct (IH (Etl.Qmax v w)) as [Hin Hle].
    destruct (Qmax_spec v w) as (Hc & Hv & Hw). split.
    + rewrite !elem_of_cons in *. destruct Hin as [->|Hin]; [|tauto].
      destruct Hc as [->| ->]; tauto.
    + intros x Hx.
      assert (Etl.Qmax v w <= fold_left Etl.Qmax vs (Etl.Qmax v w))%Q as Hm
        by (apply Hle, list_elem_of_here).
      rewrite !elem_of_cons in Hx. destruct Hx as [->|[->|Hx]].
      * by eapply Qle_trans.
      * by eapply Qle_trans.
      * apply Hle. by apply list_elem_of_further.
Qed.

Lemma fold_Qmin_spec (vs : list Q) (v : Q) :
  fold_left Etl.Qmin vs v ∈ v :: vs
  /\ forall x, x ∈ v :: vs -> (fold_left Etl.Qmin vs v <= x)%Q.
Proof.
  revert v. induction vs as [|w vs IH]; intros v; simpl.
  - split; [apply list_elem_of_here|].
    intros x Hx. apply list_elem_of_singleton in Hx as ->. apply Qle_refl.
  - destruct (IH (Etl.Qmin v w)) as [Hin Hle].
    destruct (Qmin_spec v w) as (Hc & Hv & Hw). split.
    + rewrite !elem_of_cons in *. destruct Hin as [->|Hin]; [|tauto].
      destruct Hc as [->| ->]; tauto.
    + intros x Hx.
      assert (fold_left Etl.Qmin vs (Etl.Qmin v w) <= Etl.Qmin v w)%Q as Hm
        by (apply Hle, list_elem_of_here).
      rewrite !elem_of_cons in Hx. destruct Hx as [->|[->|Hx]].
      * by eapply Qle_trans.
      * by eapply Qle_trans.
      * apply Hle. by apply list_elem_of_further.
Qed.

Lemma max_spec (xs : list (option Q)) :
  match Etl.max xs with
  | Some m => m ∈ Etl.dropna xs /\ forall x, x ∈ Etl.dropna xs -> (x <= m)%Q
  | None => Etl.dropna xs = []
  end.
Proof.
  unfold Etl.max. destruct (Etl.dropna xs) as [|v vs]; [done|].
  apply fold_Qmax_spec.
Qed.

Lemma min_spec (xs : list (option Q)) :
  match Etl.min xs with
  | Some m => m ∈ Etl.dropna xs /\ forall x, x ∈ Etl.dropna xs -> (m <= x)%Q
  | None => Etl.dropna xs = []
  end.
Proof.
  unfold Etl.min. destruct (Etl.dropna xs) as [|v vs]; [done|].
  apply fold_Qmin_spec.
Qed.



(** C9.  The aggregated frame has at most one row per value of the nine
    group columns, and every input row with a timestamp has its group
    there.  Two input rows that share instance id, metric name and day but
    differ in one of the other six group columns end in two different
    output rows, which then carry the same (instance_id, metric_name,
    day_bucket). *)
Theorem one_row_per_group_key (lib : Etl.Pandas) (df : list Raw.t) :
  NoDup (map Daily.key (Etl.transform_to_daily lib df))
  /\ (forall r ts, r ∈ df -> Raw.timestamp r = Some ts ->
        exists o, o ∈ Etl.transform_to_daily lib df
                  /\ Daily.key o = Etl.group_key r ts)
  /\ (forall r1 r2 ts1 ts2,
        r1 ∈ df -> r2 ∈ df ->
        Raw.timestamp r1 = Some ts1 -> Raw.timestamp r2 = Some ts2 ->
        Raw.instance_id r1 = Raw.instance_id r2 ->
        Raw.metric_name r1 = Raw.metric_name r2 ->
        Etl.day_of ts1 = Etl.day_of ts2 ->
        (Raw.instance_name r1 <> Raw.instance_name r2
         \/ Raw.instance_type r1 <> Raw.instance_type r2
         \/ Raw.category r1 <> Raw.category r2
         \/ Raw.unit_ r1 <> Raw.unit_ r2
         \/ Raw.az r1 <> Raw.az r2
         \/ Raw.platform r1 <> Raw.platform r2) ->
        exists o1 o2,
          o1 ∈ Etl.transform_to_daily lib df /\ o2 ∈ Etl.transform_to_daily lib df
          /\ Daily.key o1 = Etl.group_key r1 ts1
          /\ Daily.key o2 = Etl.group_key r2 ts2
          /\ o1 <> o2
          /\ Etl.conflict_key o1 = Etl.conflict_key o2)
  /\ length (Etl.transform_to_daily lib Sample.resized_day) = 2%nat.
Proof.
  assert (forall r ts, r ∈ df -> Raw.timestamp r = Some ts ->
            exists o, o ∈ Etl.transform_to_daily lib df
                      /\ Daily.key o = Etl.group_key r ts) as Hall.
  { intros r ts Hr Hts.
    exists (Etl.agg lib (Etl.group_key r ts)
              (List.filter (Etl.in_group (Etl.group_key r ts)) df)).
    split; [|done]. apply elem_of_daily. simpl. split; [done|]. eauto. }
  split; [rewrite daily_keys; apply group_index_NoDup|].
  split; [exact Hall|]. split; [|vm_compute; reflexivity].
  intros r1 r2 ts1 ts2 Hr1 Hr2 Hts1 Hts2 Hid Hmn Hday Hdiff.
  destruct (Hall r1 ts1 Hr1 Hts1) as (o1 & Ho1 & Hk1).
  destruct (Hall r2 ts2 Hr2 Hts2) as (o2 & Ho2 & Hk2).
  exists o1, o2. repeat (split; [done|]). split.
  - intros ->. rewrite Hk1 in Hk2.
    unfold Etl.group_key in Hk2. injection Hk2 as ? ? ? ? ? ? ? ? ?.
    tauto.
  - unfold Etl.conflict_key. rewrite Hk1, Hk2. simpl. congruence.
Qed.

Lemma one_row_per_group_key_witness :
  exists o,
    o ∈ Etl.transform_to_daily Sample.pandas Sample.one_day
    /\ Daily.key o = Etl.group_key (Sample.cpu_point 1 10%Q)
                       (Sample.t0 + 1 * 60000000000).
Proof.
  refine (proj1 (proj2 (one_row_per_group_key Sample.pandas Sample.one_day)) _ _ _ _).
  - apply list_elem_of_here.
  - reflexivity.
Defined.

(** * Facts about the collection *)

(** ** One fetch *)

Lemma filter_partition (stats : list string) (s : string) :
  s ∈ stats
  <-> s ∈ Collector.standard_of stats \/ s ∈ Collector.extended_of stats.
Proof.
  unfold Collector.standard_of, Collector.extended_of.
  rewrite !list_elem_of_In, !filter_In.
  destruct (Py.startswith "p" s); simpl; intuition congruence.
Qed.

(** C8, as the code has it.  The statistics of a metric are split in two
    lists, those that do not start with "p" and those that do, and the
    fetch sends one request: it carries the first list under
    [Statistics] and the second under [ExtendedStatistics], each key set
    only when its list is not empty. *)
Theorem one_request_carries_both_shapes (cw_client : Collector.Client)
    (namespace : string) (dimensions : list (string * string))
    (metric_def : Collector.MetricDef) (start_time end_time period : Z) :
  let kwargs := Collector.kwargs_of namespace dimensions metric_def
                  start_time end_time period in
  (Collector.fetch_metric_datapoints cw_client namespace dimensions metric_def
     start_time end_time period).2 = [kwargs]
  /\ Collector.Statistics kwargs
     = Collector.if_any (Collector.standard_of (Collector.stats metric_def))
  /\ Collector.ExtendedStatistics kwargs
     = Collector.if_any (Collector.extended_of (Collector.stats metric_def))
  /\ (forall s, s ∈ Collector.stats metric_def
                <-> s ∈ Collector.standard_of (Collector.stats metric_def)
                    \/ s ∈ Collector.extended_of (Collector.stats metric_def))
  /\ (forall s, s ∈ Collector.standard_of (Collector.stats metric_def) ->
                Py.startswith "p" s = false)
  /\ (forall s, s ∈ Collector.extended_of (Collector.stats metric_def) ->
                Py.startswith "p" s = true).
Proof.
  intros kwargs. split; [|split; [done|split; [done|split; [|split]]]].
  - unfold Collector.fetch_metric_datapoints. fold kwargs.
    by destruct (cw_client kwargs).
  - apply filter_partition.
  - intros s Hs. unfold Collector.standard_of in Hs.
    rewrite list_elem_of_In, filter_In in Hs. destruct Hs as [_ Hs].
    by destruct (Py.startswith "p" s).
  - intros s Hs. unfold Collector.extended_of in Hs.
    rewrite list_elem_of_In, filter_In in Hs. tauto.
Qed.

(** C8 as the specification words it does not hold: for a metric that
    asks for "Average" and "p95" the client is called once, with both
    lists in the one request. *)
Lemma mixed_statistics_one_request :
  (Collector.fetch_metric_datapoints Sample.client "AWS/EC2"
     (CollectorSpec.dims Sample.inst) Sample.mixed 0 Sample.t0 60).2
  = [ {| Collector.Namespace := "AWS/EC2";
         Collector.MetricName := "CPUUtilization";
         Collector.Dimensions := [("InstanceId", "r-1")];
         Collector.StartTime := 0;
         Collector.EndTime := Sample.t0;
         Collector.Period := 60;
         Collector.Statistics := Some ["Average"];
         Collector.ExtendedStatistics := Some ["p95"] |} ]
  /\ length (Collector.fetch_metric_datapoints Sample.client "AWS/EC2"
               (CollectorSpec.dims Sample.inst) Sample.mixed 0 Sample.t0 60).2
     <> 2%nat.
Proof. split; [reflexivity | vm_compute; lia]. Qed.

(** ** Failures of single fetches *)

Lemma for_each_Ok_elem {A B : Type} (f : A -> Py.result B) (xs : list A)
    (ys : list B) (x : A) :
  Py.for_each f xs = Py.Ok ys -> x ∈ xs ->
  exists y, f x = Py.Ok y /\ y ∈ ys.
Proof.
  revert ys. induction xs as [|x' xs IH]; intros ys Hf Hx.
  - by apply elem_of_nil in Hx.
  - simpl in Hf. destruct (f x') as [y'|] eqn:Hy'; [|done]. simpl in Hf.
    destruct (Py.for_each f xs) as [ys'|]; [|done]. simpl in Hf.
    injection Hf as <-. apply elem_of_cons in Hx as [->|Hx].
    + exists y'. split; [done | apply list_elem_of_here].
    + destruct (IH ys' eq_refl Hx) as (y & ? & ?).
      exists y. split; [done | by apply list_elem_of_further].
Qed.

Lemma for_each_Ok_intro {A B : Type} (f : A -> Py.result B) (xs : list A) :
  (forall x, x ∈ xs -> exists y, f x = Py.Ok y) ->
  exists ys, Py.for_each f xs = Py.Ok ys.
Proof.
  induction xs as [|x xs IH]; intros Hall; simpl; [eauto|].
  destruct (Hall x (list_elem_of_here _ _)) as [y ->].
  destruct IH as [ys ->]; [intros; apply Hall; by apply list_elem_of_further|].
  simpl. eauto.
Qed.

Section Quiet.
Variable cw_client : Collector.Client.
Variables (start_time end_time period : Z).

Lemma fetch_metric_quiet (namespace : string)
    (dimensions : list (string * string)) (metric_def : Collector.MetricDef) :
  Collector.fetch_metric_datapoints (CollectorSpec.quiet cw_client)
    namespace dimensions metric_def start_time end_time period
  = Collector.fetch_metric_datapoints cw_client
      namespace dimensions metric_def start_time end_time period.
Proof.
  unfold Collector.fetch_metric_datapoints, CollectorSpec.quiet.
  by destruct (cw_client _).
Qed.

Lemma fetch_catalog_quiet (namespace : string)
    (dimensions : list (string * string)) (catalog : list Collector.MetricDef) :
  Collector.fetch_catalog (CollectorSpec.quiet cw_client)
    namespace dimensions catalog start_time end_time period
  = Collector.fetch_catalog cw_client
      namespace dimensions catalog start_time end_time period.
Proof.
  induction catalog as [|metric_def catalog IH]; [done|].
  cbn [Collector.fetch_catalog]. by rewrite fetch_metric_quiet, IH.
Qed.

Lemma fetch_instance_quiet (inst : Collector.Instance) (memory_namespace : string) :
  Collector.fetch_instance_metrics (CollectorSpec.quiet cw_client)
    inst memory_namespace start_time end_time period
  = Collector.fetch_instance_metrics cw_client
      inst memory_namespace start_time end_time period.
Proof.
  unfold Collector.fetch_instance_metrics. by rewrite !fetch_catalog_quiet.
Qed.

Lemma all_records_quiet (completed : list Collector.Instance)
    (memory_namespace : string) :
  Collector.all_records (CollectorSpec.quiet cw_client) completed
    memory_namespace start_time end_time period
  = Collector.all_records cw_client completed
      memory_namespace start_time end_time period.
Proof.
  unfold Collector.all_records, Collector.future_records.
  induction completed as [|inst completed IH]; [done|]. simpl.
  by rewrite fetch_instance_quiet, IH.
Qed.

(** The records of a metric of the catalog are among those of the whole
    loop, when the loop ends normally. *)
Lemma fetch_catalog_elem (namespace : string)
    (dimensions : list (string * string)) (catalog : list Collector.MetricDef)
    (records : list (Py.dict Collector.value)) (sent : list Collector.Request)
    (metric_def : Collector.MetricDef) :
  Collector.fetch_catalog cw_client namespace dimensions catalog
    start_time end_time period = (Py.Ok records, sent) ->
  metric_def ∈ catalog ->
  exists rs,
    (Collector.fetch_metric_datapoints cw_client namespace dimensions
       metric_def start_time end_time period).1 = Py.Ok rs
    /\ forall r, r ∈ rs -> r ∈ records.
Proof.
  revert records sent. induction catalog as [|d catalog IH];
    intros records sent Hf Hd.
  - by apply elem_of_nil in Hd.
  - cbn [Collector.fetch_catalog] in Hf.
    destruct (Collector.fetch_metric_datapoints cw_client namespace
                dimensions d start_time end_time period) as [[rs|e] s] eqn:Hm;
      [|done].
    destruct (Collector.fetch_catalog cw_client namespace dimensions catalog
                start_time end_time period) as [[more|e] s'] eqn:Hc;
      [|done].
    simpl in Hf. injection Hf as <- <-.
    apply elem_of_cons in Hd as [->|Hd].
    + exists rs. rewrite Hm. split; [done|]. intros r Hr.
      apply elem_of_app. by left.
    + destruct (IH more s' eq_refl Hd) as (rs' & ? & Hsub).
      exists rs'. split; [done|]. intros r Hr.
      apply elem_of_app. right. by apply Hsub.
Qed.

(** With timestamped answers the loop over a catalog ends normally. *)
Lemma fetch_catalog_total (namespace : string)
    (dimensions : list (string * string)) (catalog : list Collector.MetricDef) :
  CollectorSpec.timestamped cw_client ->
  exists records sent,
    Collector.fetch_catalog cw_client namespace dimensions catalog
      start_time end_time period = (Py.Ok records, sent).
Proof.
  intros Hts. induction catalog as [|d catalog (more & s' & IH)];
    cbn [Collector.fetch_catalog]; [eauto|].
  unfold Collector.fetch_metric_datapoints.
  destruct (cw_client _) as [resp|e] eqn:Hcw.
  - destruct (for_each_Ok_intro
                (Collector.row_of namespace dimensions d period)
                (default [] resp)) as [rs ->].
    { intros dp Hdp. destruct resp as [dps|]; [|by apply elem_of_nil in Hdp].
      destruct (Hts _ _ _ Hcw Hdp) as [ts Hdpts].
      unfold Collector.row_of. rewrite Hdpts. eauto. }
    rewrite IH. simpl. eauto.
  - rewrite IH. simpl. eauto.
Qed.
End Quiet.

(** ** Dicts and frames *)

Section Dicts.
Import Collector CollectorSpec.

Lemma has_spec (c : string) (cols : list string) :
  has c cols = true <-> c ∈ cols.
Proof.
  unfold has. rewrite existsb_exists, list_elem_of_In. split.
  - intros (x & Hx & He). apply String.eqb_eq in He. by subst.
  - intros Hc. exists c. split; [done | apply String.eqb_refl].
Qed.

Lemma has_app (c : string) (xs ys : list string) :
  has c (xs ++ ys) = has c xs || has c ys.
Proof. unfold has. apply existsb_app. Qed.

Lemma has_add_column (c col : string) (cols : list string) :
  has c (add_column cols col) = has c cols || String.eqb c col.
Proof.
  unfold add_column. destruct (has col cols) eqn:Hcol.
  - destruct (String.eqb_spec c col) as [->|]; [|by rewrite orb_false_r].
    by rewrite Hcol.
  - rewrite has_app. simpl. by rewrite orb_false_r.
Qed.

Lemma get_None (c : string) (d : Py.dict value) :
  has c (Py.keys d) = false -> Py.get c d = None.
Proof.
  induction d as [|[k v] d IH]; [done|]. simpl.
  rewrite String.eqb_sym. destruct (String.eqb k c); simpl; [done | exact IH].
Qed.

Lemma view_absent (c : string) (d : Py.dict value) :
  has c (Py.keys d) = false -> view d c = NA.
Proof. intros H. unfold view. by rewrite get_None. Qed.

Lemma get_Some (c : string) (d : Py.dict value) :
  has c (Py.keys d) = true -> Py.get c d = Some (view d c).
Proof.
  unfold view. induction d as [|[k v] d IH]; [done|]. simpl.
  rewrite String.eqb_sym. destruct (String.eqb k c); simpl; [done | exact IH].
Qed.

Lemma keys_reindex (cols : list string) (row : Py.dict value) :
  Py.keys (reindex cols row) = cols.
Proof. unfold Py.keys, reindex. rewrite map_map. simpl. apply map_id. Qed.

Lemma view_reindex (cols : list string) (row : Py.dict value) (c : string) :
  view (reindex cols row) c = if has c cols then view row c else NA.
Proof.
  unfold view, reindex. induction cols as [|k cols IH]; [done|]. simpl.
  destruct (String.eqb_spec k c) as [->|Hne].
  - by rewrite String.eqb_refl.
  - rewrite (proj2 (String.eqb_neq c k)) by congruence. exact IH.
Qed.

Lemma keys_set (k : string) (v : value) (d : Py.dict value) :
  Py.keys (Py.set k v d) = add_column (Py.keys d) k.
Proof.
  unfold add_column. induction d as [|[k' v'] d IH]; [done|]. simpl.
  rewrite (String.eqb_sym k k').
  destruct (String.eqb k' k); simpl; [done|].
  rewrite IH. by destruct (has k (Py.keys d)).
Qed.

Lemma view_set (k : string) (v : value) (d : Py.dict value) (c : string) :
  view (Py.set k v d) c = if String.eqb k c then v else view d c.
Proof.
  unfold view. induction d as [|[k' v'] d IH]; simpl.
  - by destruct (String.eqb k c).
  - destruct (String.eqb_spec k' k) as [->|Hne]; simpl.
    + by destruct (String.eqb k c).
    + destruct (String.eqb_spec k' c) as [->|Hne'].
      * destruct (String.eqb_spec k c) as [->|]; [done|]. done.
      * exact IH.
Qed.

Lemma view_cons (k : string) (v : value) (d : Py.dict value) (c : string) :
  view ((k, v) :: d) c = if String.eqb k c then v else view d c.
Proof. unfold view. simpl. by destruct (String.eqb k c). Qed.

Lemma to_numeric_numeric (v : value) : numeric (to_numeric v).
Proof. destruct v; simpl; unfold numeric; eauto. Qed.

Lemma to_numeric_idem (v : value) : to_numeric (to_numeric v) = to_numeric v.
Proof. by destruct v. Qed.
End Dicts.

Lemma Forall2_impl_in {A B : Type} (P Q : A -> B -> Prop)
    (l : list A) (k : list B) :
  Forall2 P l k -> (forall x y, x ∈ l -> P x y -> Q x y) -> Forall2 Q l k.
Proof.
  induction 1 as [|x y l k Hxy _ IH]; intros Himp; constructor.
  - apply Himp; [apply list_elem_of_here | done].
  - apply IH. intros x' y' Hx'. apply Himp. by apply list_elem_of_further.
Qed.

Lemma for_each_Forall2 {A B C : Type} (f : B -> Py.result C)
    (P : A -> B -> Prop) (Q : A -> C -> Prop)
    (l : list A) (k : list B) (ys : list C) :
  Forall2 P l k -> Py.for_each f k = Py.Ok ys ->
  (forall x y z, P x y -> f y = Py.Ok z -> Q x z) ->
  Forall2 Q l ys.
Proof.
  intros HP. revert ys. induction HP as [|x y l k Hxy _ IH]; intros ys Hf Himp.
  - injection Hf as <-. constructor.
  - simpl in Hf. destruct (f y) as [z|] eqn:Hz; [|done]. simpl in Hf.
    destruct (Py.for_each f k) as [zs|]; [|done]. simpl in Hf.
    injection Hf as <-. constructor; [by eapply Himp | by apply IH].
Qed.

Lemma Forall2_left {A B : Type} (P : A -> B -> Prop) (R : A -> Prop)
    (l : list A) (k : list B) :
  Forall2 P l k -> (forall x y, P x y -> R x) -> Forall R l.
Proof. induction 1; intros Himp; constructor; eauto. Qed.

Section Frames.
Import Collector CollectorSpec.

Variable records : list (Py.dict value).

Lemma tracks_ext (V V' : Py.dict value -> string -> value) (df : DataFrame) :
  (forall rec c, V rec c = V' rec c) ->
  tracks V records df -> tracks V' records df.
Proof.
  intros Hext Ht. unfold tracks in *. eapply Forall2_impl; [exact Ht|].
  intros rec row [Hk Hv]. split; [done|]. intros c. by rewrite Hv.
Qed.

Lemma tracks_ext_in (V V' : Py.dict value -> string -> value) (df : DataFrame) :
  (forall rec c, rec ∈ records -> V rec c = V' rec c) ->
  tracks V records df -> tracks V' records df.
Proof.
  intros Hext Ht. unfold tracks in *.
  eapply Forall2_impl_in; [exact Ht|].
  intros rec row Hrec [Hk Hv]. split; [done|]. intros c.
  rewrite Hv. by apply Hext.
Qed.

(** Under a column the frame lacks, every record is missing too. *)
Lemma tracks_absent (V : Py.dict value -> string -> value) (df : DataFrame)
    (c : string) :
  tracks V records df -> has c (columns df) = false ->
  Forall (fun rec => V rec c = NA) records.
Proof.
  unfold tracks. intros Ht Hc. induction Ht as [|rec row recs rows [Hk Hv] _ IH];
    constructor; [|done].
  rewrite <- Hv. apply view_absent. by rewrite Hk.
Qed.

Lemma tracks_setitem (V : Py.dict value -> string -> value) (df : DataFrame)
    (col : string) (cell_ : Py.dict value -> value)
    (g : Py.dict value -> value) :
  tracks V records df ->
  (forall rec row, (forall c, view row c = V rec c) -> cell_ row = g rec) ->
  tracks (fun rec c => if String.eqb col c then g rec else V rec c)
         records (setitem col cell_ df).
Proof.
  unfold tracks, setitem. simpl. intros Ht Hcell.
  apply Forall2_fmap_r. eapply Forall2_impl; [exact Ht|].
  intros rec row [Hk Hv]. split.
  - by rewrite keys_set, Hk.
  - intros c. rewrite view_set, (Hcell rec row Hv). by rewrite Hv.
Qed.

Lemma tracks_ensure_columns (V : Py.dict value -> string -> value)
    (cols : list string) (df : DataFrame) :
  tracks V records df ->
  tracks V records (ensure_columns cols df)
  /\ forall c, has c (columns (ensure_columns cols df))
               = has c (columns df) || has c cols.
Proof.
  unfold ensure_columns. revert df.
  induction cols as [|col cols IH]; intros df Ht; simpl.
  - split; [done|]. intros c. by rewrite orb_false_r.
  - destruct (has col (columns df)) eqn:Hcol.
    + destruct (IH df Ht) as [Ht' Hc']. split; [done|]. intros c.
      rewrite Hc'. destruct (String.eqb_spec c col) as [->|]; [|done].
      by rewrite Hcol.
    + assert (tracks V records (setitem col (fun _ => NA) df)) as Ht1.
      { pose proof (tracks_absent V df col Ht Hcol) as Habs.
        rewrite Forall_forall in Habs.
        eapply tracks_ext_in;
          [|exact (tracks_setitem V df col (fun _ => NA) (fun _ => NA) Ht
                     (fun _ _ _ => eq_refl))].
        intros rec c Hrec. simpl.
        destruct (String.eqb_spec col c) as [<-|]; [|done].
        symmetry. by apply Habs. }
      destruct (IH _ Ht1) as [Ht' Hc']. split; [done|]. intros c.
      rewrite Hc'. simpl. rewrite has_add_column.
      by rewrite <- orb_assoc.
Qed.

Lemma tracks_insert0 (V : Py.dict value -> string -> value)
    (col : string) (v : value) (df df' : DataFrame) :
  insert0 col v df = Py.Ok df' ->
  tracks V records df ->
  tracks (fun rec c => if String.eqb col c then v else V rec c) records df'
  /\ columns df' = col :: columns df.
Proof.
  unfold insert0. destruct (has col (columns df)); [done|].
  intros [= <-] Ht. split; [|done]. unfold tracks in *. simpl.
  apply Forall2_fmap_r. eapply Forall2_impl; [exact Ht|].
  intros rec row [Hk Hv]. split.
  - simpl. by rewrite <- Hk.
  - intros c. rewrite view_cons. by rewrite Hv.
Qed.

Lemma tracks_getitem (V : Py.dict value -> string -> value)
    (cols : list string) (df df' : DataFrame) :
  getitem cols df = Py.Ok df' ->
  tracks V records df ->
  (forall c, has c (columns df) = true -> has c cols = true) ->
  tracks V records df' /\ columns df' = cols.
Proof.
  unfold getitem. destruct (List.filter _ cols); [|done].
  intros [= <-] Ht Hsub. split; [|done]. unfold tracks in *. simpl.
  apply Forall2_fmap_r. eapply Forall2_impl; [exact Ht|].
  intros rec row [Hk Hv]. split; [apply keys_reindex|].
  intros c. rewrite view_reindex. destruct (has c cols) eqn:Hc; [apply Hv|].
  rewrite <- Hv. symmetry. apply view_absent. rewrite Hk.
  destruct (has c (columns df)) eqn:Hd; [|done].
  apply Hsub in Hd. congruence.
Qed.

Lemma tracks_convert (V : Py.dict value -> string -> value)
    (col : string) (f : value -> Py.result value) (df df' : DataFrame) :
  convert col f df = Py.Ok df' ->
  tracks V records df ->
  tracks (fun rec c => if String.eqb col c then unwrap (f (V rec col))
                       else V rec c) records df'
  /\ columns df' = add_column (columns df) col
  /\ Forall (fun rec => Py.is_ok (f (V rec col)) = true) records.
Proof.
  unfold convert, tracks.
  destruct (Py.for_each _ (rows df)) as [rows'|] eqn:Hfe; [|done].
  simpl. intros [= <-]. simpl. intros Ht.
  pose proof (for_each_Forall2 _ _
    (fun rec row' =>
       (Py.keys row' = add_column (columns df) col
        /\ forall c, view row' c
                     = if String.eqb col c then unwrap (f (V rec col))
                       else V rec c)
       /\ Py.is_ok (f (V rec col)) = true)
    _ _ _ Ht Hfe) as Hall.
  assert (Forall2
    (fun rec row' =>
       (Py.keys row' = add_column (columns df) col
        /\ forall c, view row' c
                     = if String.eqb col c then unwrap (f (V rec col))
                       else V rec c)
       /\ Py.is_ok (f (V rec col)) = true) records rows') as Hq.
  { apply Hall. intros rec row row' [Hk Hv] Hrow.
    fold (view row col) in Hrow. rewrite Hv in Hrow.
    destruct (f (V rec col)) as [v|]; [|done]. simpl in Hrow.
    injection Hrow as <-. split; [|done]. split; [by rewrite keys_set, Hk|].
    intros c. rewrite view_set. by rewrite Hv. }
  split; [|split; [done|]].
  - eapply Forall2_impl; [exact Hq|]. by intros rec row' [? _].
  - eapply Forall2_left; [exact Hq|]. by intros rec row' [_ ?].
Qed.

Lemma tracks_numeric_columns (cols : list string) :
  forall (V : Py.dict value -> string -> value) (df : DataFrame),
    tracks V records df ->
    tracks (fun rec c => if has c cols && has c (columns df)
                         then to_numeric (V rec c) else V rec c)
           records (numeric_columns cols df)
    /\ columns (numeric_columns cols df) = columns df.
Proof.
  unfold numeric_columns.
  induction cols as [|col cols IH]; intros V df Ht; simpl.
  - split; [|done]. revert Ht. by apply tracks_ext.
  - destruct (has col (columns df)) eqn:Hcol.
    + pose proof (tracks_setitem V df col
                    (fun row => to_numeric (default NA (Py.get col row)))
                    (fun rec => to_numeric (V rec col)) Ht) as Hs.
      assert (columns (setitem col
                (fun row => to_numeric (default NA (Py.get col row))) df)
              = columns df) as Hcols
        by (simpl; unfold add_column; by rewrite Hcol).
      destruct (IH _ _ (Hs (fun rec row Hv => f_equal to_numeric (Hv col))))
        as [Ht' Hc'].
      split; [|by rewrite Hc'].
      revert Ht'. apply tracks_ext. intros rec c. rewrite Hcols.
      destruct (String.eqb_spec c col) as [->|Hne].
      * rewrite String.eqb_refl, Hcol. simpl.
        destruct (has col cols); simpl; [apply to_numeric_idem | done].
      * rewrite (proj2 (String.eqb_neq col c)) by congruence. done.
    + destruct (IH V df Ht) as [Ht' Hc']. split; [|done].
      revert Ht'. apply tracks_ext. intros rec c.
      destruct (String.eqb_spec c col) as [->|Hne]; [|done].
      rewrite Hcol, !andb_false_r. done.
Qed.

Lemma insert_row_perm (by_ : list string) (r : Py.dict value)
    (sorted : list (Py.dict value)) :
  insert_row by_ r sorted ≡ₚ r :: sorted.
Proof.
  induction sorted as [|r' sorted IH]; simpl; [done|].
  destruct (row_compare by_ r r'); [done | done |].
  rewrite IH. apply Permutation_swap.
Qed.

Lemma sort_values_perm (by_ : list string) (df : DataFrame) :
  rows (sort_values by_ df) ≡ₚ rows df
  /\ columns (sort_values by_ df) = columns df.
Proof.
  split; [|done]. unfold sort_values. simpl.
  induction (rows df) as [|r rs IH]; simpl; [done|].
  by rewrite insert_row_perm, IH.
Qed.
End Frames.

Section Restructure.
Import Collector CollectorSpec.

Lemma has_fold_add_column (c : string) (ks cols : list string) :
  has c (fold_left add_column ks cols) = has c cols || has c ks.
Proof.
  revert cols. induction ks as [|k ks IH]; intros cols; simpl.
  - by rewrite orb_false_r.
  - rewrite IH, has_add_column. by rewrite <- orb_assoc.
Qed.

Lemma has_columns_of (c : string) (records : list (Py.dict value))
    (cols : list string) :
  has c (fold_left (fun cols rec => fold_left add_column (Py.keys rec) cols)
                   records cols)
  = has c cols || existsb (fun rec => has c (Py.keys rec)) records.
Proof.
  revert cols. induction records as [|rec records IH]; intros cols; simpl.
  - by rewrite orb_false_r.
  - rewrite IH, has_fold_add_column. by rewrite <- orb_assoc.
Qed.

Lemma has_filter (P : string -> bool) (c : string) (cols : list string) :
  has c (List.filter P cols) = P c && has c cols.
Proof.
  induction cols as [|k cols IH]; simpl; [by rewrite andb_false_r|].
  destruct (String.eqb_spec c k) as [<-|Hne].
  - destruct (P c) eqn:HP; simpl; [by rewrite String.eqb_refl|].
    by rewrite IH.
  - destruct (P k); simpl; [|exact IH].
    rewrite (proj2 (String.eqb_neq c k)) by done. exact IH.
Qed.

Lemma stat_is_ordered (c : string) :
  has c STAT_COLUMNS = true -> has c ordered_cols = true.
Proof.
  rewrite has_spec. unfold STAT_COLUMNS. rewrite !elem_of_cons, elem_of_nil.
  intros [->|[->|[->|[->|[]]]]]; reflexivity.
Qed.

(** The frame [pd.DataFrame(records)] follows the records, cell for
    cell. *)
Lemma tracks_pd_DataFrame (records : list (Py.dict value)) :
  tracks view records (pd_DataFrame records).
Proof.
  unfold tracks, pd_DataFrame. simpl. apply Forall2_fmap_r.
  apply Forall_Forall2_diag, Forall_forall. intros rec Hrec.
  split; [apply keys_reindex|]. intros c. rewrite view_reindex.
  destruct (has c _) eqn:Hc; [done|]. symmetry. apply view_absent.
  rewrite has_columns_of in Hc. simpl in Hc.
  destruct (has c (Py.keys rec)) eqn:Hk; [|done].
  assert (existsb (fun rec => has c (Py.keys rec)) records = true) as He.
  { apply existsb_exists. exists rec. split; [by apply list_elem_of_In | done]. }
  congruence.
Qed.

Lemma filter_columns_ensure (P : string -> bool) (cols : list string)
    (df : DataFrame) :
  (forall c, c ∈ cols -> P c = false) ->
  List.filter P (columns (ensure_columns cols df)) = List.filter P (columns df).
Proof.
  unfold ensure_columns. revert df.
  induction cols as [|col cols IH]; intros df HP; simpl; [done|].
  assert (forall c, c ∈ cols -> P c = false) as HP'
    by (intros; apply HP; by apply list_elem_of_further).
  destruct (has col (columns df)) eqn:Hcol; [by apply IH|].
  rewrite IH by done. simpl. unfold add_column. rewrite Hcol.
  rewrite List.filter_app. simpl.
  rewrite (HP col (list_elem_of_here _ _)). apply app_nil_r.
Qed.
End Restructure.

Section Assembly.
Import Collector CollectorSpec.

Lemma bind_Ok {A B : Type} (r : Py.result A) (k : A -> Py.result B) (b : B) :
  (r ≫= k) = Py.Ok b -> exists a, r = Py.Ok a /\ k a = Py.Ok b.
Proof. destruct r as [a|e]; [eauto | done]. Qed.

Lemma Ok_inj {A : Type} (a b : A) : Py.Ok a = Py.Ok b -> a = b.
Proof. by intros [= ->]. Qed.

Lemma add_column_present (cols : list string) (col : string) :
  has col cols = true -> add_column cols col = cols.
Proof. unfold add_column. by intros ->. Qed.

(** Making the statistic and extra columns numeric turns the staged
    cells into the cells of the column-by-column description. *)
Lemma staged_cell (now : Z) (cols2 : list string) (rec : Py.dict value)
    (c : string) :
  (has c cols2 = false -> view rec c = NA) ->
  (if has c (STAT_COLUMNS
             ++ List.filter (fun c => negb (has c ordered_cols)) cols2)
      && has c (ordered_cols
                ++ List.filter (fun c => negb (has c ordered_cols)) cols2)
   then to_numeric (staged now rec c) else staged now rec c)
  = cell now rec c.
Proof.
  intros Habs. rewrite !has_app, has_filter. unfold staged, cell.
  destruct (String.eqb_spec "period_sec" c) as [<-|Hp]; [reflexivity|].
  destruct (String.eqb_spec "extracted_at" c) as [<-|He]; [reflexivity|].
  destruct (String.eqb_spec "timestamp" c) as [<-|Ht]; [reflexivity|].
  destruct (has c STAT_COLUMNS) eqn:Hs.
  - rewrite (stat_is_ordered c Hs). reflexivity.
  - destruct (has c ordered_cols) eqn:Ho; simpl; [reflexivity|].
    destruct (has c cols2) eqn:H2; simpl; [reflexivity|].
    by rewrite (Habs eq_refl).
Qed.

(** The frame [restructure_dataframe] returns: its columns are the
    ordered ones followed by the unknown keys of the records; its rows
    are, up to their order, one per record, each with exactly those
    columns and the cells [cell] describes; and the two strict
    conversions went through on every record. *)
Lemma restructure_tracks (records : list (Py.dict value)) (now : Z)
    (df : DataFrame) :
  restructure_dataframe records now = Py.Ok df ->
  columns df
  = ordered_cols
    ++ List.filter (fun c => negb (has c ordered_cols))
                   (columns (pd_DataFrame records))
  /\ (exists rows',
        rows df ≡ₚ rows'
        /\ Forall2 (fun rec row => Py.keys row = columns df
                                   /\ forall c, view row c = cell now rec c)
                   records rows')
  /\ Forall (fun rec =>
               Py.is_ok (to_datetime (view rec "timestamp")) = true
               /\ Py.is_ok (astype_int32 (view rec "period_sec")) = true)
            records.
Proof.
  unfold restructure_dataframe.
  set (df0 := pd_DataFrame records).
  set (df1 := ensure_columns STAT_COLUMNS df0).
  intros H.
  apply bind_Ok in H as (df2 & H2 & H).
  set (extra := List.filter (fun c => negb (has c ordered_cols)) (columns df2)) in *.
  apply bind_Ok in H as (df3 & H3 & H).
  apply bind_Ok in H as (df4 & H4 & H).
  apply bind_Ok in H as (df5 & H5 & H).
  apply bind_Ok in H as (df6 & H6 & H).
  apply Ok_inj in H. subst df.
  pose proof (tracks_pd_DataFrame records) as Ht0. fold df0 in Ht0.
  destruct (tracks_ensure_columns records view STAT_COLUMNS df0 Ht0) as [Ht1 Hc1].
  fold df1 in Ht1, Hc1.
  destruct (tracks_insert0 records view _ _ _ _ H2 Ht1) as [Ht2 Hc2].
  assert (forall c, has c (ordered_cols ++ extra)
                    = has c ordered_cols || has c (columns df2)) as Hc3'.
  { intros c. unfold extra. rewrite has_app, has_filter.
    by destruct (has c ordered_cols), (has c (columns df2)). }
  destruct (tracks_getitem records _ _ _ _ H3 Ht2) as [Ht3 Hc3].
  { intros c Hc. rewrite Hc3', Hc. apply orb_true_r. }
  destruct (tracks_convert records _ _ _ _ _ H4 Ht3) as (Ht4 & Hc4 & Hok4).
  rewrite add_column_present in Hc4 by (rewrite Hc3; reflexivity).
  destruct (tracks_convert records _ _ _ _ _ H5 Ht4) as (Ht5 & Hc5 & _).
  rewrite add_column_present in Hc5 by (rewrite Hc4, Hc3; reflexivity).
  destruct (tracks_convert records _ _ _ _ _ H6 Ht5) as (Ht6 & Hc6 & Hok6).
  rewrite add_column_present in Hc6 by (rewrite Hc5, Hc4, Hc3; reflexivity).
  assert (columns df6 = ordered_cols ++ extra) as Hcols
    by (by rewrite Hc6, Hc5, Hc4, Hc3).
  assert (tracks (staged now) records df6) as Hst.
  { eapply tracks_ext; [|exact Ht6]. intros rec c. unfold staged.
    destruct (String.eqb_spec "period_sec" c) as [<-|Hp]; [reflexivity|].
    destruct (String.eqb_spec "extracted_at" c) as [<-|He]; [reflexivity|].
    destruct (String.eqb_spec "timestamp" c) as [<-|Hts]; [reflexivity|].
    reflexivity. }
  destruct (tracks_numeric_columns records (STAT_COLUMNS ++ extra) _ _ Hst)
    as [Ht7 Hc7].
  destruct (sort_values_perm
              ["instance_id"; "category"; "metric_name"; "timestamp"]
              (numeric_columns (STAT_COLUMNS ++ extra) df6)) as [Hperm Hc8].
  assert (extra = List.filter (fun c => negb (has c ordered_cols)) (columns df0))
    as Hextra.
  { unfold extra. rewrite Hc2.
    transitivity (List.filter (fun c => negb (has c ordered_cols)) (columns df1));
      [reflexivity|].
    unfold df1. apply filter_columns_ensure. intros c Hc.
    apply has_spec, stat_is_ordered in Hc. cbv beta. by rewrite Hc. }
  split; [by rewrite Hc8, Hc7, Hcols, Hextra|]. split.
  - exists (rows (numeric_columns (STAT_COLUMNS ++ extra) df6)).
    split; [done|]. unfold tracks in Ht7.
    eapply Forall2_impl_in; [exact Ht7|].
    intros rec row Hrec [Hk Hv]. split; [by rewrite Hk, Hc8|].
    intros c. rewrite Hv, Hcols. apply staged_cell.
    intros Hc. rewrite Hc2 in Hc. simpl in Hc.
    apply orb_false_iff in Hc as [_ Hc]. rewrite Hc1 in Hc.
    apply orb_false_iff in Hc as [Hc _].
    pose proof (tracks_absent records view df0 c Ht0 Hc) as Habs.
    rewrite Forall_forall in Habs. by apply Habs.
  - apply Forall_forall. intros rec Hrec.
    rewrite Forall_forall in Hok4, Hok6.
    split; [exact (Hok4 rec Hrec) | exact (Hok6 rec Hrec)].
Qed.
End Assembly.

(** ** The normalized frame *)

Lemma columns_from_records (records : list (Py.dict Collector.value)) (c : string) :
  c ∈ Collector.columns (Collector.pd_DataFrame records) ->
  exists rec, rec ∈ records /\ c ∈ Py.keys rec.
Proof.
  intros Hc. apply has_spec in Hc. unfold Collector.pd_DataFrame in Hc.
  simpl in Hc. rewrite has_columns_of in Hc. simpl in Hc.
  apply existsb_exists in Hc as (rec & Hrec & Hk).
  exists rec. split; [by apply list_elem_of_In | by apply has_spec].
Qed.

Lemma filter_none {A : Type} (P : A -> bool) (l : list A) :
  (forall x, x ∈ l -> P x = false) -> List.filter P l = [].
Proof.
  induction l as [|x l IH]; intros HP; simpl; [done|].
  rewrite (HP x (list_elem_of_here _ _)). apply IH.
  intros y Hy. apply HP. by apply list_elem_of_further.
Qed.

(** C5.  Whenever [restructure_dataframe] returns a frame, the four
    statistic columns are among its columns, every row has a cell under
    every column of the frame, and the cell under a statistic column is a
    float or the missing value.  The rows are, up to their order, one per
    record, and the statistic cell of a row is the number the record holds
    under that key, the missing value when the record lacks the key or
    holds [None] there.  The columns are the twenty ordered ones followed
    by the keys of the records that are not among them, so frames made
    from records with no other key share the one schema [ordered_cols]. *)
Theorem normalized_rows_have_all_statistics
    (records : list (Py.dict Collector.value)) (now : Z)
    (df : Collector.DataFrame) :
  Collector.restructure_dataframe records now = Py.Ok df ->
  (forall c, c ∈ Collector.STAT_COLUMNS -> c ∈ Collector.columns df)
  /\ (forall row, row ∈ Collector.rows df ->
        Py.keys row = Collector.columns df
        /\ forall c, c ∈ Collector.STAT_COLUMNS ->
             exists v, Py.get c row = Some v /\ CollectorSpec.numeric v)
  /\ (exists rows',
        Collector.rows df ≡ₚ rows'
        /\ Forall2
             (fun rec row =>
                forall c, c ∈ Collector.STAT_COLUMNS ->
                  Py.get c row
                  = Some (Collector.to_numeric (CollectorSpec.view rec c))
                  /\ (Py.get c rec = None \/ Py.get c rec = Some Collector.VNone ->
                      Py.get c row = Some Collector.NA))
             records rows')
  /\ Collector.columns df
     = Collector.ordered_cols
       ++ List.filter (fun c => negb (Collector.has c Collector.ordered_cols))
            (Collector.columns (Collector.pd_DataFrame records))
  /\ ((forall rec c, rec ∈ records -> c ∈ Py.keys rec ->
         c ∈ Collector.ordered_cols) ->
      Collector.columns df = Collector.ordered_cols).
Proof.
  intros Hdf.
  destruct (restructure_tracks records now df Hdf)
    as (Hcols & (rows' & Hperm & Hrows) & _).
  assert (forall c, c ∈ Collector.STAT_COLUMNS -> c ∈ Collector.columns df) as Hstat.
  { intros c Hc. rewrite Hcols. apply elem_of_app. left.
    by apply has_spec, stat_is_ordered, has_spec. }
  assert (forall rec row c,
            (Py.keys row = Collector.columns df
             /\ forall c, CollectorSpec.view row c = CollectorSpec.cell now rec c) ->
            c ∈ Collector.STAT_COLUMNS ->
            Py.get c row = Some (Collector.to_numeric (CollectorSpec.view rec c)))
    as Hcell.
  { intros rec row c [Hk Hv] Hc.
    rewrite get_Some by (rewrite Hk; by apply has_spec, Hstat).
    f_equal. rewrite Hv. unfold CollectorSpec.cell.
    rewrite (proj2 (has_spec c Collector.STAT_COLUMNS) Hc).
    unfold Collector.STAT_COLUMNS in Hc.
    rewrite !elem_of_cons, elem_of_nil in Hc.
    destruct Hc as [->|[->|[->|[->|[]]]]]; reflexivity. }
  split; [done|]. split; [|split; [|split; [done|]]].
  - intros row Hrow. rewrite Hperm in Hrow.
    apply list_elem_of_lookup in Hrow as [i Hi].
    destruct (Forall2_lookup_r _ _ _ _ _ Hrows Hi) as (rec & _ & Hrel).
    split; [by destruct Hrel|]. intros c Hc.
    eexists. split; [by eapply Hcell|]. apply to_numeric_numeric.
  - exists rows'. split; [done|].
    eapply Forall2_impl; [exact Hrows|]. intros rec row Hrel c Hc.
    rewrite (Hcell rec row c Hrel Hc). split; [done|].
    unfold CollectorSpec.view. by intros [-> | ->].
  - intros Hknown. rewrite Hcols, filter_none; [apply app_nil_r|].
    intros c Hc. apply columns_from_records in Hc as (rec & Hrec & Hk).
    apply (Hknown rec c Hrec), has_spec in Hk. by rewrite Hk.
Qed.

Lemma normalized_rows_have_all_statistics_witness :
  Collector.columns Sample.frame = Collector.ordered_cols.
Proof.
  refine (proj2 (proj2 (proj2 (proj2
    (normalized_rows_have_all_statistics Sample.collected Sample.clock
       Sample.frame _)))) _).
  - vm_compute. reflexivity.
  - intros rec c Hrec Hc.
    assert (forallb (fun rec =>
                       forallb (fun c => Collector.has c Collector.ordered_cols)
                               (Py.keys rec))
                    Sample.collected = true) as Hall
      by (vm_compute; reflexivity).
    rewrite forallb_forall in Hall.
    specialize (Hall rec (proj1 (list_elem_of_In _ _) Hrec)).
    rewrite forallb_forall in Hall.
    apply has_spec, Hall, list_elem_of_In, Hc.
Defined.

(** * Further facts about the extraction *)

Lemma for_each_Ok_iff {A B : Type} (f : A -> Py.result B) (xs : list A)
    (ys : list B) :
  Py.for_each f xs = Py.Ok ys <-> Forall2 (fun x y => f x = Py.Ok y) xs ys.
Proof.
  revert ys. induction xs as [|x xs IH]; intros ys; simpl.
  - split; [intros [= <-]; constructor | by intros ->%Forall2_nil_inv_l].
  - split.
    + destruct (f x) as [y|] eqn:Hy; [|done]. simpl.
      destruct (Py.for_each f xs) as [ys'|]; [|done]. simpl.
      intros [= <-]. constructor; [done | by apply IH].
    + intros (y & ys' & Hy & Hys & ->)%Forall2_cons_inv_l.
      rewrite Hy. simpl. apply IH in Hys. rewrite Hys. done.
Qed.

Lemma for_each_Raise {A B : Type} (f : A -> Py.result B) (pre post : list A)
    (x : A) (e : Py.exn) :
  (forall y, y ∈ pre -> Py.is_ok (f y) = true) -> f x = Py.Raise e ->
  Py.for_each f (pre ++ x :: post) = Py.Raise e.
Proof.
  intros Hpre Hx. induction pre as [|y pre IH]; simpl.
  - by rewrite Hx.
  - pose proof (Hpre y (list_elem_of_here _ _)) as Hy.
    destruct (f y); [|done]. simpl.
    rewrite IH; [done|]. intros z Hz. apply Hpre. by apply list_elem_of_further.
Qed.

(** With a lookback whose cutoff can be computed the filter returns the
    files not dated before the cutoff. *)
Lemma filter_lookback_fits (lib : Etl.Pandas) (cfg : Etl.Config) (now : Z)
    (all_files : list string) (lb : Z) :
  Etl.lookback_days cfg = Some lb -> lb <> 0 ->
  - 2 ^ 63 < lb * Etl.NS_PER_DAY < 2 ^ 63 ->
  - 2 ^ 63 < now - lb * Etl.NS_PER_DAY < 2 ^ 63 ->
  Etl.filter_lookback lib cfg now all_files
  = Py.Ok (List.filter (Etl.keep_file lib (now - lb * Etl.NS_PER_DAY))
             all_files).
Proof.
  intros Hlb Hnz H1 H2. unfold Etl.filter_lookback. rewrite Hlb. simpl.
  rewrite (proj2 (Z.eqb_neq lb 0) Hnz). simpl.
  by rewrite (proj2 (cutoff_date_Ok lib now lb _)
                (conj eq_refl (conj H1 H2))).
Qed.

(** X1.  When the listing is not empty, a lookback is set whose cutoff
    can be computed (the lookback in days and the cutoff fit the 64-bit
    count of nanoseconds) and every listed file is dated before the
    cutoff, the filter keeps no file: [pd.concat] of the empty list
    raises [ValueError], [extract_from_s3] ends with it and so does
    [main], the table as it was and no statement sent. *)
Theorem stale_listing_raises (lib : Etl.Pandas) (pg : Etl.Postgres)
    (cfg : Etl.Config) (fs : Etl.S3FileSystem) (now txn_now : Z)
    (tbl : Etl.Table) (all_files : list string) (lb : Z) :
  Etl.glob fs (Etl.glob_pattern cfg) = Py.Ok all_files ->
  all_files <> [] ->
  Etl.lookback_days cfg = Some lb -> lb <> 0 ->
  - 2 ^ 63 < lb * Etl.NS_PER_DAY < 2 ^ 63 ->
  - 2 ^ 63 < now - lb * Etl.NS_PER_DAY < 2 ^ 63 ->
  (forall f, f ∈ all_files ->
     exists d, Etl.file_date lib f = Py.Ok d
               /\ d < now - lb * Etl.NS_PER_DAY) ->
  Etl.filter_lookback lib cfg now all_files = Py.Ok []
  /\ Etl.extract_from_s3 lib cfg fs now
     = Py.Raise (Py.ValueError "No objects to concatenate")
  /\ Etl.main lib pg cfg fs now txn_now tbl
     = (Py.Raise (Py.ValueError "No objects to concatenate"), tbl, []).
Proof.
  intros Hglob Hne Hlb Hnz H1 H2 Hold.
  assert (Etl.filter_lookback lib cfg now all_files = Py.Ok []) as Hnone.
  { rewrite (filter_lookback_fits lib cfg now all_files lb) by done.
    f_equal. apply filter_none. intros f Hf.
    destruct (Hold f Hf) as (d & Hd & Hlt).
    unfold Etl.keep_file. rewrite Hd. by apply Z.leb_gt. }
  assert (Etl.extract_from_s3 lib cfg fs now
          = Py.Raise (Py.ValueError "No objects to concatenate")) as He.
  { unfold Etl.extract_from_s3. rewrite Hglob.
    destruct all_files; [done|]. by rewrite Hnone. }
  split; [done|]. split; [done|]. unfold Etl.main. by rewrite He.
Qed.

Lemma stale_listing_raises_witness :
  Etl.filter_lookback Sample.pandas Sample.cfg Cases.late_clock [Sample.file0]
  = Py.Ok []
  /\ Etl.extract_from_s3 Sample.pandas Sample.cfg Sample.fs Cases.late_clock
     = Py.Raise (Py.ValueError "No objects to concatenate")
  /\ Etl.main Sample.pandas Etl.accepting Sample.cfg Sample.fs
       Cases.late_clock Cases.late_clock ∅
     = (Py.Raise (Py.ValueError "No objects to concatenate"), ∅, []).
Proof.
  apply (stale_listing_raises Sample.pandas Etl.accepting Sample.cfg Sample.fs
           Cases.late_clock Cases.late_clock ∅ [Sample.file0] 90).
  - reflexivity.
  - discriminate.
  - reflexivity.
  - lia.
  - vm_compute. split; reflexivity.
  - vm_compute. split; reflexivity.
  - intros f Hf. apply list_elem_of_singleton in Hf as ->.
    exists Sample.t0. split; [vm_compute; reflexivity | vm_compute; reflexivity].
Defined.

(** X2.  The first kept file that cannot be read ends the extraction
    with the exception of that read, whatever the files before it held;
    [main] ends with the same exception, the table as it was and no
    statement sent. *)
Theorem unreadable_file_aborts_run (lib : Etl.Pandas) (pg : Etl.Postgres)
    (cfg : Etl.Config) (fs : Etl.S3FileSystem) (now txn_now : Z)
    (tbl : Etl.Table) (all_files pre post : list string) (f : string)
    (e : Py.exn) :
  Etl.glob fs (Etl.glob_pattern cfg) = Py.Ok all_files ->
  Etl.filter_lookback lib cfg now all_files = Py.Ok (pre ++ f :: post) ->
  (forall g, g ∈ pre -> Py.is_ok (Etl.read_parquet fs g) = true) ->
  Etl.read_parquet fs f = Py.Raise e ->
  Etl.extract_from_s3 lib cfg fs now = Py.Raise e
  /\ Etl.main lib pg cfg fs now txn_now tbl = (Py.Raise e, tbl, []).
Proof.
  intros Hglob Hkept Hpre Hf.
  assert (Etl.extract_from_s3 lib cfg fs now = Py.Raise e) as He.
  { unfold Etl.extract_from_s3. rewrite Hglob.
    destruct all_files as [|f0 fs0].
    - apply filter_lookback_Ok in Hkept as [[_ Hk]|(? & ? & _ & _ & _ & Hk)];
        by destruct pre.
    - rewrite Hkept. simpl.
      by rewrite (for_each_Raise _ pre post f e Hpre Hf). }
  split; [done|]. unfold Etl.main. by rewrite He.
Qed.

Lemma unreadable_file_aborts_run_witness :
  Etl.extract_from_s3 Sample.pandas Sample.cfg Cases.broken_fs Sample.clock
  = Py.Raise (Py.ClientError "AccessDenied")
  /\ Etl.main Sample.pandas Etl.accepting Sample.cfg Cases.broken_fs
       Sample.clock Sample.clock ∅
     = (Py.Raise (Py.ClientError "AccessDenied"), ∅, []).
Proof.
  apply (unreadable_file_aborts_run Sample.pandas Etl.accepting Sample.cfg
           Cases.broken_fs
           Sample.clock Sample.clock ∅ [Sample.file0; Cases.file1]
           [Sample.file0] [] Cases.file1 (Py.ClientError "AccessDenied")).
  - reflexivity.
  - vm_compute. reflexivity.
  - intros g Hg. apply list_elem_of_singleton in Hg as ->. reflexivity.
  - reflexivity.
Defined.

(** X3.  [extract_from_s3] returns a frame exactly when the listing
    succeeds, the lookback filter returns (no lookback is set, or its
    cutoff can be computed) and keeps at least one file, and every kept
    file can be read; the frame is then the frames of the kept files put
    together in the order of the listing. *)
Theorem extraction_concatenates_kept_files (lib : Etl.Pandas)
    (cfg : Etl.Config) (fs : Etl.S3FileSystem) (now : Z) (raw : list Raw.t) :
  Etl.extract_from_s3 lib cfg fs now = Py.Ok raw
  <-> exists all_files kept dfs,
        Etl.glob fs (Etl.glob_pattern cfg) = Py.Ok all_files
        /\ Etl.filter_lookback lib cfg now all_files = Py.Ok kept
        /\ kept <> []
        /\ Forall2 (fun f df => Etl.read_parquet fs f = Py.Ok df) kept dfs
        /\ raw = concat dfs.
Proof.
  unfold Etl.extract_from_s3. split.
  - destruct (Etl.glob fs (Etl.glob_pattern cfg)) as [all_files|]; [|done].
    destruct all_files as [|f0 fs0]; [done|].
    intros H. apply bind_Ok in H as (kept & Hkept & H).
    apply bind_Ok in H as (dfs & Hdfs & Hc).
    apply for_each_Ok_iff in Hdfs.
    exists (f0 :: fs0), kept, dfs. split; [done|]. split; [done|].
    unfold Etl.pd_concat in Hc. destruct dfs as [|d dfs]; [done|].
    injection Hc as <-. split; [|done].
    intros ->. by apply Forall2_nil_inv_l in Hdfs.
  - intros (all_files & kept & dfs & -> & Hkept & Hne & Hdfs & ->).
    destruct all_files as [|f0 fs0].
    { exfalso. apply Hne.
      apply filter_lookback_Ok in Hkept as [[_ ->]|(? & ? & _ & _ & _ & ->)];
        done. }
    rewrite Hkept. simpl.
    pose proof Hdfs as Hfe. apply for_each_Ok_iff in Hfe. rewrite Hfe. simpl.
    destruct dfs as [|d dfs]; [|done].
    apply Forall2_nil_inv_r in Hdfs. done.
Qed.

(** The date a path gives is the midnight that starts its day. *)
Lemma file_date_midnight (lib : Etl.Pandas) (f : string) (d : Z) :
  Etl.file_date lib f = Py.Ok d -> d = Etl.day_of d * Etl.NS_PER_DAY.
Proof.
  unfold Etl.file_date. intros H.
  apply bind_Ok in H as (items & _ & H).
  apply bind_Ok in H as (year & _ & H).
  apply bind_Ok in H as (month & _ & H).
  apply bind_Ok in H as (day & _ & H).
  unfold Etl.pd_Timestamp in H.
  destruct (_ && _); [|done].
  injection H as <-. unfold Etl.day_of.
  rewrite Z.div_mul; [done|]. unfold Etl.NS_PER_DAY. lia.
Qed.

(** X4.  The window of the lookback filter, in whole days.  The date
    of a path is the midnight that starts its day; with a lookback of [lb]
    days (not 0) whose cutoff can be computed, the filter returns, and a
    listed file with a date is kept exactly when its day is later than
    the day of the clock minus [lb], or is that day and the clock itself
    stands at midnight. *)
Theorem lookback_keeps_recent_days (lib : Etl.Pandas) (cfg : Etl.Config)
    (now : Z) (all_files : list string) (f : string) (d lb : Z) :
  Etl.lookback_days cfg = Some lb -> lb <> 0 ->
  - 2 ^ 63 < lb * Etl.NS_PER_DAY < 2 ^ 63 ->
  - 2 ^ 63 < now - lb * Etl.NS_PER_DAY < 2 ^ 63 ->
  f ∈ all_files ->
  Etl.file_date lib f = Py.Ok d ->
  d = Etl.day_of d * Etl.NS_PER_DAY
  /\ exists kept,
       Etl.filter_lookback lib cfg now all_files = Py.Ok kept
       /\ (f ∈ kept
           <-> Etl.day_of now - lb < Etl.day_of d
               \/ (Etl.day_of now - lb = Etl.day_of d
                   /\ now mod Etl.NS_PER_DAY = 0)).
Proof.
  intros Hlb Hnz H1 H2 Hf Hd.
  pose proof (file_date_midnight lib f d Hd) as Hmid.
  split; [done|]. eexists. split; [by apply filter_lookback_fits|].
  rewrite list_elem_of_In, filter_In, <- list_elem_of_In.
  unfold Etl.keep_file. rewrite Hd, Z.leb_le.
  revert Hmid. unfold Etl.day_of. generalize (d / Etl.NS_PER_DAY). intros D ->.
  clear H1 H2. unfold Etl.NS_PER_DAY.
  pose proof (Z.div_mod now 86400000000000 ltac:(lia)) as Hdm.
  pose proof (Z.mod_pos_bound now 86400000000000 ltac:(lia)) as Hb.
  split.
  - intros [_ Hk]. lia.
  - intros Hk. split; [done|]. lia.
Qed.

Lemma lookback_keeps_recent_days_witness :
  Sample.t0 = Etl.day_of Sample.t0 * Etl.NS_PER_DAY
  /\ exists kept,
       Etl.filter_lookback Sample.pandas Sample.cfg Sample.clock [Sample.file0]
       = Py.Ok kept
       /\ (Sample.file0 ∈ kept
           <-> Etl.day_of Sample.clock - 90 < Etl.day_of Sample.t0
               \/ (Etl.day_of Sample.clock - 90 = Etl.day_of Sample.t0
                   /\ Sample.clock mod Etl.NS_PER_DAY = 0)).
Proof.
  apply (lookback_keeps_recent_days Sample.pandas Sample.cfg Sample.clock
           [Sample.file0] Sample.file0 Sample.t0 90).
  - reflexivity.
  - lia.
  - vm_compute. split; reflexivity.
  - vm_compute. split; reflexivity.
  - apply list_elem_of_here.
  - vm_compute. reflexivity.
Defined.


Lemma with_day_bucket_filter (df : list Raw.t) :
  Etl.with_day_bucket (List.filter has_timestamp df) = Etl.with_day_bucket df.
Proof.
  unfold Etl.with_day_bucket, has_timestamp.
  induction df as [|r df IH]; [done|]. simpl.
  destruct (Raw.timestamp r) as [ts|] eqn:Hts; simpl.
  - rewrite Hts. simpl. by f_equal.
  - exact IH.
Qed.

Lemma with_day_bucket_length (df : list Raw.t) :
  length (Etl.with_day_bucket df) = length (List.filter has_timestamp df).
Proof.
  unfold Etl.with_day_bucket, has_timestamp.
  induction df as [|r df IH]; [done|]. simpl.
  destruct (Raw.timestamp r); simpl; [f_equal|]; exact IH.
Qed.

(** X5.  Rows without a timestamp take no part in the aggregation
    ([dropna] on the timestamp removes them): the daily frame is that of the rows
    that have one, it has at most as many rows as those, and it is empty
    exactly when no row has a timestamp. *)
Theorem rows_without_timestamp_are_dropped (lib : Etl.Pandas) (df : list Raw.t) :
  Etl.transform_to_daily lib df
  = Etl.transform_to_daily lib (List.filter has_timestamp df)
  /\ (length (Etl.transform_to_daily lib df)
      <= length (List.filter has_timestamp df))%nat
  /\ (Etl.transform_to_daily lib df = []
      <-> forall r, r ∈ df -> Raw.timestamp r = None).
Proof.
  split; [|split].
  - unfold Etl.transform_to_daily. by rewrite with_day_bucket_filter.
  - unfold Etl.transform_to_daily. rewrite length_map.
    rewrite <- with_day_bucket_length.
    unfold Etl.group_index. rewrite sort_keys_perm.
    rewrite <- (length_fmap fst (Etl.with_day_bucket df)).
    apply submseteq_length, NoDup_submseteq; [apply NoDup_remove_dups|].
    intros k. by rewrite elem_of_remove_dups.
  - split.
    + intros Hnil r Hr. destruct (Raw.timestamp r) as [ts|] eqn:Hts; [|done].
      assert (Etl.agg lib (Etl.group_key r ts)
                (List.filter (Etl.in_group (Etl.group_key r ts)) df)
              ∈ Etl.transform_to_daily lib df) as Ho
        by (apply elem_of_daily; simpl; eauto 10).
      rewrite Hnil in Ho. by apply elem_of_nil in Ho.
    + intros Hall. unfold Etl.transform_to_daily.
      assert (Etl.with_day_bucket df = []) as ->; [|done].
      unfold Etl.with_day_bucket.
      induction df as [|r df IH]; [done|]. simpl.
      rewrite (Hall r (list_elem_of_here _ _)). simpl. apply IH.
      intros r' Hr'. apply Hall. by apply list_elem_of_further.
Qed.

(** ** The order of the aggregated frame *)

Lemma lex_antisym (c d c' d' : comparison) :
  c = CompOpp c' -> d = CompOpp d' -> Key.lex c d = CompOpp (Key.lex c' d').
Proof. intros -> ->. by destruct c'. Qed.

Lemma Key_compare_antisym (a b : Key.t) :
  Key.compare a b = CompOpp (Key.compare b a).
Proof.
  unfold Key.compare.
  repeat (apply lex_antisym; [apply String.compare_antisym || apply Z.compare_antisym|]).
  apply String.compare_antisym.
Qed.

Lemma lex_Eq (c d : comparison) : Key.lex c d = Eq -> c = Eq /\ d = Eq.
Proof. by destruct c. Qed.

Lemma Key_compare_eq (a b : Key.t) : Key.compare a b = Eq -> a = b.
Proof.
  unfold Key.compare. intros H.
  repeat (apply lex_Eq in H as [?%String.compare_eq_iff H]
          || apply lex_Eq in H as [?%Z.compare_eq H]).
  apply String.compare_eq_iff in H.
  destruct a, b. simpl in *. congruence.
Qed.

Lemma leb_total (a b : Key.t) : Key.leb a b = false -> Key.leb b a = true.
Proof.
  unfold Key.leb. rewrite (Key_compare_antisym b a).
  by destruct (Key.compare a b).
Qed.

Lemma insert_key_sorted (k : Key.t) (ks : list Key.t) :
  Sorted (fun a b => Key.leb a b = true) ks ->
  Sorted (fun a b => Key.leb a b = true) (Etl.insert_key k ks).
Proof.
  induction 1 as [|k' ks Hs IH Hhd]; simpl.
  - repeat constructor.
  - destruct (Key.leb k k') eqn:Hle.
    + constructor; [by constructor | by constructor].
    + constructor; [done|].
      destruct Hhd as [|k'' ks' Hk'']; simpl.
      * constructor. by apply leb_total.
      * destruct (Key.leb k k''); constructor; [by apply leb_total | done].
Qed.

Lemma sort_keys_sorted (ks : list Key.t) :
  Sorted (fun a b => Key.leb a b = true) (Etl.sort_keys ks).
Proof.
  induction ks as [|k ks IH]; simpl; [constructor|].
  by apply insert_key_sorted.
Qed.

Lemma sorted_NoDup_strict (ks : list Key.t) :
  Sorted (fun a b => Key.leb a b = true) ks -> NoDup ks ->
  Sorted (fun a b => Key.compare a b = Lt) ks.
Proof.
  induction 1 as [|k ks Hs IH Hhd]; intros Hnd; [constructor|].
  apply NoDup_cons in Hnd as [Hk Hnd]. constructor; [by apply IH|].
  destruct Hhd as [|k' ks' Hle]; constructor.
  unfold Key.leb in Hle. destruct (Key.compare k k') eqn:Hc; [|done|done].
  apply Key_compare_eq in Hc as ->. exfalso. apply Hk, list_elem_of_here.
Qed.

Lemma group_index_sorted (rows : list (Key.t * Raw.t)) :
  Sorted (fun a b => Key.compare a b = Lt) (Etl.group_index rows).
Proof.
  apply sorted_NoDup_strict; [apply sort_keys_sorted | apply group_index_NoDup].
Qed.

(** X6.  The rows of the daily frame come in strictly increasing order
    of their nine grouping columns, so no key occurs twice; [Key.compare]
    is the comparison of a total order: it answers [Eq] on equal keys only,
    and [Gt] exactly when the keys the other way round give [Lt]. *)
Theorem daily_rows_are_ordered (lib : Etl.Pandas) (df : list Raw.t) :
  Sorted (fun a b => Key.compare a b = Lt)
         (map Daily.key (Etl.transform_to_daily lib df))
  /\ (forall a b, Key.compare a b = Eq <-> a = b)
  /\ (forall a b, Key.compare a b = Gt <-> Key.compare b a = Lt).
Proof.
  split; [|split].
  - rewrite daily_keys. apply group_index_sorted.
  - intros a b. split; [apply Key_compare_eq|]. intros ->.
    pose proof (Key_compare_antisym b b) as H.
    by destruct (Key.compare b b).
  - intros a b. rewrite (Key_compare_antisym a b).
    by destruct (Key.compare b a).
Qed.

(** X7.  When the extraction succeeds and none of its rows has a
    timestamp, the daily frame is empty and [main] returns 0: the table is
    as it was and no statement is sent. *)
Theorem untimed_input_loads_nothing (lib : Etl.Pandas) (pg : Etl.Postgres) (cfg : Etl.Config)
    (fs : Etl.S3FileSystem) (now txn_now : Z) (tbl : Etl.Table)
    (raw : list Raw.t) :
  Etl.extract_from_s3 lib cfg fs now = Py.Ok raw ->
  (forall r, r ∈ raw -> Raw.timestamp r = None) ->
  Etl.transform_to_daily lib raw = []
  /\ Etl.main lib pg cfg fs now txn_now tbl = (Py.Ok 0%nat, tbl, []).
Proof.
  intros He Hall.
  assert (Etl.transform_to_daily lib raw = []) as Hd.
  { unfold Etl.transform_to_daily.
    assert (Etl.with_day_bucket raw = []) as ->; [|done].
    unfold Etl.with_day_bucket. clear He.
    induction raw as [|r raw IH]; [done|]. simpl.
    rewrite (Hall r (list_elem_of_here _ _)). simpl. apply IH.
    intros r' Hr'. apply Hall. by apply list_elem_of_further. }
  split; [done|]. unfold Etl.main. rewrite He, Hd. reflexivity.
Qed.

Lemma untimed_input_loads_nothing_witness :
  Etl.transform_to_daily Sample.pandas [Scenario.untimed] = []
  /\ Etl.main Sample.pandas Etl.accepting Sample.cfg Scenario.untimed_fs Sample.clock
       Sample.clock ∅ = (Py.Ok 0%nat, ∅, []).
Proof.
  apply (untimed_input_loads_nothing Sample.pandas Etl.accepting Sample.cfg
           Scenario.untimed_fs Sample.clock Sample.clock ∅ [Scenario.untimed]).
  - vm_compute. reflexivity.
  - intros r Hr. apply list_elem_of_singleton in Hr as ->. reflexivity.
Defined.

(** ** Independence of the order of the rows *)


Lemma composes_lex (c1 c2 c3 d1 d2 d3 : comparison) :
  composes c1 c2 c3 -> composes d1 d2 d3 ->
  composes (Key.lex c1 d1) (Key.lex c2 d2) (Key.lex c3 d3).
Proof.
  unfold composes. intros (H1 & H2 & H3 & H4) (G1 & G2 & G3 & G4).
  destruct c1, c2; simpl;
    try (rewrite ?H1, ?H2, ?H3, ?H4 by done; simpl; tauto);
    repeat split; intros; discriminate.
Qed.

Lemma string_compare_Lt (s t : string) :
  String.compare s t = Lt <-> String_as_OT.lt s t.
Proof.
  pose proof (String_as_OT.compare_spec s t) as Hs.
  change (String_as_OT.compare s t) with (String.compare s t) in Hs.
  split.
  - intros Hc. rewrite Hc in Hs. by inversion Hs.
  - intros Hlt. inversion Hs as [He|Hl|Hg]; [|done|].
    + rewrite He in Hlt. by apply (StrictOrder_Irreflexive t) in Hlt.
    + exfalso. apply (StrictOrder_Irreflexive s).
      by transitivity t.
Qed.

Lemma composes_string (a b c : string) :
  composes (String.compare a b) (String.compare b c) (String.compare a c).
Proof.
  unfold composes. repeat split.
  - intros ->%String.compare_eq_iff. done.
  - intros ->%String.compare_eq_iff. done.
  - intros H ->%String.compare_eq_iff. done.
  - rewrite !string_compare_Lt. intros H1 H2. by transitivity b.
Qed.

Lemma composes_Z (a b c : Z) :
  composes (Z.compare a b) (Z.compare b c) (Z.compare a c).
Proof.
  unfold composes. rewrite !Z.compare_eq_iff, !Z.compare_lt_iff. lia.
Qed.

Lemma Key_compare_trans (a b c : Key.t) :
  Key.compare a b = Lt -> Key.compare b c = Lt -> Key.compare a c = Lt.
Proof.
  assert (composes (Key.compare a b) (Key.compare b c) (Key.compare a c)) as H.
  { unfold Key.compare.
    repeat (apply composes_lex; [apply composes_string || apply composes_Z|]).
    apply composes_string. }
  apply H.
Qed.

Lemma Key_lt_strict : StrictOrder (fun a b => Key.compare a b = Lt).
Proof.
  split.
  - intros a Ha. pose proof (Key_compare_antisym a a) as H.
    rewrite Ha in H. discriminate.
  - intros a b c. apply Key_compare_trans.
Qed.

(** Two strictly increasing lists of keys with the same elements are the
    same list. *)
Lemma sorted_keys_unique (l l' : list Key.t) :
  Sorted (fun a b => Key.compare a b = Lt) l ->
  Sorted (fun a b => Key.compare a b = Lt) l' ->
  (forall k, k ∈ l <-> k ∈ l') -> l = l'.
Proof.
  intros Hl Hl' Heq.
  enough (eqlistA eq l l') as He
    by (clear -He; induction He; subst; [done | by f_equal]).
  apply (SortA_equivlistA_eqlistA (eqA := eq) _ Key_lt_strict _ Hl Hl').
  intros k. rewrite !InA_alt. split; intros (y & -> & Hy);
    exists y; (split; [done|]); apply list_elem_of_In;
    apply list_elem_of_In in Hy; by apply Heq.
Qed.

Lemma filter_perm {A : Type} (P : A -> bool) (l l' : list A) :
  l ≡ₚ l' -> List.filter P l ≡ₚ List.filter P l'.
Proof.
  induction 1 as [|x l l' _ IH|x y l|l l' l'' _ IH1 _ IH2]; simpl.
  - done.
  - destruct (P x); by rewrite IH.
  - destruct (P x), (P y); try done. apply Permutation_swap.
  - by etransitivity.
Qed.

Lemma max_perm (xs ys : list (option Q)) :
  xs ≡ₚ ys -> same_number (Etl.max xs) (Etl.max ys).
Proof.
  intros Hp.
  assert (Etl.dropna xs ≡ₚ Etl.dropna ys) as Hd
    by (unfold Etl.dropna; by rewrite Hp).
  pose proof (max_spec xs) as Hx. pose proof (max_spec ys) as Hy.
  destruct (Etl.max xs) as [m|], (Etl.max ys) as [m'|]; simpl.
  - destruct Hx as [Hin Hle], Hy as [Hin' Hle']. apply Qle_antisym.
    + apply Hle'. by rewrite <- Hd.
    + apply Hle. by rewrite Hd.
  - destruct Hx as [Hin _]. rewrite Hd, Hy in Hin.
    by apply elem_of_nil in Hin.
  - destruct Hy as [Hin _]. rewrite <- Hd, Hx in Hin.
    by apply elem_of_nil in Hin.
  - done.
Qed.

Lemma min_perm (xs ys : list (option Q)) :
  xs ≡ₚ ys -> same_number (Etl.min xs) (Etl.min ys).
Proof.
  intros Hp.
  assert (Etl.dropna xs ≡ₚ Etl.dropna ys) as Hd
    by (unfold Etl.dropna; by rewrite Hp).
  pose proof (min_spec xs) as Hx. pose proof (min_spec ys) as Hy.
  destruct (Etl.min xs) as [m|], (Etl.min ys) as [m'|]; simpl.
  - destruct Hx as [Hin Hle], Hy as [Hin' Hle']. apply Qle_antisym.
    + apply Hle. by rewrite Hd.
    + apply Hle'. by rewrite <- Hd.
  - destruct Hx as [Hin _]. rewrite Hd, Hy in Hin.
    by apply elem_of_nil in Hin.
  - destruct Hy as [Hin _]. rewrite <- Hd, Hx in Hin.
    by apply elem_of_nil in Hin.
  - done.
Qed.

Lemma group_index_perm (df df' : list Raw.t) :
  df ≡ₚ df' ->
  Etl.group_index (Etl.with_day_bucket df)
  = Etl.group_index (Etl.with_day_bucket df').
Proof.
  intros Hp. apply sorted_keys_unique.
  - apply group_index_sorted.
  - apply group_index_sorted.
  - intros k. rewrite !elem_of_group_index.
    unfold Etl.with_day_bucket. by rewrite Hp.
Qed.

(** X8.  The order of the raw rows does not matter for the groups
    nor for their extremes: two frames with the same rows in another order
    give daily frames with the same keys in the same order, and row by row
    the same maximum and the same minimum. *)
Theorem aggregation_ignores_row_order (lib : Etl.Pandas) (df df' : list Raw.t) :
  df ≡ₚ df' ->
  map Daily.key (Etl.transform_to_daily lib df)
  = map Daily.key (Etl.transform_to_daily lib df')
  /\ Forall2 (fun o o' =>
                Daily.key o = Daily.key o'
                /\ same_number (Daily.stat_maximum o) (Daily.stat_maximum o')
                /\ same_number (Daily.stat_minimum o) (Daily.stat_minimum o'))
             (Etl.transform_to_daily lib df) (Etl.transform_to_daily lib df').
Proof.
  intros Hp. split; [rewrite !daily_keys; by apply group_index_perm|].
  unfold Etl.transform_to_daily. rewrite (group_index_perm df df' Hp).
  apply Forall2_fmap, Forall_Forall2_diag, Forall_forall.
  intros k _. simpl. split; [done|]. rewrite !group_is_filter.
  pose proof (filter_perm (Etl.in_group k) df df' Hp) as Hg.
  split; [apply max_perm | apply min_perm]; by rewrite Hg.
Qed.

Lemma aggregation_ignores_row_order_witness :
  map Daily.key (Etl.transform_to_daily Sample.pandas Sample.one_day)
  = map Daily.key (Etl.transform_to_daily Sample.pandas (rev Sample.one_day))
  /\ Forall2 (fun o o' =>
                Daily.key o = Daily.key o'
                /\ same_number (Daily.stat_maximum o) (Daily.stat_maximum o')
                /\ same_number (Daily.stat_minimum o) (Daily.stat_minimum o'))
             (Etl.transform_to_daily Sample.pandas Sample.one_day)
             (Etl.transform_to_daily Sample.pandas (rev Sample.one_day)).
Proof.
  apply (aggregation_ignores_row_order Sample.pandas Sample.one_day (rev Sample.one_day)).
  apply Permutation_rev.
Defined.

(** * Further facts about the load *)

Lemma chunks_lookup (records : list Daily.t) (i : nat) (chunk : list Daily.t) :
  Etl.chunks records !! i = Some chunk
  <-> (i < Nat.div (length records + Etl.BATCH - 1) Etl.BATCH)%nat
      /\ chunk = take Etl.BATCH (drop (i * Etl.BATCH) records).
Proof.
  unfold Etl.chunks, Etl.batch_starts.
  rewrite !list_lookup_fmap. split.
  - destruct (seq 0 _ !! i) as [j|] eqn:Hj; simpl; [|done].
    apply lookup_seq in Hj as [-> Hi]. intros [= <-]. done.
  - intros [Hi ->].
    rewrite (proj2 (lookup_seq 0 _ i i) (conj eq_refl Hi)). done.
Qed.

Lemma chunk_count_bound (len i : nat) :
  (i < Nat.div (len + Etl.BATCH - 1) Etl.BATCH)%nat ->
  (i * Etl.BATCH < len)%nat.
Proof.
  assert (Hb : Etl.BATCH <> 0%nat) by (unfold Etl.BATCH; lia).
  pose proof (Nat.div_mod_eq (len + Etl.BATCH - 1) Etl.BATCH) as Hd.
  pose proof (Nat.mod_upper_bound (len + Etl.BATCH - 1) Etl.BATCH Hb) as Hm.
  revert Hb Hd Hm. generalize ((len + Etl.BATCH - 1) / Etl.BATCH)%nat.
  generalize ((len + Etl.BATCH - 1) mod Etl.BATCH)%nat.
  generalize Etl.BATCH. intros b m d Hb Hd Hm Hi. nia.
Qed.

Lemma chunk_count_full (len i : nat) :
  (S i < Nat.div (len + Etl.BATCH - 1) Etl.BATCH)%nat ->
  (i * Etl.BATCH + Etl.BATCH <= len)%nat.
Proof.
  intros Hi. apply chunk_count_bound in Hi. lia.
Qed.

(** X9.  [upsert_to_postgres] cuts the records into consecutive
    batches of [BATCH] = 1000: put together the batches give the records
    back, there are as many as the length divided by 1000 and rounded up,
    batch [i] is [records[i*1000 : (i+1)*1000]], no batch is empty and all
    but the last are full. *)
Theorem batches_partition_the_records (records : list Daily.t) :
  concat (Etl.chunks records) = records
  /\ length (Etl.chunks records)
     = Nat.div (length records + Etl.BATCH - 1) Etl.BATCH
  /\ (forall i chunk,
        Etl.chunks records !! i = Some chunk ->
        chunk = take Etl.BATCH (drop (i * Etl.BATCH) records)
        /\ (1 <= length chunk <= Etl.BATCH)%nat
        /\ ((S i < length (Etl.chunks records))%nat ->
            length chunk = Etl.BATCH))
  /\ Etl.BATCH = 1000%nat.
Proof.
  assert (length (Etl.chunks records)
          = Nat.div (length records + Etl.BATCH - 1) Etl.BATCH) as Hlen.
  { unfold Etl.chunks, Etl.batch_starts. by rewrite !length_map, length_seq. }
  split; [apply concat_chunks|]. split; [done|]. split; [|done].
  intros i chunk Hc. apply chunks_lookup in Hc as [Hi ->].
  split; [done|]. rewrite length_take, length_drop.
  pose proof (chunk_count_bound _ _ Hi) as Hb.
  split; [unfold Etl.BATCH in *; lia|].
  rewrite Hlen. intros Hi'. apply chunk_count_full in Hi'. lia.
Qed.

(** X10.  A load that goes through returns the number of records, has
    sent the batches of the records and nothing else, and leaves the table
    as the merge of the records one after the other does: under a key the
    last record with that key gives every column but [loaded_at], and
    under a key of no record the row is the one from before. *)
Theorem accepted_load_is_one_merge (pg : Etl.Postgres) (now : Z)
    (df : list Daily.t) (tbl tbl' : Etl.Table) (n : nat)
    (sent : list (list Daily.t)) :
  Etl.upsert_to_postgres pg now df tbl = (Py.Ok n, tbl', sent) ->
  n = length df
  /\ sent = Etl.chunks df
  /\ concat sent = df
  /\ tbl' = fold_left (Etl.on_conflict_do_update pg now) df tbl
  /\ (forall k, Etl.forget_loaded_at <$> tbl' !! k
                = match Etl.last_with_key k df with
                  | Some r => Some (Etl.excluded r None)
                  | None => Etl.forget_loaded_at <$> tbl !! k
                  end).
Proof.
  intros H. apply upsert_to_postgres_cases in H as [(Hn & -> & ->)|(e & ? & _)];
    [|done].
  injection Hn as ->. split; [done|]. split; [done|].
  split; [apply concat_chunks|]. split; [done|].
  intros k. apply load_lookup_forget.
Qed.

Lemma accepted_load_is_one_merge_witness :
  let df := [Sample.cpu_daily Sample.day0 20%Q;
             Sample.cpu_daily (Sample.day0 + 1) 25%Q] in
  let out := Etl.upsert_to_postgres Etl.accepting Sample.clock df ∅ in
  2%nat = length df
  /\ out.2 = Etl.chunks df
  /\ concat out.2 = df
  /\ out.1.2
     = fold_left (Etl.on_conflict_do_update Etl.accepting Sample.clock) df ∅
  /\ (forall k, Etl.forget_loaded_at <$> out.1.2 !! k
                = match Etl.last_with_key k df with
                  | Some r => Some (Etl.excluded r None)
                  | None => Etl.forget_loaded_at <$> (∅ : Etl.Table) !! k
                  end).
Proof.
  intros df out.
  apply (accepted_load_is_one_merge Etl.accepting Sample.clock df ∅
           out.1.2 2%nat out.2).
  apply triple_eta. vm_compute. reflexivity.
Defined.

(** X11.  Whatever its outcome, a load removes no row: every key of
    the table is still there afterwards, the rows under keys the frame does
    not mention are unchanged, every new key is a key of the frame, the
    table has not become smaller, and after a load that went through every
    key of the frame is in the table. *)
Theorem load_never_removes_rows (pg : Etl.Postgres) (now : Z)
    (df : list Daily.t) (tbl tbl' : Etl.Table) (r : Py.result nat)
    (sent : list (list Daily.t)) :
  Etl.upsert_to_postgres pg now df tbl = (r, tbl', sent) ->
  (forall k, is_Some (tbl !! k) -> is_Some (tbl' !! k))
  /\ (forall k, k ∉ map Etl.conflict_key df -> tbl' !! k = tbl !! k)
  /\ (forall k, is_Some (tbl' !! k) ->
        is_Some (tbl !! k) \/ k ∈ map Etl.conflict_key df)
  /\ (size tbl <= size tbl')%nat
  /\ (Py.is_ok r = true ->
      forall k, k ∈ map Etl.conflict_key df -> is_Some (tbl' !! k)).
Proof.
  intros H.
  apply upsert_to_postgres_cases in H as [(-> & -> & ->)|(e & -> & ->)].
  - assert (forall k, is_Some (tbl !! k) ->
              is_Some (fold_left (Etl.on_conflict_do_update pg now) df tbl !! k))
      as Hkeep by (intros k Hk; apply load_is_Some; by left).
    split; [done|]. split; [intros k Hk; by apply load_lookup_other|].
    split; [intros k Hk; by apply load_is_Some in Hk|]. split.
    + rewrite <- !size_dom. apply subseteq_size. intros k.
      rewrite !elem_of_dom. apply Hkeep.
    + intros _ k Hk. apply load_is_Some. by right.
  - split; [done|]. split; [done|]. split; [by left|]. split; [done|].
    done.
Qed.

Lemma load_never_removes_rows_witness :
  let df := [Sample.cpu_daily 1000 20%Q; Sample.cpu_daily 1001 25%Q] in
  let tbl : Etl.Table :=
    fold_left (Etl.on_conflict_do_update Etl.accepting Sample.clock)
      [Sample.cpu_daily Sample.day0 20%Q] ∅ in
  let out := Etl.upsert_to_postgres Etl.accepting Sample.clock df tbl in
  (forall k, is_Some (tbl !! k) -> is_Some (out.1.2 !! k))
  /\ (forall k, k ∉ map Etl.conflict_key df -> out.1.2 !! k = tbl !! k)
  /\ (forall k, is_Some (out.1.2 !! k) ->
        is_Some (tbl !! k) \/ k ∈ map Etl.conflict_key df)
  /\ (size tbl <= size out.1.2)%nat
  /\ (Py.is_ok out.1.1 = true ->
      forall k, k ∈ map Etl.conflict_key df -> is_Some (out.1.2 !! k)).
Proof.
  intros df tbl out.
  apply (load_never_removes_rows Etl.accepting Sample.clock df tbl
           out.1.2 out.1.1 out.2).
  apply triple_eta. reflexivity.
Defined.

(** X12.  From the files to the table.  After a run that goes
    through, the count returned is the number of rows of the daily frame,
    and under the conflict key of a daily row that shares it with no other
    daily row the table holds the columns of that row, which is the
    aggregate of the raw rows of its group. *)
Theorem run_stores_the_daily_aggregates (lib : Etl.Pandas)
    (pg : Etl.Postgres) (cfg : Etl.Config) (fs : Etl.S3FileSystem)
    (now txn_now : Z) (tbl tbl' : Etl.Table) (n : nat)
    (sent : list (list Daily.t)) (raw : list Raw.t) (o : Daily.t) :
  Etl.extract_from_s3 lib cfg fs now = Py.Ok raw ->
  Etl.main lib pg cfg fs now txn_now tbl = (Py.Ok n, tbl', sent) ->
  o ∈ Etl.transform_to_daily lib raw ->
  (forall o', o' ∈ Etl.transform_to_daily lib raw ->
     Etl.conflict_key o' = Etl.conflict_key o -> o' = o) ->
  n = length (Etl.transform_to_daily lib raw)
  /\ Etl.forget_loaded_at <$> tbl' !! Etl.conflict_key o
     = Some (Etl.excluded o None)
  /\ o = Etl.agg lib (Daily.key o)
           (List.filter (Etl.in_group (Daily.key o)) raw).
Proof.
  intros He Hm Ho Huniq. unfold Etl.main in Hm. rewrite He in Hm.
  apply upsert_to_postgres_cases in Hm as [(Hn & -> & _)|(e & ? & _)]; [|done].
  injection Hn as ->. split; [done|]. split.
  - rewrite load_lookup_forget.
    destruct (Etl.last_with_key (Etl.conflict_key o)
                (Etl.transform_to_daily lib raw)) as [o'|] eqn:Hl.
    + apply last_with_key_Some in Hl as [Ho' Hk].
      by rewrite (Huniq o' Ho' Hk).
    + apply last_with_key_None in Hl. exfalso. apply Hl.
      apply list_elem_of_fmap. eauto.
  - by apply elem_of_daily in Ho as [Ho _].
Qed.

Lemma run_stores_the_daily_aggregates_witness :
  let out := Etl.main Sample.pandas Etl.accepting Sample.cfg Sample.fs
               Sample.clock Sample.clock ∅ in
  1%nat = length (Etl.transform_to_daily Sample.pandas Sample.one_day)
  /\ Etl.forget_loaded_at <$> out.1.2 !! Etl.conflict_key Scenario.one_day_daily
     = Some (Etl.excluded Scenario.one_day_daily None)
  /\ Scenario.one_day_daily
     = Etl.agg Sample.pandas (Daily.key Scenario.one_day_daily)
         (List.filter (Etl.in_group (Daily.key Scenario.one_day_daily))
            Sample.one_day).
Proof.
  intros out.
  assert (Etl.transform_to_daily Sample.pandas Sample.one_day
          = [Scenario.one_day_daily]) as Hdaily by (vm_compute; reflexivity).
  apply (run_stores_the_daily_aggregates Sample.pandas Etl.accepting Sample.cfg Sample.fs
           Sample.clock Sample.clock ∅ out.1.2 1%nat out.2 Sample.one_day
           Scenario.one_day_daily).
  - vm_compute. reflexivity.
  - apply triple_eta. vm_compute. reflexivity.
  - rewrite Hdaily. apply list_elem_of_here.
  - rewrite Hdaily. intros o' Ho' _.
    apply list_elem_of_singleton in Ho' as ->. reflexivity.
Defined.

(** * Further facts about the collection *)

Section Fetches.
Import Collector CollectorSpec.
Variable cw_client : Client.
Variables (start_time end_time period : Z).

Lemma fetch_metric_sent (namespace : string) (dimensions : list (string * string))
    (metric_def : MetricDef) :
  (fetch_metric_datapoints cw_client namespace dimensions metric_def
     start_time end_time period).2
  = [kwargs_of namespace dimensions metric_def start_time end_time period].
Proof. unfold fetch_metric_datapoints. by destruct (cw_client _). Qed.

Lemma row_of_Raise (namespace : string) (dimensions : list (string * string))
    (metric_def : MetricDef) (dp : Datapoint) (e : Py.exn) :
  row_of namespace dimensions metric_def period dp = Py.Raise e ->
  e = Py.KeyError "Timestamp" /\ Timestamp dp = None.
Proof. unfold row_of. destruct (Timestamp dp); [done|]. by intros [= <-]. Qed.

Lemma for_each_Raise_elem {A B : Type} (f : A -> Py.result B) (xs : list A)
    (e : Py.exn) :
  Py.for_each f xs = Py.Raise e -> exists x, x ∈ xs /\ f x = Py.Raise e.
Proof.
  induction xs as [|x xs IH]; simpl; [done|].
  destruct (f x) as [y|e'] eqn:Hx; simpl.
  - destruct (Py.for_each f xs) as [ys|e'] eqn:Hxs; simpl; [done|].
    intros [= ->]. destruct (IH eq_refl) as (x' & ? & ?).
    exists x'. split; [by apply list_elem_of_further | done].
  - intros [= ->]. exists x. split; [apply list_elem_of_here | done].
Qed.

Lemma for_each_Raise_any {A B : Type} (f : A -> Py.result B) (xs : list A)
    (x : A) :
  x ∈ xs -> Py.is_ok (f x) = false -> Py.is_ok (Py.for_each f xs) = false.
Proof.
  intros Hx Hf. destruct (Py.for_each f xs) as [ys|] eqn:Hfe; [|done].
  destruct (for_each_Ok_elem f xs ys x Hfe Hx) as (y & Hy & _).
  by rewrite Hy in Hf.
Qed.

(** A fetch ends normally or with the [KeyError] of a datapoint that has
    no ["Timestamp"]. *)
Lemma fetch_metric_Raise (namespace : string)
    (dimensions : list (string * string)) (metric_def : MetricDef) (e : Py.exn) :
  (fetch_metric_datapoints cw_client namespace dimensions metric_def
     start_time end_time period).1 = Py.Raise e ->
  e = Py.KeyError "Timestamp"
  /\ exists dps dp,
       cw_client (kwargs_of namespace dimensions metric_def
                    start_time end_time period) = Py.Ok (Some dps)
       /\ dp ∈ dps /\ Timestamp dp = None.
Proof.
  unfold fetch_metric_datapoints.
  destruct (cw_client _) as [resp|e'] eqn:Hcw; simpl; [|done].
  intros (dp & Hdp & Hrow)%for_each_Raise_elem.
  apply row_of_Raise in Hrow as [-> Hts]. split; [done|].
  destruct resp as [dps|]; [|by apply elem_of_nil in Hdp]. eauto.
Qed.

Lemma fetch_metric_untimestamped (namespace : string)
    (dimensions : list (string * string)) (metric_def : MetricDef)
    (dps : list Datapoint) (dp : Datapoint) :
  cw_client (kwargs_of namespace dimensions metric_def
               start_time end_time period) = Py.Ok (Some dps) ->
  dp ∈ dps -> Timestamp dp = None ->
  (fetch_metric_datapoints cw_client namespace dimensions metric_def
     start_time end_time period).1 = Py.Raise (Py.KeyError "Timestamp").
Proof.
  intros Hcw Hdp Hts. unfold fetch_metric_datapoints. rewrite Hcw. simpl.
  destruct (Py.for_each _ dps) as [rows|e] eqn:Hfe.
  - destruct (for_each_Ok_elem _ _ _ _ Hfe Hdp) as (row & Hrow & _).
    unfold row_of in Hrow. by rewrite Hts in Hrow.
  - apply for_each_Raise_elem in Hfe as (dp' & _ & Hrow).
    by apply row_of_Raise in Hrow as [-> _].
Qed.

(** The requests of a loop over a catalog: one per metric, in order, up
    to the metric that raised, if any. *)
Lemma fetch_catalog_sent (namespace : string)
    (dimensions : list (string * string)) (catalog : list MetricDef) :
  let planned :=
    map (fun d => kwargs_of namespace dimensions d start_time end_time period)
        catalog in
  let out := fetch_catalog cw_client namespace dimensions catalog
               start_time end_time period in
  (exists n, out.2 = take n planned)
  /\ (Py.is_ok out.1 = true -> out.2 = planned)
  /\ (forall e, out.1 = Py.Raise e -> e = Py.KeyError "Timestamp").
Proof.
  induction catalog as [|d catalog IH]; cbn [fetch_catalog map].
  - simpl. split; [by exists 0%nat|]. split; [done|]. done.
  - pose proof (fetch_metric_sent namespace dimensions d) as Hs.
    destruct (fetch_metric_datapoints cw_client namespace dimensions d
                start_time end_time period) as [[rs|e] s] eqn:Hm;
      simpl in Hs; subst s.
    + destruct (fetch_catalog cw_client namespace dimensions catalog
                  start_time end_time period) as [r s'].
      simpl in IH. destruct IH as ((n & ->) & Hok & Hr). simpl.
      split; [by exists (S n)|]. split.
      * intros Hr'. rewrite Hok; [done|]. by destruct r.
      * intros e He. apply Hr. by destruct r.
    + simpl. split; [by exists 1%nat|]. split; [done|].
      intros e' [= <-].
      pose proof (fetch_metric_Raise namespace dimensions d e) as H.
      rewrite Hm in H. by destruct (H eq_refl).
Qed.

Lemma fetch_catalog_untimestamped (namespace : string)
    (dimensions : list (string * string)) (catalog : list MetricDef)
    (d : MetricDef) (dps : list Datapoint) (dp : Datapoint) :
  d ∈ catalog ->
  cw_client (kwargs_of namespace dimensions d start_time end_time period)
  = Py.Ok (Some dps) ->
  dp ∈ dps -> Timestamp dp = None ->
  (fetch_catalog cw_client namespace dimensions catalog
     start_time end_time period).1 = Py.Raise (Py.KeyError "Timestamp").
Proof.
  intros Hd Hcw Hdp Hts.
  destruct (fetch_catalog cw_client namespace dimensions catalog
              start_time end_time period) as [[records|e] sent] eqn:Hc; simpl.
  - destruct (fetch_catalog_elem cw_client start_time end_time period
                namespace dimensions catalog records sent d Hc Hd)
      as (rs & Hrs & _).
    by rewrite (fetch_metric_untimestamped _ _ _ dps dp Hcw Hdp Hts) in Hrs.
  - pose proof (fetch_catalog_sent namespace dimensions catalog) as (_ & _ & Hr).
    rewrite Hc in Hr. simpl in Hr. by rewrite (Hr e eq_refl).
Qed.

End Fetches.

(** The requests sent for one instance. *)
Lemma fetch_instance_plan (cw_client : Collector.Client)
    (inst : Collector.Instance) (memory_namespace : string)
    (start_time end_time period : Z) :
  let planned := Plan.requests inst memory_namespace start_time end_time period in
  let out := Collector.fetch_instance_metrics cw_client inst memory_namespace
               start_time end_time period in
  (exists n, out.2 = take n planned)
  /\ (Py.is_ok out.1 = true -> out.2 = planned)
  /\ (forall e, out.1 = Py.Raise e -> e = Py.KeyError "Timestamp")
  /\ length planned = 28%nat
  /\ NoDup (map Collector.MetricName planned)
  /\ (forall req, req ∈ planned ->
        Collector.Dimensions req = [("InstanceId", Collector.instance_id inst)]
        /\ Collector.StartTime req = start_time
        /\ Collector.EndTime req = end_time
        /\ Collector.Period req = period).
Proof.
  intros planned out.
  set (p1 := map (fun d => Collector.kwargs_of "AWS/EC2" (CollectorSpec.dims inst) d
                             start_time end_time period)
                 Collector.EC2_STANDARD_METRICS).
  set (p2 := map (fun d => Collector.kwargs_of memory_namespace
                             (CollectorSpec.dims inst) d
                             start_time end_time period)
                 Collector.MEMORY_METRICS).
  assert (planned = p1 ++ p2) as Hplanned.
  { unfold planned, Plan.requests, CollectorSpec.plan.
    by rewrite map_app, !map_map. }
  assert (length p1 = 22%nat) as Hlen1 by reflexivity.
  assert (length planned = 28%nat) as Hlen by (by rewrite Hplanned).
  assert (NoDup (map Collector.MetricName planned)) as Hnodup.
  { rewrite Hplanned. unfold p1, p2. rewrite map_app, !map_map. simpl.
    refine (bool_decide_unpack _ _). vm_compute. exact I. }
  assert (forall req, req ∈ planned ->
            Collector.Dimensions req = [("InstanceId", Collector.instance_id inst)]
            /\ Collector.StartTime req = start_time
            /\ Collector.EndTime req = end_time
            /\ Collector.Period req = period) as Hreqs.
  { rewrite Hplanned. intros req [Hreq|Hreq]%elem_of_app;
      apply list_elem_of_fmap in Hreq as (d & -> & _); done. }
  pose proof (fetch_catalog_sent cw_client start_time end_time period "AWS/EC2"
                (CollectorSpec.dims inst) Collector.EC2_STANDARD_METRICS)
    as ((n1 & Hn1) & Hok1 & Hr1).
  pose proof (fetch_catalog_sent cw_client start_time end_time period
                memory_namespace (CollectorSpec.dims inst)
                Collector.MEMORY_METRICS)
    as ((n2 & Hn2) & Hok2 & Hr2).
  cbv zeta in Hn1, Hok1, Hr1, Hn2, Hok2, Hr2.
  fold p1 in Hn1, Hok1. fold p2 in Hn2, Hok2.
  enough ((exists n, out.2 = take n planned)
          /\ (Py.is_ok out.1 = true -> out.2 = planned)
          /\ (forall e, out.1 = Py.Raise e -> e = Py.KeyError "Timestamp"))
    as (? & ? & ?) by done.
  unfold out, Collector.fetch_instance_metrics.
  fold (CollectorSpec.dims inst).
  clearbody p1 p2 planned. subst planned. clear Hlen Hnodup Hreqs out.
  destruct (Collector.fetch_catalog cw_client "AWS/EC2" _ _ _ _ _)
    as [[ec2|e1] s1]; cbn [fst snd] in *; subst s1.
  - rewrite (Hok1 eq_refl).
    destruct (Collector.fetch_catalog cw_client memory_namespace _ _ _ _ _)
      as [[mem|e2] s2]; cbn [fst snd] in *; subst s2.
    + rewrite (Hok2 eq_refl).
      split; [exists (length (p1 ++ p2)); by rewrite take_ge|].
      split; [done|]. done.
    + split; [exists (length p1 + n2)%nat; by rewrite take_app_add|].
      split; [done|]. intros e [= <-]. by apply Hr2.
  - split.
    { exists (Nat.min n1 (length p1)).
      rewrite take_app_le by lia.
      destruct (decide (n1 <= length p1)%nat).
      - by rewrite Nat.min_l.
      - rewrite Nat.min_r by lia. by rewrite !take_ge by lia. }
    split; [done|]. intros e [= <-]. by apply Hr1.
Qed.

(** X13.  The requests sent for one instance follow the two
    catalogs: 28 requests with 28 different metric names, each for the
    dimension InstanceId of that instance and for the window and period
    given.  What [fetch_instance_metrics] has sent is a prefix of that
    plan, the whole plan when it returns, and the only exception that can
    leave it is the [KeyError] of a datapoint without its timestamp. *)
Theorem one_request_per_planned_metric (cw_client : Collector.Client)
    (inst : Collector.Instance) (memory_namespace : string)
    (start_time end_time period : Z) :
  let planned := Plan.requests inst memory_namespace start_time end_time period in
  let out := Collector.fetch_instance_metrics cw_client inst memory_namespace
               start_time end_time period in
  (exists n, out.2 = take n planned)
  /\ (Py.is_ok out.1 = true -> out.2 = planned)
  /\ (forall e, out.1 = Py.Raise e -> e = Py.KeyError "Timestamp")
  /\ length planned = 28%nat
  /\ NoDup (map Collector.MetricName planned)
  /\ (forall req, req ∈ planned ->
        Collector.Dimensions req = [("InstanceId", Collector.instance_id inst)]
        /\ Collector.StartTime req = start_time
        /\ Collector.EndTime req = end_time
        /\ Collector.Period req = period).
Proof. apply fetch_instance_plan. Qed.

Section Records.
Import Collector CollectorSpec.

Lemma stat_key_prefix (x c : string) :
  Plan.starts_with "stat_" c = false -> String.eqb ("stat_" +:+ x) c = false.
Proof.
  intros Hp. apply String.eqb_neq. intros <-. cbv in Hp.
  discriminate.
Qed.

Lemma fold_set_view (f : string -> value) (stats : list string)
    (row : Py.dict value) (c : string) :
  Plan.starts_with "stat_" c = false ->
  view (fold_left (fun row stat => Py.set ("stat_" +:+ Py.lower stat) (f stat) row)
                  stats row) c
  = view row c.
Proof.
  intros Hc. revert row. induction stats as [|s stats IH]; intros row; simpl;
    [done|].
  rewrite IH, view_set. by rewrite stat_key_prefix.
Qed.

Lemma fold_set_keys (f : string -> value) (stats : list string)
    (row : Py.dict value) (c : string) :
  has c (Py.keys (fold_left
                    (fun row stat => Py.set ("stat_" +:+ Py.lower stat) (f stat) row)
                    stats row))
  = has c (Py.keys row)
    || existsb (fun s => String.eqb c ("stat_" +:+ Py.lower s)) stats.
Proof.
  revert row. induction stats as [|s stats IH]; intros row; simpl.
  - by rewrite orb_false_r.
  - rewrite IH, keys_set, has_add_column. by rewrite orb_assoc.
Qed.

Lemma existsb_stat_prefix (c : string) (stats : list string) :
  existsb (fun s => String.eqb c ("stat_" +:+ Py.lower s)) stats = true ->
  Plan.starts_with "stat_" c = true.
Proof.
  intros (s & _ & ->%String.eqb_eq)%existsb_exists. reflexivity.
Qed.

Lemma keys_update (d e : Py.dict value) (c : string) :
  has c (Py.keys (Py.update d e)) = has c (Py.keys d) || has c (Py.keys e).
Proof.
  unfold Py.update. revert d. induction e as [|[k v] e IH]; intros d; simpl.
  - by rewrite orb_false_r.
  - rewrite IH, keys_set, has_add_column. by rewrite orb_assoc.
Qed.

Lemma view_update_other (d e : Py.dict value) (c : string) :
  has c (Py.keys e) = false -> view (Py.update d e) c = view d c.
Proof.
  unfold Py.update. revert d. induction e as [|[k v] e IH]; intros d; simpl;
    [done|].
  intros [Hk He]%orb_false_iff. rewrite IH, view_set by done.
  rewrite String.eqb_sym. by rewrite Hk.
Qed.

(** The records of a loop over a catalog are rows made from datapoints
    the client returned for a metric of the catalog. *)
Lemma fetch_catalog_records (cw_client : Client) (start_time end_time period : Z)
    (namespace : string) (dimensions : list (string * string))
    (catalog : list MetricDef) (records : list (Py.dict value))
    (sent : list Request) (r : Py.dict value) :
  fetch_catalog cw_client namespace dimensions catalog
    start_time end_time period = (Py.Ok records, sent) ->
  r ∈ records ->
  exists d response dp,
    d ∈ catalog
    /\ cw_client (kwargs_of namespace dimensions d start_time end_time period)
       = Py.Ok response
    /\ dp ∈ default [] response
    /\ row_of namespace dimensions d period dp = Py.Ok r.
Proof.
  revert records sent. induction catalog as [|d catalog IH];
    intros records sent Hf Hr.
  - injection Hf as <- <-. by apply elem_of_nil in Hr.
  - cbn [fetch_catalog] in Hf.
    destruct (fetch_metric_datapoints cw_client namespace dimensions d
                start_time end_time period) as [[rs|e] s] eqn:Hm; [|done].
    destruct (fetch_catalog cw_client namespace dimensions catalog
                start_time end_time period) as [[more|e] s'] eqn:Hc; [|done].
    simpl in Hf. injection Hf as <- <-.
    apply elem_of_app in Hr as [Hr|Hr].
    + unfold fetch_metric_datapoints in Hm.
      destruct (cw_client _) as [response|e] eqn:Hcw.
      * injection Hm as Hrs _. apply for_each_Ok_iff in Hrs.
        apply list_elem_of_lookup in Hr as [i Hi].
        destruct (Forall2_lookup_r _ _ _ _ _ Hrs Hi) as (dp & Hdp & Hrow).
        exists d, response, dp. split; [apply list_elem_of_here|].
        split; [done|]. split; [|done]. by eapply list_elem_of_lookup_2.
      * injection Hm as <- _. by apply elem_of_nil in Hr.
    + destruct (IH more s' eq_refl Hr) as (d' & response & dp & ? & ? & ? & ?).
      exists d', response, dp. split; [by apply list_elem_of_further | done].
Qed.

Lemma stamped_intro (inst : Instance) (memory_namespace namespace : string)
    (metric_def : MetricDef) (period ts : Z) (u : string) (row : Py.dict value) :
  let base :=
    [ ("namespace", VStr namespace);
      ("instance_id", VStr (instance_id inst));
      ("metric_name", VStr (metric metric_def));
      ("category", VStr (category metric_def));
      ("timestamp", VTime ts);
      ("unit", VStr u);
      ("period_sec", VInt period) ] in
  (namespace, metric_def) ∈ plan memory_namespace ->
  (forall c, Plan.starts_with "stat_" c = false -> view row c = view base c) ->
  (forall c, has c (Py.keys row) = true ->
             has c (Py.keys base) = true \/ Plan.starts_with "stat_" c = true) ->
  (forall c, has c (Py.keys base) = true -> has c (Py.keys row) = true) ->
  Shape.stamped inst memory_namespace period (Py.update row (metadata inst)).
Proof.
  intros base Hplan Hview Hkeys Hmono. unfold Shape.stamped.
  repeat match goal with
         | |- view (Py.update row (metadata inst)) _ = _ /\ _ => split
         end;
    try (unfold Py.update, metadata; simpl; rewrite !view_set; simpl;
         first [reflexivity | by rewrite Hview]).
  split; [exists ts; rewrite view_update_other by reflexivity;
          by rewrite Hview|].
  split; [exists u; rewrite view_update_other by reflexivity; by rewrite Hview|].
  split.
  { exists namespace, metric_def. split; [done|].
    rewrite !view_update_other by reflexivity. by rewrite !Hview. }
  split.
  - intros c Hc. apply has_spec. rewrite keys_update. apply orb_true_iff.
    unfold Plan.record_keys in Hc. rewrite !elem_of_cons, elem_of_nil in Hc.
    repeat (destruct Hc as [->|Hc];
            [first [right; reflexivity | left; apply Hmono; reflexivity]|]).
    done.
  - intros c Hc. apply has_spec in Hc. rewrite keys_update in Hc.
    apply orb_true_iff in Hc as [Hc|Hc].
    + apply Hkeys in Hc as [Hc|Hc]; [left|by right].
      apply has_spec in Hc. simpl in Hc.
      rewrite !elem_of_cons, elem_of_nil in Hc.
      repeat (destruct Hc as [->|Hc]; [apply has_spec; reflexivity|]).
      done.
    + left. apply has_spec in Hc. simpl in Hc.
      rewrite !elem_of_cons, elem_of_nil in Hc.
      repeat (destruct Hc as [->|Hc]; [apply has_spec; reflexivity|]).
      done.
Qed.

Lemma row_of_stamped (inst : Instance) (memory_namespace namespace : string)
    (metric_def : MetricDef) (period : Z) (dp : Datapoint) (row : Py.dict value) :
  (namespace, metric_def) ∈ plan memory_namespace ->
  row_of namespace (dims inst) metric_def period dp = Py.Ok row ->
  Shape.stamped inst memory_namespace period (Py.update row (metadata inst)).
Proof.
  intros Hplan. unfold row_of.
  destruct (Timestamp dp) as [ts|]; [|done]. intros [= <-].
  apply (stamped_intro inst memory_namespace namespace metric_def period ts
           (default "None" (Unit dp))); [done| | |].
  - intros c Hc. by rewrite !fold_set_view.
  - intros c. rewrite !fold_set_keys.
    intros [[?|?%existsb_stat_prefix]%orb_true_iff
           |?%existsb_stat_prefix]%orb_true_iff; auto.
  - intros c Hc. rewrite !fold_set_keys.
    match goal with
    | |- ?a || _ || _ = true => assert (a = true) as -> by exact Hc
    end.
    done.
Qed.

Lemma fetch_instance_stamped (cw_client : Client) (inst : Instance)
    (memory_namespace : string) (start_time end_time period : Z)
    (records : list (Py.dict value)) (rec : Py.dict value) :
  (fetch_instance_metrics cw_client inst memory_namespace
     start_time end_time period).1 = Py.Ok records ->
  rec ∈ records ->
  Shape.stamped inst memory_namespace period rec.
Proof.
  unfold fetch_instance_metrics. fold (dims inst).
  destruct (fetch_catalog cw_client "AWS/EC2" _ EC2_STANDARD_METRICS _ _ _)
    as [[ec2|e] s] eqn:Hec2; [|done].
  destruct (fetch_catalog cw_client memory_namespace _ MEMORY_METRICS _ _ _)
    as [[mem|e] s'] eqn:Hmem; [|done].
  simpl. intros [= <-] Hrec.
  apply list_elem_of_fmap in Hrec as (row & -> & Hrow).
  apply elem_of_app in Hrow as [Hrow|Hrow].
  - destruct (fetch_catalog_records _ _ _ _ _ _ _ _ _ _ Hec2 Hrow)
      as (d & response & dp & Hd & _ & _ & Hr).
    eapply row_of_stamped; [|exact Hr].
    unfold plan. apply elem_of_app. left. apply list_elem_of_fmap. eauto.
  - destruct (fetch_catalog_records _ _ _ _ _ _ _ _ _ _ Hmem Hrow)
      as (d & response & dp & Hd & _ & _ & Hr).
    eapply row_of_stamped; [|exact Hr].
    unfold plan. apply elem_of_app. right. apply list_elem_of_fmap. eauto.
Qed.

End Records.

(** X14.  Every record [fetch_instance_metrics] returns carries the
    identity of its instance (id, name, type, state, zone, both addresses,
    launch time, platform), the period, a timestamp, a unit, and the
    namespace, name and category of one metric of the plan; its keys are
    the fifteen fixed ones and, beside them, only keys that start with
    stat_. *)
Theorem records_carry_instance_metadata (cw_client : Collector.Client)
    (inst : Collector.Instance) (memory_namespace : string)
    (start_time end_time period : Z)
    (records : list (Py.dict Collector.value)) (rec : Py.dict Collector.value) :
  (Collector.fetch_instance_metrics cw_client inst memory_namespace
     start_time end_time period).1 = Py.Ok records ->
  rec ∈ records ->
  CollectorSpec.view rec "instance_id" = Collector.VStr (Collector.instance_id inst)
  /\ CollectorSpec.view rec "instance_name"
     = Collector.VStr (Collector.instance_name inst)
  /\ CollectorSpec.view rec "instance_type"
     = Collector.VStr (Collector.instance_type inst)
  /\ CollectorSpec.view rec "state" = Collector.VStr (Collector.state inst)
  /\ CollectorSpec.view rec "az" = Collector.VStr (Collector.az inst)
  /\ CollectorSpec.view rec "private_ip"
     = Collector.VStr (Collector.private_ip inst)
  /\ CollectorSpec.view rec "public_ip"
     = Collector.VStr (Collector.public_ip inst)
  /\ CollectorSpec.view rec "launch_time"
     = Collector.VStr (Collector.launch_time inst)
  /\ CollectorSpec.view rec "platform" = Collector.VStr (Collector.platform inst)
  /\ CollectorSpec.view rec "period_sec" = Collector.VInt period
  /\ (exists t, CollectorSpec.view rec "timestamp" = Collector.VTime t)
  /\ (exists u, CollectorSpec.view rec "unit" = Collector.VStr u)
  /\ (exists namespace metric_def,
        (namespace, metric_def) ∈ CollectorSpec.plan memory_namespace
        /\ CollectorSpec.view rec "namespace" = Collector.VStr namespace
        /\ CollectorSpec.view rec "metric_name"
           = Collector.VStr (Collector.metric metric_def)
        /\ CollectorSpec.view rec "category"
           = Collector.VStr (Collector.category metric_def))
  /\ (forall c, c ∈ Plan.record_keys -> c ∈ Py.keys rec)
  /\ (forall c, c ∈ Py.keys rec ->
        c ∈ Plan.record_keys \/ Plan.starts_with "stat_" c = true).
Proof. apply fetch_instance_stamped. Qed.

Lemma records_carry_instance_metadata_witness :
  Shape.stamped Sample.inst "CWAgent" 60 Scenario.cpu_record.
Proof.
  apply (records_carry_instance_metadata Sample.client Sample.inst "CWAgent"
           0 Sample.t0 60 Sample.collected Scenario.cpu_record).
  - vm_compute. reflexivity.
  - vm_compute. apply list_elem_of_here.
Defined.

(** X15.  One datapoint without a timestamp costs the whole
    instance: when the answer for any planned metric holds such a
    datapoint, [fetch_instance_metrics] raises [KeyError], the future of
    the instance gives no record at all, and the records collected are
    those collected without that instance. *)
Theorem untimestamped_datapoint_drops_the_instance
    (cw_client : Collector.Client) (inst : Collector.Instance)
    (completed : list Collector.Instance) (memory_namespace : string)
    (start_time end_time period : Z) (namespace : string)
    (metric_def : Collector.MetricDef) (dps : list Collector.Datapoint)
    (dp : Collector.Datapoint) :
  (namespace, metric_def) ∈ CollectorSpec.plan memory_namespace ->
  cw_client (Collector.kwargs_of namespace (CollectorSpec.dims inst) metric_def
               start_time end_time period) = Py.Ok (Some dps) ->
  dp ∈ dps ->
  Collector.Timestamp dp = None ->
  (Collector.fetch_instance_metrics cw_client inst memory_namespace
     start_time end_time period).1 = Py.Raise (Py.KeyError "Timestamp")
  /\ Collector.future_records cw_client memory_namespace
       start_time end_time period inst = []
  /\ Collector.all_records cw_client completed memory_namespace
       start_time end_time period
     = Collector.all_records cw_client (filter (fun i => i <> inst) completed)
         memory_namespace start_time end_time period.
Proof.
  intros Hplan Hcw Hdp Hts.
  assert ((Collector.fetch_instance_metrics cw_client inst memory_namespace
             start_time end_time period).1 = Py.Raise (Py.KeyError "Timestamp"))
    as Hraise.
  { unfold Collector.fetch_instance_metrics. fold (CollectorSpec.dims inst).
    pose proof (fetch_catalog_sent cw_client start_time end_time period
                  "AWS/EC2" (CollectorSpec.dims inst)
                  Collector.EC2_STANDARD_METRICS) as (_ & _ & Hr1).
    cbv zeta in Hr1.
    unfold CollectorSpec.plan in Hplan.
    apply elem_of_app in Hplan as [Hp|Hp];
      apply list_elem_of_fmap in Hp as (d & [= -> ->] & Hd).
    - pose proof (fetch_catalog_untimestamped cw_client start_time end_time
                    period "AWS/EC2" (CollectorSpec.dims inst)
                    Collector.EC2_STANDARD_METRICS d dps dp Hd Hcw Hdp Hts) as H1.
      destruct (Collector.fetch_catalog cw_client "AWS/EC2" _ _ _ _ _)
        as [[ec2|e] s]; simpl in H1; [done|]. by injection H1 as ->.
    - pose proof (fetch_catalog_untimestamped cw_client start_time end_time
                    period memory_namespace (CollectorSpec.dims inst)
                    Collector.MEMORY_METRICS d dps dp Hd Hcw Hdp Hts) as H2.
      destruct (Collector.fetch_catalog cw_client "AWS/EC2" _ _ _ _ _)
        as [[ec2|e] s]; cbn [fst] in Hr1.
      + destruct (Collector.fetch_catalog cw_client memory_namespace _ _ _ _ _)
          as [[mem|e] s']; simpl in H2; [done|]. by injection H2 as ->.
      + simpl. by rewrite (Hr1 e eq_refl). }
  assert (Collector.future_records cw_client memory_namespace
            start_time end_time period inst = []) as Hnone
    by (unfold Collector.future_records; by rewrite Hraise).
  split; [done|]. split; [done|].
  unfold Collector.all_records.
  induction completed as [|i completed IH]; [done|]. simpl.
  rewrite filter_cons. destruct (decide (i <> inst)) as [Hne|Heq].
  - simpl. by rewrite IH.
  - apply dec_stable in Heq as ->. by rewrite Hnone, IH.
Qed.

Lemma untimestamped_datapoint_drops_the_instance_witness :
  (Collector.fetch_instance_metrics Scenario.untimed_client Sample.inst
     "CWAgent" 0 Sample.t0 60).1 = Py.Raise (Py.KeyError "Timestamp")
  /\ Collector.future_records Scenario.untimed_client "CWAgent"
       0 Sample.t0 60 Sample.inst = []
  /\ Collector.all_records Scenario.untimed_client [Sample.inst] "CWAgent"
       0 Sample.t0 60
     = Collector.all_records Scenario.untimed_client
         (filter (fun i => i <> Sample.inst) [Sample.inst]) "CWAgent"
         0 Sample.t0 60.
Proof.
  apply (untimestamped_datapoint_drops_the_instance Scenario.untimed_client
           Sample.inst [Sample.inst] "CWAgent" 0 Sample.t0 60
           "AWS/EC2" Scenario.cpu_metric [Scenario.untimed_point]
           Scenario.untimed_point).
  - vm_compute. apply list_elem_of_here.
  - reflexivity.
  - apply list_elem_of_here.
  - reflexivity.
Defined.

(** ** When the normalisation goes through *)

Section Totality.
Import Collector CollectorSpec.

Lemma convert_total (records : list (Py.dict value))
    (V : Py.dict value -> string -> value) (col : string)
    (f : value -> Py.result value) (df : DataFrame) :
  tracks V records df ->
  (forall rec, rec ∈ records -> Py.is_ok (f (V rec col)) = true) ->
  exists df', convert col f df = Py.Ok df'.
Proof.
  intros Ht Hok. unfold convert.
  destruct (for_each_Ok_intro
              (fun row => v ← f (default NA (Py.get col row));
                          Py.Ok (Py.set col v row)) (rows df)) as [rows' ->].
  - intros row Hrow. apply list_elem_of_lookup in Hrow as [i Hi].
    destruct (Forall2_lookup_r _ _ _ _ _ Ht Hi) as (rec & Hrec & _ & Hv).
    apply list_elem_of_lookup_2 in Hrec. specialize (Hok rec Hrec).
    fold (view row col). rewrite Hv.
    destruct (f (V rec col)) as [v|]; [|done]. simpl. eauto.
  - simpl. eauto.
Qed.

Lemma bind_Ok_l {A B : Type} (a : A) (k : A -> Py.result B) :
  (Py.Ok a ≫= k) = k a.
Proof. reflexivity. Qed.

Lemma has_pd_DataFrame (records : list (Py.dict value)) (c : string) :
  has c (columns (pd_DataFrame records))
  = existsb (fun rec => has c (Py.keys rec)) records.
Proof. unfold pd_DataFrame. simpl. by rewrite has_columns_of. Qed.

Lemma existsb_false {A : Type} (P : A -> bool) (l : list A) :
  existsb P l = false <-> forall x, x ∈ l -> P x = false.
Proof.
  induction l as [|x l IH]; simpl.
  - split; [intros _ y Hy; by apply elem_of_nil in Hy | done].
  - rewrite orb_false_iff, IH. split.
    + intros [Hx Hl] y [->|Hy]%elem_of_cons; auto.
    + intros H. split; [apply H, list_elem_of_here|].
      intros y Hy. apply H. by apply list_elem_of_further.
Qed.

Lemma restructure_total (records : list (Py.dict value)) (now : Z) :
  restructurable records ->
  exists df, restructure_dataframe records now = Py.Ok df.
Proof.
  intros (Hnew & Hcols & Hconv). unfold restructure_dataframe.
  set (df0 := pd_DataFrame records).
  set (df1 := ensure_columns STAT_COLUMNS df0).
  pose proof (tracks_pd_DataFrame records) as Ht0. fold df0 in Ht0.
  destruct (tracks_ensure_columns records view STAT_COLUMNS df0 Ht0) as [Ht1 Hc1].
  fold df1 in Ht1, Hc1.
  assert (has "extracted_at" (columns df1) = false) as Hfresh.
  { rewrite Hc1. unfold df0. rewrite has_pd_DataFrame.
    apply orb_false_iff. split; [|reflexivity].
    apply existsb_false. intros rec Hrec.
    destruct (has "extracted_at" (Py.keys rec)) eqn:Hh; [|done].
    apply has_spec in Hh. by apply Hnew in Hh. }
  assert (exists df2, insert0 "extracted_at" (VTime now) df1 = Py.Ok df2)
    as [df2 H2] by (unfold insert0; rewrite Hfresh; eauto).
  rewrite H2, bind_Ok_l.
  destruct (tracks_insert0 records view _ _ _ _ H2 Ht1) as [Ht2 Hc2].
  set (extra := List.filter (fun c => negb (has c ordered_cols)) (columns df2)).
  assert (exists df3, getitem (ordered_cols ++ extra) df2 = Py.Ok df3)
    as [df3 H3].
  { unfold getitem. rewrite filter_none; [eauto|].
    intros c Hc. apply negb_false_iff. apply elem_of_app in Hc as [Hc|Hc].
    - rewrite Hc2. simpl. rewrite Hc1. unfold df0. rewrite has_pd_DataFrame.
      destruct (Hcols c Hc) as [->|[Hs|(rec & Hrec & Hk)]].
      + reflexivity.
      + apply has_spec in Hs. rewrite Hs. by rewrite !orb_true_r.
      + assert (existsb (fun rec => has c (Py.keys rec)) records = true) as ->.
        { apply existsb_exists. exists rec.
          split; [by apply list_elem_of_In | by apply has_spec]. }
        by rewrite orb_true_r.
    - unfold extra in Hc. apply list_elem_of_In, filter_In in Hc as [Hc _].
      by apply has_spec, list_elem_of_In. }
  rewrite H3, bind_Ok_l.
  destruct (tracks_getitem records _ _ _ _ H3 Ht2) as [Ht3 Hc3].
  { intros c Hc. unfold extra. rewrite has_app, has_filter, Hc.
    by destruct (has c ordered_cols). }
  destruct (convert_total records _ "timestamp" to_datetime df3 Ht3)
    as [df4 H4].
  { intros rec Hrec. simpl. by apply Hconv. }
  rewrite H4, bind_Ok_l.
  destruct (tracks_convert records _ _ _ _ _ H4 Ht3) as (Ht4 & _ & _).
  destruct (convert_total records _ "extracted_at" to_datetime df4 Ht4)
    as [df5 H5].
  { intros rec Hrec. reflexivity. }
  rewrite H5, bind_Ok_l.
  destruct (tracks_convert records _ _ _ _ _ H5 Ht4) as (Ht5 & _ & _).
  destruct (convert_total records _ "period_sec" astype_int32 df5 Ht5)
    as [df6 H6].
  { intros rec Hrec. simpl. by apply Hconv. }
  rewrite H6, bind_Ok_l. eauto.
Qed.

Lemma restructure_needs (records : list (Py.dict value)) (now : Z)
    (df : DataFrame) :
  restructure_dataframe records now = Py.Ok df -> restructurable records.
Proof.
  intros Hdf.
  destruct (restructure_tracks records now df Hdf) as (_ & _ & Hconv).
  revert Hdf. unfold restructure_dataframe.
  set (df0 := pd_DataFrame records).
  set (df1 := ensure_columns STAT_COLUMNS df0).
  pose proof (tracks_pd_DataFrame records) as Ht0. fold df0 in Ht0.
  destruct (tracks_ensure_columns records view STAT_COLUMNS df0 Ht0) as [Ht1 Hc1].
  fold df1 in Ht1, Hc1.
  intros H. apply bind_Ok in H as (df2 & H2 & H).
  apply bind_Ok in H as (df3 & H3 & _).
  destruct (tracks_insert0 records view _ _ _ _ H2 Ht1) as [_ Hc2].
  split; [|split].
  - intros rec Hrec Hk. unfold insert0 in H2.
    destruct (has "extracted_at" (columns df1)) eqn:Hfresh; [done|].
    rewrite Hc1 in Hfresh. apply orb_false_iff in Hfresh as [Hfresh _].
    unfold df0 in Hfresh. rewrite has_pd_DataFrame in Hfresh.
    rewrite existsb_false in Hfresh. specialize (Hfresh rec Hrec).
    apply has_spec in Hk. congruence.
  - intros c Hc. unfold getitem in H3.
    destruct (List.filter _ _) as [|c' rest] eqn:Hf; [|done].
    assert (has c (columns df2) = true) as Hin.
    { destruct (has c (columns df2)) eqn:Hh; [done|].
      assert (In c (List.filter (fun c => negb (has c (columns df2)))
                      (ordered_cols
                       ++ List.filter (fun c => negb (has c ordered_cols))
                            (columns df2)))) as Hbad.
      { apply filter_In. split; [|by rewrite Hh].
        apply in_or_app. left. by apply list_elem_of_In. }
      rewrite Hf in Hbad. done. }
    rewrite Hc2 in Hin. simpl in Hin.
    apply orb_true_iff in Hin as [Hin|Hin].
    + left. by apply String.eqb_eq in Hin.
    + rewrite Hc1 in Hin. apply orb_true_iff in Hin as [Hin|Hin].
      * right. right. unfold df0 in Hin. rewrite has_pd_DataFrame in Hin.
        apply existsb_exists in Hin as (rec & Hrec & Hk).
        exists rec. split; [by apply list_elem_of_In | by apply has_spec].
      * right. left. by apply has_spec.
  - intros rec Hrec. rewrite Forall_forall in Hconv. by apply Hconv.
Qed.

End Totality.

Lemma typed_cells (rec : Py.dict Collector.value) :
  Shape.typed rec = true ->
  exists t n i c m,
    CollectorSpec.view rec "timestamp" = Collector.VTime t
    /\ CollectorSpec.view rec "period_sec" = Collector.VInt n
    /\ CollectorSpec.view rec "instance_id" = Collector.VStr i
    /\ CollectorSpec.view rec "category" = Collector.VStr c
    /\ CollectorSpec.view rec "metric_name" = Collector.VStr m.
Proof.
  unfold Shape.typed.
  destruct (CollectorSpec.view rec "timestamp") as [| | | | |t]; try done.
  destruct (CollectorSpec.view rec "period_sec") as [| | |n| |]; try done.
  destruct (CollectorSpec.view rec "instance_id") as [| |i| | |]; try done.
  destruct (CollectorSpec.view rec "category") as [| |c| | |]; try done.
  destruct (CollectorSpec.view rec "metric_name") as [| |m| | |]; try done.
  intros _. by exists t, n, i, c, m.
Qed.

Lemma typed_converts (rec : Py.dict Collector.value) :
  Shape.typed rec = true ->
  Py.is_ok (Collector.to_datetime (CollectorSpec.view rec "timestamp")) = true
  /\ Py.is_ok (Collector.astype_int32 (CollectorSpec.view rec "period_sec"))
     = true.
Proof. intros (t & n & i & c & m & -> & -> & _)%typed_cells. done. Qed.

(** X16.  For records with the cells of the extractor (under
    timestamp an instant pandas can hold, under period_sec an integer of
    32 bits, text under instance_id, category and metric_name),
    [restructure_dataframe] returns a frame exactly when no record has a
    key extracted_at and every column of [ordered_cols] but extracted_at
    and the four statistics is a key of some record. *)
Theorem restructure_succeeds_iff (records : list (Py.dict Collector.value))
    (now : Z) :
  (forall rec, rec ∈ records -> Shape.typed rec = true) ->
  (exists df, Collector.restructure_dataframe records now = Py.Ok df)
  <-> (forall rec, rec ∈ records -> "extracted_at" ∉ Py.keys rec)
      /\ (forall c, c ∈ Collector.ordered_cols ->
            c = "extracted_at" \/ c ∈ Collector.STAT_COLUMNS
            \/ exists rec, rec ∈ records /\ c ∈ Py.keys rec).
Proof.
  intros Htyped. split.
  - intros [df Hdf]. apply restructure_needs in Hdf as (? & ? & _). done.
  - intros [Hnew Hcols]. apply restructure_total.
    split; [done|]. split; [done|].
    intros rec Hrec. by apply typed_converts, Htyped.
Qed.

Section Never.
Import Collector CollectorSpec.

Lemma all_records_stamped (cw_client : Client) (completed : list Instance)
    (memory_namespace : string) (start_time end_time period : Z)
    (rec : Py.dict value) :
  rec ∈ all_records cw_client completed memory_namespace
          start_time end_time period ->
  exists inst, inst ∈ completed
               /\ Shape.stamped inst memory_namespace period rec.
Proof.
  unfold all_records. intros Hrec.
  apply list_elem_of_In, in_flat_map in Hrec as (inst & Hinst & Hrec).
  exists inst. split; [by apply list_elem_of_In|].
  unfold future_records in Hrec.
  destruct (fetch_instance_metrics cw_client inst memory_namespace
              start_time end_time period).1 as [records|] eqn:Hf; [|done].
  eapply fetch_instance_stamped; [exact Hf | by apply list_elem_of_In].
Qed.

Lemma stamped_restructurable (records : list (Py.dict value))
    (memory_namespace : string) (period : Z) :
  records <> [] ->
  (forall rec, rec ∈ records ->
     exists inst, Shape.stamped inst memory_namespace period rec) ->
  restructurable records.
Proof.
  intros Hne Hall. split; [|split].
  - intros rec Hrec Hk. destruct (Hall rec Hrec) as (inst & Hs).
    destruct Hs as (_ & _ & _ & _ & _ & _ & _ & _ & _ & _ & _ & _ & _ & _ & Hkeys).
    destruct (Hkeys _ Hk) as [Hin|Hp]; [|done].
    apply has_spec in Hin. done.
  - intros c Hc. destruct records as [|rec records]; [done|].
    destruct (Hall rec (list_elem_of_here _ _)) as (inst & Hs).
    destruct Hs as (_ & _ & _ & _ & _ & _ & _ & _ & _ & _ & _ & _ & _ & Hkeys & _).
    unfold ordered_cols in Hc. rewrite !elem_of_cons, elem_of_nil in Hc.
    repeat (destruct Hc as [->|Hc];
            [first [ by left
                   | right; left; apply has_spec; reflexivity
                   | right; right; exists rec;
                     split; [apply list_elem_of_here|];
                     apply Hkeys, has_spec; reflexivity ]|]).
    done.
  - intros rec Hrec. destruct (Hall rec Hrec) as (inst & Hs).
    destruct Hs as (_ & _ & _ & _ & _ & _ & _ & _ & _ & Hp & [t Ht] & _).
    rewrite Hp, Ht. done.
Qed.

End Never.

Lemma restructure_succeeds_iff_witness :
  (exists df,
     Collector.restructure_dataframe Scenario.busy_records Sample.clock
     = Py.Ok df)
  <-> (forall rec, rec ∈ Scenario.busy_records ->
         "extracted_at" ∉ Py.keys rec)
      /\ (forall c, c ∈ Collector.ordered_cols ->
            c = "extracted_at" \/ c ∈ Collector.STAT_COLUMNS
            \/ exists rec, rec ∈ Scenario.busy_records /\ c ∈ Py.keys rec).
Proof.
  apply (restructure_succeeds_iff Scenario.busy_records Sample.clock).
  assert (forallb Shape.typed Scenario.busy_records = true) as Hall
    by (vm_compute; reflexivity).
  intros rec Hrec. rewrite forallb_forall in Hall.
  apply Hall, list_elem_of_In, Hrec.
Defined.

(** ** Failed fetches and the frame *)

Section Answered.
Import Collector CollectorSpec.

(** The cells that identify the record made of a datapoint. *)
Lemma row_of_cells (inst : Instance) (namespace : string)
    (metric_def : MetricDef) (period : Z) (dp : Datapoint)
    (row : Py.dict value) :
  row_of namespace (dims inst) metric_def period dp = Py.Ok row ->
  view (Py.update row (metadata inst)) "instance_id"
  = VStr (instance_id inst)
  /\ view (Py.update row (metadata inst)) "namespace" = VStr namespace
  /\ view (Py.update row (metadata inst)) "metric_name"
     = VStr (metric metric_def)
  /\ view (Py.update row (metadata inst)) "category"
     = VStr (category metric_def)
  /\ (exists ts, Timestamp dp = Some ts
                 /\ view (Py.update row (metadata inst)) "timestamp"
                    = VTime ts)
  /\ (forall c, c ∈ STAT_COLUMNS ->
        view (Py.update row (metadata inst)) c = view row c).
Proof.
  unfold row_of. destruct (Timestamp dp) as [ts|]; [|done]. intros [= <-].
  rewrite !view_update_other by reflexivity.
  rewrite !fold_set_view by reflexivity.
  repeat (split; [reflexivity|]). split; [by exists ts|].
  intros c Hc. apply view_update_other.
  unfold STAT_COLUMNS in Hc. rewrite !elem_of_cons, elem_of_nil in Hc.
  destruct Hc as [->|[->|[->|[->|[]]]]]; reflexivity.
Qed.

(** The record of a datapoint the client answered with is among the
    records collected, when the future of its instance returns. *)
Lemma answered_record_collected (cw_client : Client)
    (completed : list Instance) (memory_namespace : string)
    (start_time end_time period : Z) (inst : Instance) (namespace : string)
    (metric_def : MetricDef) (records : list (Py.dict value))
    (response : option (list Datapoint)) (dp : Datapoint)
    (row : Py.dict value) :
  inst ∈ completed ->
  (namespace, metric_def) ∈ plan memory_namespace ->
  (fetch_instance_metrics cw_client inst memory_namespace
     start_time end_time period).1 = Py.Ok records ->
  cw_client (kwargs_of namespace (dims inst) metric_def
               start_time end_time period) = Py.Ok response ->
  dp ∈ default [] response ->
  row_of namespace (dims inst) metric_def period dp = Py.Ok row ->
  Py.update row (metadata inst)
  ∈ all_records cw_client completed memory_namespace
      start_time end_time period.
Proof.
  intros Hinst Hplan Hrecs Hcw Hdp Hrow.
  unfold all_records. apply list_elem_of_In, in_flat_map.
  exists inst. split; [by apply list_elem_of_In|].
  apply list_elem_of_In. unfold future_records. rewrite Hrecs.
  unfold fetch_instance_metrics in Hrecs. fold (dims inst) in Hrecs.
  destruct (fetch_catalog cw_client "AWS/EC2" _ EC2_STANDARD_METRICS _ _ _)
    as [[ec2|e] s] eqn:Hec2; [|done].
  destruct (fetch_catalog cw_client memory_namespace _ MEMORY_METRICS _ _ _)
    as [[mem|e] s'] eqn:Hmem; [|done].
  simpl in Hrecs. injection Hrecs as <-.
  apply list_elem_of_fmap. exists row. split; [done|].
  assert (forall rs,
            (fetch_metric_datapoints cw_client namespace (dims inst)
               metric_def start_time end_time period).1 = Py.Ok rs ->
            row ∈ rs) as Hin.
  { unfold fetch_metric_datapoints. rewrite Hcw. simpl.
    intros rs Hrs.
    destruct (for_each_Ok_elem _ _ _ _ Hrs Hdp) as (row' & Hr' & ?).
    congruence. }
  unfold plan in Hplan.
  apply elem_of_app in Hplan as [Hp|Hp];
    apply list_elem_of_fmap in Hp as (d & [= -> ->] & Hd).
  - destruct (fetch_catalog_elem _ _ _ _ _ _ _ _ _ _ Hec2 Hd)
      as (rs & Hrs & Hsub).
    apply elem_of_app. left. apply Hsub, Hin, Hrs.
  - destruct (fetch_catalog_elem _ _ _ _ _ _ _ _ _ _ Hmem Hd)
      as (rs & Hrs & Hsub).
    apply elem_of_app. right. apply Hsub, Hin, Hrs.
Qed.

(** The extractor returns, and what it returns of a run with records is
    the normalized frame of the records collected. *)
Lemma extract_all_returns (cw_client : Client)
    (instances completed : list Instance) (memory_namespace : string)
    (start_time end_time period now : Z) :
  exists df,
    extract_all_ec2_metrics cw_client instances completed memory_namespace
      start_time end_time period now = Py.Ok df
    /\ (instances <> [] ->
        all_records cw_client completed memory_namespace
          start_time end_time period <> [] ->
        restructure_dataframe
          (all_records cw_client completed memory_namespace
             start_time end_time period) now = Py.Ok df).
Proof.
  unfold extract_all_ec2_metrics.
  destruct instances as [|i instances]; [by exists empty|].
  destruct (all_records cw_client completed memory_namespace
              start_time end_time period) as [|rec records] eqn:Hrecs;
    [by exists empty|].
  destruct (restructure_total (rec :: records) now) as [df Hdf].
  { apply (stamped_restructurable _ memory_namespace period); [done|].
    intros r Hr. rewrite <- Hrecs in Hr.
    apply all_records_stamped in Hr as (inst & _ & Hs). eauto. }
  exists df. done.
Qed.

End Answered.

(** C3.  A fetch whose request raises returns no record for its pair, and
    the extractor gives what it would give had those pairs simply had no
    datapoints: the same collected records and the same frame.  The
    extractor returns a frame whichever requests fail, and for every
    instance whose future returns, each datapoint the client answered
    with for one of its (namespace, metric) pairs has its record among
    the collected records and its row in the frame returned: the row
    with the id of the instance, the namespace, name and category of the
    metric, the timestamp of the datapoint and, in the four statistic
    columns, the values of the record made numeric.  When every
    datapoint received has its timestamp, every future returns,
    whichever requests fail. *)
Theorem failed_fetch_is_an_empty_result (cw_client : Collector.Client)
    (instances completed : list Collector.Instance) (memory_namespace : string)
    (start_time end_time period now : Z) :
  instances ≡ₚ completed ->
  (forall namespace dimensions metric_def e,
      cw_client (Collector.kwargs_of namespace dimensions metric_def
                   start_time end_time period) = Py.Raise e ->
      Collector.fetch_metric_datapoints cw_client namespace dimensions
        metric_def start_time end_time period
      = (Py.Ok [], [Collector.kwargs_of namespace dimensions metric_def
                      start_time end_time period]))
  /\ Collector.all_records cw_client completed memory_namespace
       start_time end_time period
     = Collector.all_records (CollectorSpec.quiet cw_client) completed
         memory_namespace start_time end_time period
  /\ Collector.extract_all_ec2_metrics cw_client instances completed
       memory_namespace start_time end_time period now
     = Collector.extract_all_ec2_metrics (CollectorSpec.quiet cw_client)
         instances completed memory_namespace start_time end_time period now
  /\ (forall inst namespace metric_def records response dp row,
        inst ∈ instances ->
        (namespace, metric_def) ∈ CollectorSpec.plan memory_namespace ->
        (Collector.fetch_instance_metrics cw_client inst memory_namespace
           start_time end_time period).1 = Py.Ok records ->
        cw_client (Collector.kwargs_of namespace (CollectorSpec.dims inst)
                     metric_def start_time end_time period) = Py.Ok response ->
        dp ∈ default [] response ->
        Collector.row_of namespace (CollectorSpec.dims inst) metric_def period dp
        = Py.Ok row ->
        Py.update row (Collector.metadata inst)
        ∈ Collector.all_records cw_client completed memory_namespace
            start_time end_time period)
  /\ (exists df,
        Collector.extract_all_ec2_metrics cw_client instances completed
          memory_namespace start_time end_time period now = Py.Ok df
        /\ forall inst namespace metric_def records response dp row,
             inst ∈ instances ->
             (namespace, metric_def) ∈ CollectorSpec.plan memory_namespace ->
             (Collector.fetch_instance_metrics cw_client inst memory_namespace
                start_time end_time period).1 = Py.Ok records ->
             cw_client (Collector.kwargs_of namespace (CollectorSpec.dims inst)
                          metric_def start_time end_time period)
             = Py.Ok response ->
             dp ∈ default [] response ->
             Collector.row_of namespace (CollectorSpec.dims inst) metric_def
               period dp = Py.Ok row ->
             exists frow ts,
               frow ∈ Collector.rows df
               /\ Collector.Timestamp dp = Some ts
               /\ CollectorSpec.view frow "instance_id"
                  = Collector.VStr (Collector.instance_id inst)
               /\ CollectorSpec.view frow "namespace" = Collector.VStr namespace
               /\ CollectorSpec.view frow "metric_name"
                  = Collector.VStr (Collector.metric metric_def)
               /\ CollectorSpec.view frow "category"
                  = Collector.VStr (Collector.category metric_def)
               /\ CollectorSpec.view frow "timestamp" = Collector.VTime ts
               /\ forall c, c ∈ Collector.STAT_COLUMNS ->
                    CollectorSpec.view frow c
                    = Collector.to_numeric (CollectorSpec.view row c))
  /\ (CollectorSpec.timestamped cw_client ->
      forall inst, exists records,
        (Collector.fetch_instance_metrics cw_client inst memory_namespace
           start_time end_time period).1 = Py.Ok records).
Proof.
  intros Hperm. split; [|split; [|split; [|split; [|split]]]].
  - intros namespace dimensions metric_def e He.
    unfold Collector.fetch_metric_datapoints. by rewrite He.
  - by rewrite all_records_quiet.
  - unfold Collector.extract_all_ec2_metrics. by rewrite all_records_quiet.
  - intros inst namespace metric_def records response dp row
      Hinst Hplan Hrecs Hcw Hdp Hrow.
    eapply answered_record_collected; try done. by rewrite <- Hperm.
  - destruct (extract_all_returns cw_client instances completed
                memory_namespace start_time end_time period now)
      as (df & Hdf & Hnorm).
    exists df. split; [done|].
    intros inst namespace metric_def records response dp row
      Hinst Hplan Hrecs Hcw Hdp Hrow.
    assert (Py.update row (Collector.metadata inst)
            ∈ Collector.all_records cw_client completed memory_namespace
                start_time end_time period) as Hin.
    { eapply answered_record_collected; try done. by rewrite <- Hperm. }
    assert (Collector.restructure_dataframe
              (Collector.all_records cw_client completed memory_namespace
                 start_time end_time period) now = Py.Ok df) as Hr.
    { apply Hnorm.
      - intros ->. by apply elem_of_nil in Hinst.
      - intros Hnil. rewrite Hnil in Hin. by apply elem_of_nil in Hin. }
    destruct (restructure_tracks _ _ _ Hr)
      as (_ & (rows' & Hrows' & Htracks) & _).
    apply list_elem_of_lookup in Hin as [i Hi].
    destruct (Forall2_lookup_l _ _ _ _ _ Htracks Hi) as (frow & Hfrow & _ & Hv).
    destruct (row_of_cells inst namespace metric_def period dp row Hrow)
      as (H1 & H2 & H3 & H4 & (ts & Hts & H5) & H6).
    exists frow, ts.
    split; [rewrite Hrows'; by eapply list_elem_of_lookup_2|].
    split; [done|]. rewrite !Hv. unfold CollectorSpec.cell.
    cbn [String.eqb Ascii.eqb Bool.eqb Collector.has existsb
         Collector.STAT_COLUMNS Collector.ordered_cols orb negb andb].
    rewrite H1, H2, H3, H4, H5.
    repeat (split; [reflexivity|]).
    intros c Hc. rewrite Hv. unfold CollectorSpec.cell.
    rewrite (H6 c Hc). unfold Collector.STAT_COLUMNS in Hc.
    rewrite !elem_of_cons, elem_of_nil in Hc.
    destruct Hc as [->|[->|[->|[->|[]]]]]; reflexivity.
  - intros Hts inst. unfold Collector.fetch_instance_metrics.
    destruct (fetch_catalog_total cw_client start_time end_time period "AWS/EC2"
                [("InstanceId", Collector.instance_id inst)]
                Collector.EC2_STANDARD_METRICS Hts) as (ec2 & s & ->).
    destruct (fetch_catalog_total cw_client start_time end_time period
                memory_namespace
                [("InstanceId", Collector.instance_id inst)]
                Collector.MEMORY_METRICS Hts) as (mem & s' & ->).
    simpl. eauto.
Qed.

Lemma failed_fetch_is_an_empty_result_witness :
  Sample.client
    (Collector.kwargs_of "AWS/EC2" (CollectorSpec.dims Sample.inst)
       Scenario.network_in 0 Sample.t0 60)
  = Py.Raise (Py.ClientError "Throttling: Rate exceeded")
  /\ exists df frow,
       Collector.extract_all_ec2_metrics Sample.client [Sample.inst]
         [Sample.inst] "CWAgent" 0 Sample.t0 60 Sample.clock = Py.Ok df
       /\ frow ∈ Collector.rows df
       /\ CollectorSpec.view frow "instance_id" = Collector.VStr "r-1"
       /\ CollectorSpec.view frow "metric_name"
          = Collector.VStr "CPUUtilization"
       /\ CollectorSpec.view frow "timestamp" = Collector.VTime Sample.t0
       /\ CollectorSpec.view frow "stat_average" = Collector.VFloat 10.
Proof.
  split; [reflexivity|].
  destruct (failed_fetch_is_an_empty_result Sample.client [Sample.inst]
              [Sample.inst] "CWAgent" 0 Sample.t0 60 Sample.clock
              (Permutation_refl _))
    as (_ & _ & _ & _ & (df & Hdf & Hrows) & _).
  destruct (Hrows Sample.inst "AWS/EC2" Scenario.cpu_metric
              Sample.collected (Some [Sample.cpu_datapoint])
              Sample.cpu_datapoint Scenario.cpu_row)
    as (frow & ts & Hin & Hts & Hid & _ & Hm & _ & Ht & Hstat).
  - apply list_elem_of_here.
  - apply list_elem_of_here.
  - vm_compute. reflexivity.
  - reflexivity.
  - apply list_elem_of_here.
  - vm_compute. reflexivity.
  - exists df, frow. split; [exact Hdf|]. split; [exact Hin|].
    split; [exact Hid|]. split; [exact Hm|].
    split; [injection Hts as <-; exact Ht|].
    exact (Hstat "stat_average" (list_elem_of_here _ _)).
Defined.


(** ** The order of the normalized frame *)

Section FrameOrder.
Import Collector CollectorSpec.

Lemma value_compare_antisym (a b : value) :
  value_compare a b = CompOpp (value_compare b a).
Proof.
  destruct a, b; simpl; try reflexivity;
    first [ apply String.compare_antisym
          | apply Z.compare_antisym
          | symmetry; apply Qcompare_antisym ].
Qed.

Lemma row_compare_antisym (by_ : list string) (r1 r2 : Py.dict value) :
  row_compare by_ r1 r2 = CompOpp (row_compare by_ r2 r1).
Proof.
  induction by_ as [|c by_ IH]; simpl; [done|].
  rewrite (value_compare_antisym (default NA (Py.get c r1))).
  destruct (value_compare (default NA (Py.get c r2)) _); simpl; by rewrite ?IH.
Qed.

Lemma insert_row_sorted (by_ : list string) (r : Py.dict value)
    (sorted : list (Py.dict value)) :
  Sorted (fun a b => row_compare by_ a b <> Gt) sorted ->
  Sorted (fun a b => row_compare by_ a b <> Gt) (insert_row by_ r sorted).
Proof.
  assert (forall a b, row_compare by_ a b = Gt -> row_compare by_ b a <> Gt)
    as Htotal.
  { intros a b Hab. rewrite (row_compare_antisym by_ b a), Hab. done. }
  induction 1 as [|r' rs Hs IH Hhd]; simpl.
  - repeat constructor.
  - destruct (row_compare by_ r r') eqn:Hc.
    + constructor; [by constructor|]. constructor. by rewrite Hc.
    + constructor; [by constructor|]. constructor. by rewrite Hc.
    + constructor; [done|].
      destruct Hhd as [|r'' rs' Hr'']; simpl.
      * constructor. by apply Htotal.
      * destruct (row_compare by_ r r''); constructor;
          first [by apply Htotal | done].
Qed.

Lemma sort_values_sorted (by_ : list string) (df : DataFrame) :
  Sorted (fun a b => row_compare by_ a b <> Gt) (rows (sort_values by_ df)).
Proof.
  unfold sort_values. simpl.
  induction (rows df) as [|r rs IH]; simpl; [constructor|].
  by apply insert_row_sorted.
Qed.

(** On rows with a sort key the comparison of [sort_values] is the
    order of the keys. *)
Lemma row_compare_key_le (a b : Py.dict value)
    (ka kb : string * string * string * Z) :
  Shape.sort_key a = Some ka -> Shape.sort_key b = Some kb ->
  row_compare ["instance_id"; "category"; "metric_name"; "timestamp"] a b
  <> Gt ->
  Shape.key_le ka kb.
Proof.
  unfold Shape.sort_key, row_compare. fold (view a "instance_id").
  fold (view b "instance_id"). fold (view a "category").
  fold (view b "category"). fold (view a "metric_name").
  fold (view b "metric_name"). fold (view a "timestamp").
  fold (view b "timestamp").
  destruct (view a "instance_id") as [| |i1| | |]; try done.
  destruct (view a "category") as [| |c1| | |]; try done.
  destruct (view a "metric_name") as [| |m1| | |]; try done.
  destruct (view a "timestamp") as [| | | | |t1]; try done.
  destruct (view b "instance_id") as [| |i2| | |]; try done.
  destruct (view b "category") as [| |c2| | |]; try done.
  destruct (view b "metric_name") as [| |m2| | |]; try done.
  destruct (view b "timestamp") as [| | | | |t2]; try done.
  intros [= <-] [= <-]. simpl.
  destruct (String.compare i1 i2) eqn:Hi; [|by left|done].
  apply String.compare_eq_iff in Hi as ->. intros H. right. split; [done|].
  destruct (String.compare c1 c2) eqn:Hc; [|by left|done].
  apply String.compare_eq_iff in Hc as ->. right. split; [done|].
  destruct (String.compare m1 m2) eqn:Hm; [|by left|done].
  apply String.compare_eq_iff in Hm as ->. right. split; [done|].
  destruct (Z.compare_spec t1 t2); [lia | lia | done].
Qed.

Lemma typed_sort_key (now : Z) (rec row : Py.dict value) :
  Shape.typed rec = true ->
  (forall c, view row c = cell now rec c) ->
  Shape.sort_key row = Shape.sort_key rec /\ is_Some (Shape.sort_key row).
Proof.
  intros (t & n & i & c & m & Ht & _ & Hi & Hc & Hm)%typed_cells Hv.
  unfold Shape.sort_key. rewrite !Hv. unfold cell.
  cbn [String.eqb Ascii.eqb Bool.eqb has existsb STAT_COLUMNS ordered_cols
       orb negb andb].
  rewrite Ht, Hi, Hc, Hm. simpl. eauto.
Qed.

Lemma Sorted_impl_in {A : Type} (R S : A -> A -> Prop) (l : list A) :
  (forall a b, a ∈ l -> b ∈ l -> R a b -> S a b) -> Sorted R l -> Sorted S l.
Proof.
  intros Himp Hs. induction Hs as [|a l Hs IH Hhd]; [constructor|].
  constructor.
  - apply IH. intros x y Hx Hy. apply Himp; by apply list_elem_of_further.
  - destruct Hhd as [|b l' Hab]; constructor.
    apply Himp; [apply list_elem_of_here | | done].
    apply list_elem_of_further, list_elem_of_here.
Qed.

End FrameOrder.

(** X18.  For records with the cells of the extractor (under
    timestamp an instant pandas can hold, under period_sec an integer of
    32 bits, text under instance_id, category and metric_name), the frame
    [restructure_dataframe] returns has one row per record, the sort keys
    (instance_id, category, metric_name, timestamp) of its rows are
    those of the records, and its rows are in the order of these keys:
    each row is followed by one with a greater instance_id, or with the
    same instance_id and a greater category, or with both the same and a
    greater metric_name, or with all three the same and a timestamp that
    is not earlier. *)
Theorem normalized_rows_are_sorted (records : list (Py.dict Collector.value))
    (now : Z) (df : Collector.DataFrame) :
  (forall rec, rec ∈ records -> Shape.typed rec = true) ->
  Collector.restructure_dataframe records now = Py.Ok df ->
  length (Collector.rows df) = length records
  /\ map Shape.sort_key (Collector.rows df) ≡ₚ map Shape.sort_key records
  /\ Forall (fun row => is_Some (Shape.sort_key row)) (Collector.rows df)
  /\ Sorted Shape.in_order (Collector.rows df).
Proof.
  intros Htyped Hdf.
  destruct (restructure_tracks _ _ _ Hdf) as (_ & (rows' & Hperm & Hrows) & _).
  assert (Forall2 (fun rec row =>
                     Shape.sort_key row = Shape.sort_key rec
                     /\ is_Some (Shape.sort_key row)) records rows') as Hkeys.
  { apply (Forall2_impl_in _ _ _ _ Hrows).
    intros rec row Hrec [_ Hv]. eapply typed_sort_key; [|exact Hv].
    by apply Htyped. }
  assert (Forall (fun row => is_Some (Shape.sort_key row)) (Collector.rows df))
    as Hsome.
  { rewrite Hperm. apply Forall_forall. intros row Hrow.
    apply list_elem_of_lookup in Hrow as [i Hi].
    destruct (Forall2_lookup_r _ _ _ _ _ Hkeys Hi) as (rec & _ & _ & ?).
    done. }
  split; [rewrite Hperm; symmetry; by eapply Forall2_length|].
  split.
  { rewrite Hperm. clear -Hkeys.
    induction Hkeys as [|rec row recs rows [Hk _] _ IH]; [done|].
    simpl. by rewrite Hk, IH. }
  split; [done|].
  assert (Sorted (fun a b =>
                    Collector.row_compare
                      ["instance_id"; "category"; "metric_name"; "timestamp"]
                      a b <> Gt) (Collector.rows df)) as Hsorted.
  { unfold Collector.restructure_dataframe in Hdf.
    apply bind_Ok in Hdf as (df2 & _ & H).
    apply bind_Ok in H as (df3 & _ & H).
    apply bind_Ok in H as (df4 & _ & H).
    apply bind_Ok in H as (df5 & _ & H).
    apply bind_Ok in H as (df6 & _ & H).
    apply Ok_inj in H. subst df. apply sort_values_sorted. }
  apply Sorted_impl_in with (2 := Hsorted).
  rewrite Forall_forall in Hsome.
  intros a b Ha Hb Hab.
  destruct (Hsome a Ha) as [ka Hka], (Hsome b Hb) as [kb Hkb].
  exists ka, kb. split; [done|]. split; [done|].
  by eapply row_compare_key_le.
Qed.

Lemma normalized_rows_are_sorted_witness :
  length (Collector.rows Scenario.busy_frame) = 3%nat
  /\ map Shape.sort_key Scenario.busy_records
     = [ Some ("r-1", "CPU", "CPUUtilization", Sample.t0 + 60000000000);
         Some ("r-1", "CPU", "CPUUtilization", Sample.t0);
         Some ("r-1", "Network", "NetworkIn", Sample.t0) ]
  /\ map Shape.sort_key (Collector.rows Scenario.busy_frame)
     = [ Some ("r-1", "CPU", "CPUUtilization", Sample.t0);
         Some ("r-1", "CPU", "CPUUtilization", Sample.t0 + 60000000000);
         Some ("r-1", "Network", "NetworkIn", Sample.t0) ]
  /\ Sorted Shape.in_order (Collector.rows Scenario.busy_frame).
Proof.
  assert (forall rec, rec ∈ Scenario.busy_records -> Shape.typed rec = true)
    as Htyped.
  { assert (forallb Shape.typed Scenario.busy_records = true) as Hall
      by (vm_compute; reflexivity).
    intros rec Hrec. rewrite forallb_forall in Hall.
    apply Hall, list_elem_of_In, Hrec. }
  assert (Collector.restructure_dataframe Scenario.busy_records Sample.clock
          = Py.Ok Scenario.busy_frame) as Hdf by (vm_compute; reflexivity).
  destruct (normalized_rows_are_sorted Scenario.busy_records Sample.clock
              Scenario.busy_frame Htyped Hdf) as (Hlen & _ & _ & Hsorted).
  split; [rewrite Hlen; vm_compute; reflexivity|].
  split; [vm_compute; reflexivity|].
  split; [vm_compute; reflexivity | exact Hsorted].
Defined.

(** * Strings *)

Section Strings.

Lemma append_cons (c : ascii) (s t : string) :
  String c s +:+ t = String c (s +:+ t).
Proof. reflexivity. Qed.

Lemma append_nil_r (s : string) : s +:+ "" = s.
Proof. induction s as [|c s IH]; [done|]. by rewrite append_cons, IH. Qed.

Lemma append_assoc (a b c : string) : (a +:+ b) +:+ c = a +:+ (b +:+ c).
Proof. induction a as [|d a IH]; [done|]. by rewrite !append_cons, IH. Qed.

Lemma contains_app (c : ascii) (a b : string) :
  Py.contains c (a +:+ b) = Py.contains c a || Py.contains c b.
Proof.
  induction a as [|d a IH]; [done|].
  rewrite append_cons. simpl. rewrite IH. by rewrite orb_assoc.
Qed.

Lemma split_nonempty (sep : ascii) (s : string) : Py.split sep s <> [].
Proof.
  destruct s as [|c s]; simpl; [done|].
  destruct (Ascii.eqb c sep); [done|]. by destruct (Py.split sep s).
Qed.

Lemma split_app (sep : ascii) (a b : string) :
  Py.split sep (a +:+ String sep b) = Py.split sep a ++ Py.split sep b.
Proof.
  induction a as [|c a IH].
  - change ("" +:+ String sep b) with (String sep b). simpl.
    by rewrite Ascii.eqb_refl.
  - rewrite append_cons. simpl. rewrite IH.
    destruct (Ascii.eqb c sep); [done|].
    pose proof (split_nonempty sep a) as Hne.
    by destruct (Py.split sep a).
Qed.

Lemma split_without (sep : ascii) (s : string) :
  Py.contains sep s = false -> Py.split sep s = [s].
Proof.
  induction s as [|c s IH]; simpl; [done|].
  intros [Hc Hs]%orb_false_iff. rewrite Hc, (IH Hs). done.
Qed.

Lemma contains_split (c sep : ascii) (s seg : string) :
  Py.contains c s = false -> seg ∈ Py.split sep s -> Py.contains c seg = false.
Proof.
  revert seg. induction s as [|d s IH]; intros seg; simpl.
  - intros _ ->%list_elem_of_singleton. done.
  - intros [Hd Hs]%orb_false_iff. destruct (Ascii.eqb d sep).
    + intros [->|Hseg]%elem_of_cons; [done | by apply IH].
    + pose proof (split_nonempty sep s) as Hne.
      destruct (Py.split sep s) as [|h t] eqn:Hsp; [done|].
      intros [->|Hseg]%elem_of_cons.
      * simpl. rewrite Hd. apply (IH h Hs), list_elem_of_here.
      * apply (IH seg Hs). by apply list_elem_of_further.
Qed.

Lemma rev_app_rev_app (s a b : string) :
  String.rev_app (String.rev_app s a) b = String.rev_app a (s +:+ b).
Proof.
  revert a b. induction s as [|c s IH]; intros a b; [done|].
  simpl. rewrite IH. by rewrite append_cons.
Qed.

Lemma rev_rev (s : string) : String.rev (String.rev s) = s.
Proof.
  unfold String.rev. rewrite rev_app_rev_app. simpl. apply append_nil_r.
Qed.

Lemma all_digits_rev_app (s a : string) :
  Text.all_digits (String.rev_app s a)
  = Text.all_digits s && Text.all_digits a.
Proof.
  revert a. induction s as [|c s IH]; intros a; [done|].
  simpl. rewrite IH. simpl.
  destruct (Py.digit c), (Text.all_digits s); done.
Qed.

Lemma digit_not_space (c : ascii) (d : Z) :
  Py.digit c = Some d -> Py.is_space c = false.
Proof.
  unfold Py.digit, Py.is_space.
  destruct (Nat.leb_spec 48 (nat_of_ascii c)), (Nat.leb_spec (nat_of_ascii c) 57);
    simpl; try done.
  intros _.
  destruct (Nat.leb_spec 9 (nat_of_ascii c)), (Nat.leb_spec (nat_of_ascii c) 13),
    (Nat.eqb_spec (nat_of_ascii c) 32), (Nat.eqb_spec (nat_of_ascii c) 133),
    (Nat.eqb_spec (nat_of_ascii c) 160); simpl; try done; lia.
Qed.

Lemma lstrip_digits (s : string) :
  Text.all_digits s = true -> Py.lstrip s = s.
Proof.
  destruct s as [|c s]; [done|]. simpl.
  destruct (Py.digit c) as [d|] eqn:Hd; [|done].
  by rewrite (digit_not_space c d Hd).
Qed.

Lemma strip_digits (s : string) :
  Text.all_digits s = true -> Py.strip s = s.
Proof.
  intros Hs. unfold Py.strip. rewrite (lstrip_digits s Hs).
  rewrite lstrip_digits; [apply rev_rev|].
  unfold String.rev. by rewrite all_digits_rev_app, Hs.
Qed.

Lemma digits_contains (c : ascii) (s : string) :
  Py.digit c = None -> Text.all_digits s = true -> Py.contains c s = false.
Proof.
  intros Hc. induction s as [|d s IH]; simpl; [done|].
  destruct (Py.digit d) as [v|] eqn:Hd; [|done]. simpl. intros Hs.
  rewrite (IH Hs), orb_false_r. apply Ascii.eqb_neq. congruence.
Qed.

Lemma digit_char_digit (d : Z) :
  0 <= d < 10 -> Py.digit (Fmt.digit_char d) = Some d.
Proof.
  intros Hd.
  assert (d = 0 \/ d = 1 \/ d = 2 \/ d = 3 \/ d = 4 \/ d = 5 \/ d = 6
          \/ d = 7 \/ d = 8 \/ d = 9) as H by lia.
  repeat (destruct H as [->|H]; [reflexivity|]). by subst.
Qed.

Lemma decimal_all_digits (fuel : nat) (n : Z) (acc : string) :
  0 <= n -> Text.all_digits acc = true ->
  Text.all_digits (Fmt.decimal fuel n acc) = true.
Proof.
  revert n acc. induction fuel as [|fuel IH]; intros n acc Hn Hacc; simpl;
    [done|].
  assert (Text.all_digits (String (Fmt.digit_char (n mod 10)) acc) = true) as H.
  { simpl. rewrite digit_char_digit by (apply Z.mod_pos_bound; lia). done. }
  destruct (n <? 10); [done|]. apply IH; [|done].
  apply Z.div_pos; lia.
Qed.

Lemma decimal_parses (fuel : nat) (n : Z) (acc : string) (b : bool) :
  0 <= n < 2 ^ Z.of_nat (S fuel) ->
  Py.digits 0 b (Fmt.decimal (S fuel) n acc) = Py.digits n true acc.
Proof.
  revert n acc b. induction fuel as [|fuel IH]; intros n acc b Hn.
  - assert (n = 0 \/ n = 1) as [-> | ->] by (simpl in Hn; lia); reflexivity.
  - change (Fmt.decimal (S (S fuel)) n acc)
      with (if n <? 10 then String (Fmt.digit_char (n mod 10)) acc
            else Fmt.decimal (S fuel) (n / 10)
                   (String (Fmt.digit_char (n mod 10)) acc)).
    destruct (Z.ltb_spec n 10) as [Hlt|Hge].
    + simpl. rewrite digit_char_digit by (apply Z.mod_pos_bound; lia).
      rewrite Z.mod_small by lia. f_equal.
    + rewrite IH.
      * simpl. rewrite digit_char_digit by (apply Z.mod_pos_bound; lia).
        f_equal. pose proof (Z.div_mod n 10). lia.
      * rewrite Nat2Z.inj_succ, Z.pow_succ_r in Hn by lia.
        split; [apply Z.div_pos; lia|].
        apply Z.div_lt_upper_bound; lia.
Qed.

Lemma digits_of_parses (n : Z) (b : bool) :
  0 <= n -> Py.digits 0 b (Fmt.digits_of n) = Some n.
Proof.
  intros Hn. unfold Fmt.digits_of. rewrite decimal_parses; [done|].
  split; [done|]. rewrite Nat2Z.inj_succ, Z2Nat.id by apply Z.log2_nonneg.
  destruct (Z.eq_dec n 0) as [->|Hnz]; [done|].
  apply Z.log2_spec. lia.
Qed.

Lemma digits_of_all_digits (n : Z) :
  0 <= n -> Text.all_digits (Fmt.digits_of n) = true.
Proof. intros Hn. by apply decimal_all_digits. Qed.

Lemma zeros_all_digits (k : nat) (s : string) :
  Text.all_digits s = true -> Text.all_digits (Fmt.zeros k s) = true.
Proof. intros Hs. induction k as [|k IH]; [done|]. simpl. exact IH. Qed.

Lemma zeros_parses (k : nat) (n : Z) (b : bool) :
  0 <= n -> Py.digits 0 b (Fmt.zeros k (Fmt.digits_of n)) = Some n.
Proof.
  intros Hn. revert b. induction k as [|k IH]; intros b; simpl.
  - by apply digits_of_parses.
  - apply IH.
Qed.

Lemma int_unsigned (s : string) :
  (forall c rest, Py.strip s = String c rest -> c <> "-"%char /\ c <> "+"%char) ->
  Py.int s = Py.digits 0 false (Py.strip s).
Proof.
  unfold Py.int. destruct (Py.strip s) as [|c rest]; [done|].
  intros H. destruct (H c rest eq_refl) as [Hm Hp].
  destruct c as [[] [] [] [] [] [] [] []]; done.
Qed.

Lemma int_digits (s : string) :
  Text.all_digits s = true -> Py.int s = Py.digits 0 false s.
Proof.
  intros Hs. rewrite int_unsigned; rewrite (strip_digits s Hs); [done|].
  intros c rest ->. simpl in Hs. split; intros ->; done.
Qed.

Lemma int_str (n : Z) : 0 <= n -> Py.int (Fmt.str n) = Some n.
Proof.
  intros Hn. unfold Fmt.str. rewrite (proj2 (Z.ltb_ge n 0) Hn).
  rewrite int_digits by by apply digits_of_all_digits.
  by apply digits_of_parses.
Qed.

Lemma int_zero_padded (w : nat) (n : Z) :
  0 <= n -> Py.int (Fmt.zero_padded w n) = Some n.
Proof.
  intros Hn. unfold Fmt.zero_padded. rewrite (proj2 (Z.ltb_ge n 0) Hn).
  rewrite int_digits by by apply zeros_all_digits, digits_of_all_digits.
  by apply zeros_parses.
Qed.

Lemma str_all_digits (n : Z) : 0 <= n -> Text.all_digits (Fmt.str n) = true.
Proof.
  intros Hn. unfold Fmt.str. rewrite (proj2 (Z.ltb_ge n 0) Hn).
  by apply digits_of_all_digits.
Qed.

Lemma zero_padded_all_digits (w : nat) (n : Z) :
  0 <= n -> Text.all_digits (Fmt.zero_padded w n) = true.
Proof.
  intros Hn. unfold Fmt.zero_padded. rewrite (proj2 (Z.ltb_ge n 0) Hn).
  by apply zeros_all_digits, digits_of_all_digits.
Qed.

End Strings.

(** * Partition paths *)

Lemma partition_item_spec (k v : string) (n : Z) :
  Py.contains "=" k = false -> Py.contains "=" v = false ->
  Py.int v = Some n ->
  Etl.partition_item (k +:+ String "=" v) = Py.Ok (k, n).
Proof.
  intros Hk Hv Hn. unfold Etl.partition_item.
  rewrite split_app, !split_without by done. simpl. by rewrite Hn.
Qed.

(** The date of a path that ends in [year=Y/month=M/day=D/name], when
    nothing before looks like a partition. *)
Lemma file_date_of_partition (lib : Etl.Pandas) (dir Y M D name : string)
    (y m d : Z) :
  Py.contains "=" dir = false ->
  Py.contains "=" name = false -> Py.contains "/" name = false ->
  Py.contains "=" Y = false -> Py.contains "/" Y = false -> Py.int Y = Some y ->
  Py.contains "=" M = false -> Py.contains "/" M = false -> Py.int M = Some m ->
  Py.contains "=" D = false -> Py.contains "/" D = false -> Py.int D = Some d ->
  Etl.file_date lib
    (dir +:+ String "/" (("year" +:+ String "=" Y) +:+ String "/"
       (("month" +:+ String "=" M) +:+ String "/"
          (("day" +:+ String "=" D) +:+ String "/" name))))
  = Etl.pd_Timestamp lib y m d.
Proof.
  intros Hdir Hn1 Hn2 HY1 HY2 HY3 HM1 HM2 HM3 HD1 HD2 HD3.
  unfold Etl.file_date.
  assert (forall k v, Py.contains "/" v = false ->
            Py.contains "/" (k +:+ String "=" v) = Py.contains "/" k) as Hslash.
  { intros k v Hv. rewrite contains_app. simpl. by rewrite Hv, orb_false_r. }
  rewrite (split_app "/" dir).
  rewrite (split_app "/" ("year" +:+ String "=" Y)).
  rewrite (split_app "/" ("month" +:+ String "=" M)).
  rewrite (split_app "/" ("day" +:+ String "=" D)).
  rewrite (split_without "/" ("year" +:+ String "=" Y)) by (by rewrite Hslash).
  rewrite (split_without "/" ("month" +:+ String "=" M)) by (by rewrite Hslash).
  rewrite (split_without "/" ("day" +:+ String "=" D)) by (by rewrite Hslash).
  rewrite (split_without "/" name) by done.
  rewrite List.filter_app.
  rewrite (filter_none (Py.contains "=") (Py.split "/" dir))
    by (intros seg Hseg; exact (contains_split "=" "/" dir seg Hdir Hseg)).
  assert (forall k v, Py.contains "=" (k +:+ String "=" v) = true) as Heq.
  { intros k v. rewrite contains_app. simpl. by rewrite orb_true_r. }
  cbn [List.filter app]. rewrite !Heq, Hn1. cbn [Py.for_each].
  rewrite (partition_item_spec "year" Y y), (partition_item_spec "month" M m),
    (partition_item_spec "day" D d) by done.
  reflexivity.
Qed.

(** The path of a key of the collector gives the date of the run. *)
Lemma listed_key_date (lib : Etl.Pandas) (bucket prefix : string)
    (run_time : Datetime.t) :
  0 <= Datetime.year run_time -> 0 <= Datetime.month run_time ->
  0 <= Datetime.day run_time ->
  0 <= Datetime.hour run_time -> 0 <= Datetime.minute run_time ->
  0 <= Datetime.second run_time ->
  Py.contains "=" bucket = false -> Py.contains "=" prefix = false ->
  Etl.file_date lib (Upload.listed bucket (Upload.key prefix run_time))
  = Etl.pd_Timestamp lib (Datetime.year run_time) (Datetime.month run_time)
      (Datetime.day run_time).
Proof.
  intros Hy Hm Hd Hh Hmi Hs Hb Hp.
  assert (forall c s, Py.digit c = None -> Text.all_digits s = true ->
                      Py.contains c s = false) as Hdig
    by (intros; by apply digits_contains).
  pose proof (str_all_digits _ Hy) as HY.
  pose proof (zero_padded_all_digits 2 _ Hm) as HM.
  pose proof (zero_padded_all_digits 2 _ Hd) as HD.
  pose proof (zero_padded_all_digits 2 _ Hh) as Hhh.
  pose proof (zero_padded_all_digits 2 _ Hmi) as Hmm.
  pose proof (zero_padded_all_digits 2 _ Hs) as Hss.
  set (name := "metrics_" +:+ Datetime.strftime_HMS run_time +:+ ".parquet").
  assert (Py.contains "=" name = false /\ Py.contains "/" name = false)
    as [Hn1 Hn2].
  { unfold name, Datetime.strftime_HMS. rewrite !contains_app.
    rewrite (Hdig "="%char _ eq_refl Hhh), (Hdig "="%char _ eq_refl Hmm),
      (Hdig "="%char _ eq_refl Hss), (Hdig "/"%char _ eq_refl Hhh),
      (Hdig "/"%char _ eq_refl Hmm), (Hdig "/"%char _ eq_refl Hss).
    split; reflexivity. }
  assert (Upload.listed bucket (Upload.key prefix run_time)
          = (bucket +:+ String "/" prefix)
            +:+ String "/"
                  (("year" +:+ String "=" (Fmt.str (Datetime.year run_time)))
                   +:+ String "/"
                   (("month" +:+ String "="
                       (Fmt.zero_padded 2 (Datetime.month run_time)))
                    +:+ String "/"
                    (("day" +:+ String "="
                        (Fmt.zero_padded 2 (Datetime.day run_time)))
                     +:+ String "/" name)))) as ->.
  { unfold Upload.listed, Upload.key. rewrite append_assoc. reflexivity. }
  apply file_date_of_partition;
    try (by apply Hdig); try done;
    try (by apply int_str); try (by apply int_zero_padded).
  rewrite contains_app. simpl. by rewrite Hb, Hp.
Qed.

(** X19.  The one [put_object] of [upload_to_s3] goes to the bucket
    given, under prefix/year=Y/month=MM/day=DD/metrics_HHMMSS.parquet of
    the run time.  When neither bucket nor prefix holds an equals sign, the
    loader reads the day of the run back from the listed path: [file_date]
    is [pd.Timestamp] of year, month and day.  The URI returned is s3://
    followed by that path. *)
Theorem uploaded_key_parses_back (lib : Etl.Pandas) (s3_client : Upload.Client)
    (bucket prefix : string) (data : list Byte.byte) (run_time : Datetime.t)
    (request : Upload.PutObject) :
  0 <= Datetime.year run_time -> 0 <= Datetime.month run_time ->
  0 <= Datetime.day run_time ->
  0 <= Datetime.hour run_time -> 0 <= Datetime.minute run_time ->
  0 <= Datetime.second run_time ->
  Py.contains "=" bucket = false -> Py.contains "=" prefix = false ->
  request ∈ (Upload.upload_to_s3 s3_client bucket prefix data run_time).2 ->
  Upload.Bucket request = bucket
  /\ Upload.Key request = Upload.key prefix run_time
  /\ Etl.file_date lib
       (Upload.listed (Upload.Bucket request) (Upload.Key request))
     = Etl.pd_Timestamp lib (Datetime.year run_time) (Datetime.month run_time)
         (Datetime.day run_time)
  /\ (forall uri,
        (Upload.upload_to_s3 s3_client bucket prefix data run_time).1 = Py.Ok uri ->
        uri = "s3://" +:+ Upload.listed bucket (Upload.key prefix run_time)).
Proof.
  intros Hy Hm Hd Hh Hmi Hs Hb Hp Hreq.
  assert (request
          = {| Upload.Bucket := bucket;
               Upload.Key := Upload.key prefix run_time;
               Upload.Body := data;
               Upload.ContentType := "application/octet-stream";
               Upload.Metadata :=
                 [ ("source", "cloudwatch-ec2-extractor");
                   ("extracted_at", Datetime.isoformat run_time) ] |}) as ->.
  { unfold Upload.upload_to_s3 in Hreq.
    destruct (s3_client _); simpl in Hreq;
      by apply list_elem_of_singleton in Hreq. }
  split; [done|]. split; [done|]. split; [by apply listed_key_date|].
  intros uri. unfold Upload.upload_to_s3. destruct (s3_client _); [done|].
  simpl. by intros [= <-].
Qed.

Lemma uploaded_key_parses_back_witness :
  Upload.Bucket Scenario.put = "bucket"
  /\ Upload.Key Scenario.put = Upload.key "prefix" Scenario.run_time
  /\ Etl.file_date Sample.pandas
       (Upload.listed (Upload.Bucket Scenario.put) (Upload.Key Scenario.put))
     = Etl.pd_Timestamp Sample.pandas 2024 1 1
  /\ (forall uri,
        (Upload.upload_to_s3 (fun _ => None) "bucket" "prefix" []
           Scenario.run_time).1 = Py.Ok uri ->
        uri = "s3://" +:+ Upload.listed "bucket"
                            (Upload.key "prefix" Scenario.run_time)).
Proof.
  apply (uploaded_key_parses_back Sample.pandas (fun _ => None) "bucket"
           "prefix" [] Scenario.run_time Scenario.put).
  - simpl. lia.
  - simpl. lia.
  - simpl. lia.
  - simpl. lia.
  - simpl. lia.
  - simpl. lia.
  - reflexivity.
  - reflexivity.
  - apply list_elem_of_here.
Defined.

Lemma days_in_month_bound (y m : Z) : 28 <= Etl.days_in_month y m <= 31.
Proof.
  unfold Etl.days_in_month.
  destruct (m =? 2); [destruct (Etl.is_leap y); lia|].
  destruct (_ || _); lia.
Qed.

(** [pd.Timestamp] accepts every day of the calendar. *)
Lemma pd_Timestamp_valid (lib : Etl.Pandas) (y m d : Z) :
  1 <= y <= 9999 -> 1 <= m <= 12 -> 1 <= d <= Etl.days_in_month y m ->
  Etl.pd_Timestamp lib y m d
  = Py.Ok (Etl.days_from_civil y m d * Etl.NS_PER_DAY).
Proof.
  intros Hy Hm Hd. unfold Etl.pd_Timestamp.
  rewrite (proj2 (Z.leb_le 1 y)), (proj2 (Z.leb_le y 9999)),
    (proj2 (Z.leb_le 1 m)), (proj2 (Z.leb_le m 12)),
    (proj2 (Z.leb_le 1 d)), (proj2 (Z.leb_le d _)) by lia.
  reflexivity.
Qed.

(** X20.  A file the collector uploaded on a day of the
    years 1678 to 2261 is dated by the loader at the midnight of that day,
    and a loader with a lookback of [lb] days (not 0) whose cutoff can be
    computed keeps it exactly when that day is later than the day of its
    clock minus [lb], or is that day with the clock at midnight. *)
Theorem uploaded_file_is_read_for_lookback_days (lib : Etl.Pandas)
    (cfg : Etl.Config) (now : Z) (all_files : list string)
    (bucket prefix : string) (run_time : Datetime.t) (lb : Z) :
  1678 <= Datetime.year run_time <= 2261 ->
  1 <= Datetime.month run_time <= 12 ->
  1 <= Datetime.day run_time
    <= Etl.days_in_month (Datetime.year run_time) (Datetime.month run_time) ->
  0 <= Datetime.hour run_time -> 0 <= Datetime.minute run_time ->
  0 <= Datetime.second run_time ->
  Py.contains "=" bucket = false -> Py.contains "=" prefix = false ->
  Etl.lookback_days cfg = Some lb -> lb <> 0 ->
  - 2 ^ 63 < lb * Etl.NS_PER_DAY < 2 ^ 63 ->
  - 2 ^ 63 < now - lb * Etl.NS_PER_DAY < 2 ^ 63 ->
  Upload.listed bucket (Upload.key prefix run_time) ∈ all_files ->
  let day := Etl.days_from_civil (Datetime.year run_time)
               (Datetime.month run_time) (Datetime.day run_time) in
  Etl.file_date lib (Upload.listed bucket (Upload.key prefix run_time))
  = Py.Ok (day * Etl.NS_PER_DAY)
  /\ exists kept,
       Etl.filter_lookback lib cfg now all_files = Py.Ok kept
       /\ (Upload.listed bucket (Upload.key prefix run_time) ∈ kept
           <-> Etl.day_of now - lb < day
               \/ (Etl.day_of now - lb = day
                   /\ now mod Etl.NS_PER_DAY = 0)).
Proof.
  intros Hy Hm Hd Hh Hmi Hs Hb Hp Hlb Hnz H1 H2 Hin day.
  assert (Etl.file_date lib (Upload.listed bucket (Upload.key prefix run_time))
          = Py.Ok (day * Etl.NS_PER_DAY)) as Hdate.
  { rewrite listed_key_date by (lia || done).
    apply pd_Timestamp_valid; lia. }
  split; [done|]. eexists. split; [by apply filter_lookback_fits|].
  rewrite list_elem_of_In, filter_In, <- list_elem_of_In.
  unfold Etl.keep_file. rewrite Hdate, Z.leb_le.
  clear H1 H2. unfold Etl.day_of, Etl.NS_PER_DAY.
  pose proof (Z.div_mod now 86400000000000 ltac:(lia)) as Hdm.
  pose proof (Z.mod_pos_bound now 86400000000000 ltac:(lia)) as Hbd.
  split.
  - intros [_ Hk]. lia.
  - intros Hk. split; [done|]. lia.
Qed.

Lemma uploaded_file_is_read_for_lookback_days_witness :
  let f := Upload.listed "bucket" (Upload.key "prefix" Scenario.run_time) in
  Etl.file_date Sample.pandas f
  = Py.Ok (Etl.days_from_civil 2024 1 1 * Etl.NS_PER_DAY)
  /\ exists kept,
       Etl.filter_lookback Sample.pandas Sample.cfg Sample.clock [f]
       = Py.Ok kept
       /\ (f ∈ kept
           <-> Etl.day_of Sample.clock - 90 < Etl.days_from_civil 2024 1 1
               \/ (Etl.day_of Sample.clock - 90 = Etl.days_from_civil 2024 1 1
                   /\ Sample.clock mod Etl.NS_PER_DAY = 0)).
Proof.
  intros f.
  apply (uploaded_file_is_read_for_lookback_days Sample.pandas Sample.cfg
           Sample.clock [f] "bucket" "prefix" Scenario.run_time 90).
  - simpl. lia.
  - simpl. lia.
  - vm_compute. split; discriminate.
  - simpl. lia.
  - simpl. lia.
  - simpl. lia.
  - reflexivity.
  - reflexivity.
  - reflexivity.
  - lia.
  - vm_compute. split; reflexivity.
  - vm_compute. split; reflexivity.
  - apply list_elem_of_here.
Defined.

(** * Facts about the discovery, the configuration and [main] *)

Section Discovering.
Import Discovery.

Lemma describe_mandatory (raw : Described) (inst : Collector.Instance) :
  describe raw = Py.Ok inst ->
  InstanceId raw = Some (Collector.instance_id inst)
  /\ exists st, State raw = Some st
                /\ Py.get "Name" st = Some (Collector.state inst).
Proof.
  unfold describe. intros H.
  apply bind_Ok in H as (name & _ & H).
  apply bind_Ok in H as (id & Hid & H).
  apply bind_Ok in H as (st & Hst & H).
  apply bind_Ok in H as (sn & Hsn & H).
  apply Ok_inj in H. subst inst. simpl.
  destruct (InstanceId raw); [|done]. injection Hid as ->.
  split; [done|]. destruct (State raw) as [st'|]; [|done].
  injection Hst as ->. exists st. split; [done|].
  destruct (Py.get "Name" st); [|done]. by injection Hsn as ->.
Qed.

Lemma page_instances_Ok (page : Page) (found : list Collector.Instance) :
  page_instances page = Py.Ok found
  <-> exists reservations,
        page = Some reservations
        /\ Forall is_Some reservations
        /\ Forall2 (fun raw inst => describe raw = Py.Ok inst)
                   (concat (map (default []) reservations)) found.
Proof.
  unfold page_instances. split.
  - intros H. apply bind_Ok in H as (reservations & Hp & H).
    apply bind_Ok in H as (groups & Hg & H). apply Ok_inj in H. subst found.
    destruct page as [rs|]; [|done]. injection Hp as ->.
    exists reservations. split; [done|].
    apply for_each_Ok_iff in Hg. clear -Hg.
    induction Hg as [|r g rs gs Hr _ [IH1 IH2]]; [by split|].
    unfold reservation_instances in Hr.
    apply bind_Ok in Hr as (insts & Hi & Hr).
    destruct r as [insts'|]; [|done]. injection Hi as ->.
    apply for_each_Ok_iff in Hr. split; [constructor; eauto|].
    simpl. by apply Forall2_app.
  - intros (reservations & -> & Hall & Hf). simpl.
    enough (exists groups,
              Py.for_each reservation_instances reservations = Py.Ok groups
              /\ concat groups = found) as (groups & -> & <-) by done.
    revert found Hf. induction Hall as [|r rs [insts ->] _ IH]; intros found Hf.
    + simpl in Hf. apply Forall2_nil_inv_l in Hf as ->. by exists [].
    + simpl in Hf. apply Forall2_app_inv_l in Hf as (g & rest & Hg & Hrest & ->).
      destruct (IH rest Hrest) as (groups & Hgroups & <-).
      exists (g :: groups). split; [|done].
      apply for_each_Ok_iff. constructor; [|by apply for_each_Ok_iff].
      unfold reservation_instances. simpl. by apply for_each_Ok_iff.
Qed.

Lemma pages_instances_Ok (pages : list (Py.result Page))
    (instances : list Collector.Instance) :
  pages_instances pages = Py.Ok instances
  <-> Forall (fun page => exists reservations,
                page = Py.Ok (Some reservations)
                /\ Forall is_Some reservations) pages
      /\ Forall2 (fun raw inst => describe raw = Py.Ok inst)
                 (entries pages) instances.
Proof.
  revert instances. induction pages as [|page pages IH]; intros instances.
  - simpl. split.
    + intros [= <-]. split; constructor.
    + intros [_ Hf]. by apply Forall2_nil_inv_l in Hf as ->.
  - destruct page as [page|e]; simpl.
    + split.
      * intros H. apply bind_Ok in H as (found & Hp & H).
        apply bind_Ok in H as (more & Hm & H). apply Ok_inj in H. subst instances.
        apply page_instances_Ok in Hp as (reservations & -> & Hall & Hf).
        apply IH in Hm as [Hpages Hmore]. split.
        -- constructor; [eauto | done].
        -- by apply Forall2_app.
      * intros [Hpages Hf]. apply Forall_cons in Hpages as [Hp Hpages].
        destruct Hp as (reservations & [= ->] & Hall).
        apply Forall2_app_inv_l in Hf as (found & more & Hfound & Hmore & ->).
        rewrite (proj2 (page_instances_Ok (Some reservations) found)) by eauto.
        simpl. rewrite (proj2 (IH more)) by done. done.
    + split; [done|]. intros [Hpages _].
      apply Forall_cons in Hpages as [(? & ? & _) _]. done.
Qed.

End Discovering.

(** X21.  [discover_ec2_instances] returns a list exactly when every
    page arrives and has its Reservations, every reservation has its
    Instances, and every entry can be described; the list then has one
    instance per entry, in the order of the pages, with the InstanceId and
    the state name of its entry, which are both mandatory. *)
Theorem discovery_is_all_or_nothing (ec2_client : Discovery.Client)
    (instances : list Collector.Instance) :
  Discovery.discover_ec2_instances ec2_client = Py.Ok instances
  <-> Forall (fun page => exists reservations,
                page = Py.Ok (Some reservations)
                /\ Forall is_Some reservations)
             (ec2_client Discovery.filters)
      /\ Forall2 (fun raw inst =>
                    Discovery.describe raw = Py.Ok inst
                    /\ Discovery.InstanceId raw
                       = Some (Collector.instance_id inst)
                    /\ exists st, Discovery.State raw = Some st
                                  /\ Py.get "Name" st
                                     = Some (Collector.state inst))
                 (Discovery.entries (ec2_client Discovery.filters)) instances.
Proof.
  unfold Discovery.discover_ec2_instances. rewrite pages_instances_Ok.
  split; intros [Hpages Hf]; (split; [done|]).
  - eapply Forall2_impl; [exact Hf|]. intros raw inst Hd.
    split; [done|]. by apply describe_mandatory.
  - eapply Forall2_impl; [exact Hf|]. by intros raw inst [Hd _].
Qed.

(** ** The configuration *)

Lemma filter_nil_blank (env : Env.environ) (required : list string) (k : string) :
  List.filter (Env.blank env) required = [] -> k ∈ required ->
  exists v, env !! k = Some v /\ v <> "".
Proof.
  intros Hf Hk.
  assert (Env.blank env k = false) as Hb.
  { destruct (Env.blank env k) eqn:Hb; [|done].
    assert (In k (List.filter (Env.blank env) required)) as Hin
      by (apply filter_In; split; [by apply list_elem_of_In | done]).
    rewrite Hf in Hin. done. }
  unfold Env.blank in Hb. destruct (env !! k) as [v|]; [|done].
  exists v. split; [done|]. intros ->. done.
Qed.


(** X23.  When [load_config] of the collector returns,
    region, bucket and prefix are those of the environment and not empty:
    their defaults are never used, since the check on the required
    variables raises first.  The period is 60 when PERIOD_SECONDS is unset
    and the memory namespace CWAgent when MEMORY_METRIC_NAMESPACE is. *)
Theorem collector_config_uses_the_environment (env : Env.environ)
    (c : CollectorConfig.t) :
  CollectorConfig.load_config env = Env.Loaded c ->
  env !! "AWS_REGION" = Some (CollectorConfig.region c)
  /\ CollectorConfig.region c <> ""
  /\ env !! "S3_BUCKET" = Some (CollectorConfig.s3_bucket c)
  /\ CollectorConfig.s3_bucket c <> ""
  /\ env !! "S3_PREFIX" = Some (CollectorConfig.s3_prefix c)
  /\ CollectorConfig.s3_prefix c <> ""
  /\ (env !! "PERIOD_SECONDS" = None -> CollectorConfig.period_seconds c = 60)
  /\ (forall text, env !! "PERIOD_SECONDS" = Some text ->
        Py.int text = Some (CollectorConfig.period_seconds c))
  /\ (env !! "MEMORY_METRIC_NAMESPACE" = None ->
      CollectorConfig.memory_namespace c = "CWAgent")
  /\ (forall text, env !! "MEMORY_METRIC_NAMESPACE" = Some text ->
        CollectorConfig.memory_namespace c = text).
Proof.
  unfold CollectorConfig.load_config, Env.int_or.
  destruct (List.filter (Env.blank env) CollectorConfig.required)
    as [|k0 ks] eqn:Hf; [|done].
  assert (forall k, k ∈ CollectorConfig.required ->
            exists v, env !! k = Some v /\ v <> "") as Hreq
    by (intros k; by apply filter_nil_blank).
  destruct (Hreq "AWS_REGION") as (r & Hr & Hr'); [apply has_spec; reflexivity|].
  destruct (Hreq "S3_BUCKET") as (b & Hb & Hb'); [apply has_spec; reflexivity|].
  destruct (Hreq "S3_PREFIX") as (p & Hp & Hp'); [apply has_spec; reflexivity|].
  intros Hc.
  destruct (env !! "LOOKBACK_MINUTES") as [t1|];
    [destruct (Py.int t1); [|done]|];
    (destruct (env !! "PERIOD_SECONDS") as [t2|] eqn:H2;
     [destruct (Py.int t2) eqn:Hi2; [|done]|]);
    injection Hc as <-; simpl; rewrite Hr, Hb, Hp; simpl;
    repeat (split; [done|]);
    repeat (split; [by intros ? [= <-]|]);
    (split; [by intros ->|]); intros text ->; done.
Qed.

Lemma collector_config_uses_the_environment_witness :
  Scenario.collector_env !! "AWS_REGION" = Some "eu-west-1"
  /\ "eu-west-1" <> ""
  /\ Scenario.collector_env !! "S3_BUCKET" = Some "bucket"
  /\ "bucket" <> ""
  /\ Scenario.collector_env !! "S3_PREFIX" = Some "prefix"
  /\ "prefix" <> ""
  /\ (Scenario.collector_env !! "PERIOD_SECONDS" = None -> 60 = 60)
  /\ (forall text, Scenario.collector_env !! "PERIOD_SECONDS" = Some text ->
        Py.int text = Some 60)
  /\ (Scenario.collector_env !! "MEMORY_METRIC_NAMESPACE" = None ->
      "CWAgent" = "CWAgent")
  /\ (forall text,
        Scenario.collector_env !! "MEMORY_METRIC_NAMESPACE" = Some text ->
        "CWAgent" = text).
Proof.
  apply (collector_config_uses_the_environment Scenario.collector_env
           Scenario.collector_cfg).
  vm_compute. reflexivity.
Defined.

(** ** A run of the collector *)

Lemma pool_requests_window (cw_client : Collector.Client)
    (completed : list Collector.Instance) (memory_namespace : string)
    (start_time end_time period : Z) (req : Collector.Request) :
  req ∈ CollectorMain.pool_requests cw_client completed memory_namespace
          start_time end_time period ->
  Collector.StartTime req = start_time
  /\ Collector.EndTime req = end_time
  /\ Collector.Period req = period
  /\ exists inst, inst ∈ completed
       /\ Collector.Dimensions req = [("InstanceId", Collector.instance_id inst)].
Proof.
  unfold CollectorMain.pool_requests. intros Hreq.
  apply list_elem_of_In, in_flat_map in Hreq as (inst & Hinst & Hreq).
  destruct (fetch_instance_plan cw_client inst memory_namespace
              start_time end_time period) as ((n & Hn) & _ & _ & _ & _ & Hall).
  cbv zeta in Hn, Hall. rewrite Hn in Hreq. apply list_elem_of_In in Hreq.
  assert (req ∈ Plan.requests inst memory_namespace start_time end_time period)
    as Hi.
  { rewrite <- (take_drop n (Plan.requests _ _ _ _ _)).
    apply elem_of_app. by left. }
  destruct (Hall req Hi) as (Hd & Hs & He & Hp).
  repeat (split; [done|]). exists inst. split; [by apply list_elem_of_In | done].
Qed.

(** X24.  Every request a run of the collector sends ends at the
    run time and starts five days before it, whatever LOOKBACK_MINUTES
    says, has the configured period, and is for an instance the discovery
    returned. *)
Theorem run_requests_the_last_five_days (cfg : CollectorConfig.t)
    (w : CollectorMain.Services) (run_time : Datetime.t) (now : Z)
    (req : Collector.Request) :
  req ∈ CollectorMain.requests (CollectorMain.main cfg w run_time now).2 ->
  Collector.EndTime req = Datetime.to_ns run_time
  /\ Collector.StartTime req = Datetime.to_ns run_time - 5 * Etl.NS_PER_DAY
  /\ Collector.Period req = CollectorConfig.period_seconds cfg
  /\ exists instances inst,
       Discovery.discover_ec2_instances (CollectorMain.ec2 w) = Py.Ok instances
       /\ inst ∈ instances
       /\ Collector.Dimensions req
          = [("InstanceId", Collector.instance_id inst)].
Proof.
  unfold CollectorMain.main.
  destruct (Discovery.discover_ec2_instances (CollectorMain.ec2 w))
    as [[|i instances]|e]; cbv beta iota zeta;
    try (simpl; by intros ?%elem_of_nil).
  set (sent := CollectorMain.pool_requests _ _ _ _ _ _).
  assert (req ∈ sent ->
          Collector.EndTime req = Datetime.to_ns run_time
          /\ Collector.StartTime req = Datetime.to_ns run_time - 5 * Etl.NS_PER_DAY
          /\ Collector.Period req = CollectorConfig.period_seconds cfg
          /\ exists instances0 inst,
               Py.Ok (i :: instances) = Py.Ok instances0
               /\ inst ∈ instances0
               /\ Collector.Dimensions req
                  = [("InstanceId", Collector.instance_id inst)]) as Hsent.
  { intros Hreq. apply pool_requests_window in Hreq
      as (Hs & He & Hp & inst & Hinst & Hd).
    rewrite CollectorMain.as_completed_once in Hinst.
    split; [done|]. split; [done|]. split; [done|]. eauto. }
  clearbody sent.
  destruct (Collector.extract_all_ec2_metrics _ _ _ _ _ _ _ _) as [df|e];
    [|exact Hsent].
  destruct (CollectorMain.is_empty df); [exact Hsent|].
  destruct (CollectorMain.to_parquet_bytes w df) as [bytes|e]; [|exact Hsent].
  unfold Upload.upload_to_s3. destruct (CollectorMain.s3 w _); [exact Hsent|].
  cbn [fst snd]. destruct (CollectorMain.write_file w _ _); exact Hsent.
Qed.

Lemma run_requests_the_last_five_days_witness :
  Collector.EndTime Scenario.first_request = Datetime.to_ns Scenario.run_time
  /\ Collector.StartTime Scenario.first_request
     = Datetime.to_ns Scenario.run_time - 5 * Etl.NS_PER_DAY
  /\ Collector.Period Scenario.first_request = 60
  /\ exists instances inst,
       Discovery.discover_ec2_instances (CollectorMain.ec2 Scenario.services)
       = Py.Ok instances
       /\ inst ∈ instances
       /\ Collector.Dimensions Scenario.first_request
          = [("InstanceId", Collector.instance_id inst)].
Proof.
  apply (run_requests_the_last_five_days Scenario.collector_cfg
           Scenario.services Scenario.run_time Sample.clock
           Scenario.first_request).
  vm_compute. apply list_elem_of_here.
Defined.

(** X25.  A run makes at most one [put_object] and writes at
    most one local file.  The object goes to the configured bucket under
    the key of the run time and holds the Parquet bytes of the frame
    extracted, which is not empty.  The local file is written only after
    the upload went through, with the same bytes, and a run that ends
    without exception has written both or neither. *)
Theorem run_uploads_before_the_local_copy (cfg : CollectorConfig.t)
    (w : CollectorMain.Services) (run_time : Datetime.t) (now : Z) :
  let out := CollectorMain.main cfg w run_time now in
  (length (CollectorMain.puts out.2) <= 1)%nat
  /\ (length (CollectorMain.writes out.2) <= 1)%nat
  /\ (forall put, put ∈ CollectorMain.puts out.2 ->
        Upload.Bucket put = CollectorConfig.s3_bucket cfg
        /\ Upload.Key put
           = Upload.key (CollectorConfig.s3_prefix cfg) run_time
        /\ exists instances df,
             Discovery.discover_ec2_instances (CollectorMain.ec2 w)
             = Py.Ok instances
             /\ Collector.extract_all_ec2_metrics (CollectorMain.cloudwatch w)
                  instances (CollectorMain.as_completed w instances)
                  (CollectorConfig.memory_namespace cfg)
                  (Datetime.to_ns run_time - CollectorMain.five_days)
                  (Datetime.to_ns run_time)
                  (CollectorConfig.period_seconds cfg) now = Py.Ok df
             /\ Collector.rows df <> []
             /\ CollectorMain.to_parquet_bytes w df
                = Py.Ok (Upload.Body put))
  /\ (forall name data, (name, data) ∈ CollectorMain.writes out.2 ->
        name = CollectorMain.local_file run_time
        /\ exists put, CollectorMain.puts out.2 = [put]
                       /\ CollectorMain.s3 w put = None
                       /\ Upload.Body put = data)
  /\ (Py.is_ok out.1 = true ->
      length (CollectorMain.writes out.2) = length (CollectorMain.puts out.2)).
Proof.
  intros out. unfold out, CollectorMain.main.
  destruct (Discovery.discover_ec2_instances (CollectorMain.ec2 w))
    as [[|i instances]|e] eqn:Hd; cbv beta iota zeta;
    try (simpl; split; [lia|]; split; [lia|];
         split; [by intros ? ?%elem_of_nil|];
         split; [by intros ? ? ?%elem_of_nil|]; done).
  set (sent := CollectorMain.pool_requests _ _ _ _ _ _). clearbody sent.
  destruct (Collector.extract_all_ec2_metrics _ _ _ _ _ _ _ _) as [df|e] eqn:Hx;
    try (simpl; split; [lia|]; split; [lia|];
         split; [by intros ? ?%elem_of_nil|];
         split; [by intros ? ? ?%elem_of_nil|]; done).
  destruct (CollectorMain.is_empty df) eqn:Hempty;
    try (simpl; split; [lia|]; split; [lia|];
         split; [by intros ? ?%elem_of_nil|];
         split; [by intros ? ? ?%elem_of_nil|]; done).
  destruct (CollectorMain.to_parquet_bytes w df) as [bytes|e] eqn:Hb;
    try (simpl; split; [lia|]; split; [lia|];
         split; [by intros ? ?%elem_of_nil|];
         split; [by intros ? ? ?%elem_of_nil|]; done).
  assert (Collector.rows df <> []) as Hrows.
  { unfold CollectorMain.is_empty in Hempty. by destruct (Collector.rows df). }
  unfold Upload.upload_to_s3.
  set (put := {| Upload.Bucket := CollectorConfig.s3_bucket cfg |}).
  assert (forall put', put' ∈ [put] ->
            Upload.Bucket put' = CollectorConfig.s3_bucket cfg
            /\ Upload.Key put'
               = Upload.key (CollectorConfig.s3_prefix cfg) run_time
            /\ exists instances0 df0,
                 Py.Ok (i :: instances) = Py.Ok instances0
                 /\ Collector.extract_all_ec2_metrics (CollectorMain.cloudwatch w)
                      instances0 (CollectorMain.as_completed w instances0)
                      (CollectorConfig.memory_namespace cfg)
                      (Datetime.to_ns run_time - CollectorMain.five_days)
                      (Datetime.to_ns run_time)
                      (CollectorConfig.period_seconds cfg) now = Py.Ok df0
                 /\ Collector.rows df0 <> []
                 /\ CollectorMain.to_parquet_bytes w df0
                    = Py.Ok (Upload.Body put')) as Hput.
  { intros put' ->%list_elem_of_singleton. split; [done|]. split; [done|].
    exists (i :: instances), df. done. }
  destruct (CollectorMain.s3 w put) as [e|] eqn:Hs3; cbn [fst snd].
  - simpl. split; [lia|]. split; [lia|]. split; [exact Hput|].
    split; [by intros ? ? ?%elem_of_nil | done].
  - destruct (CollectorMain.write_file w _ _); simpl;
      (split; [lia|]); (split; [lia|]); (split; [exact Hput|]);
      (split; [|done]);
      intros name data [= -> ->]%list_elem_of_singleton;
      (split; [done|]); exists put; done.
Qed.

(** X26.  When the discovery finds no instance, or no record is
    collected for the instances found, [main] returns without exception
    and has written nothing: no object, no local file. *)
Theorem run_without_data_writes_nothing (cfg : CollectorConfig.t)
    (w : CollectorMain.Services) (run_time : Datetime.t) (now : Z)
    (instances : list Collector.Instance) :
  Discovery.discover_ec2_instances (CollectorMain.ec2 w) = Py.Ok instances ->
  instances = []
  \/ Collector.all_records (CollectorMain.cloudwatch w)
       (CollectorMain.as_completed w instances)
       (CollectorConfig.memory_namespace cfg)
       (Datetime.to_ns run_time - CollectorMain.five_days)
       (Datetime.to_ns run_time)
       (CollectorConfig.period_seconds cfg) = [] ->
  (CollectorMain.main cfg w run_time now).1 = Py.Ok tt
  /\ CollectorMain.puts (CollectorMain.main cfg w run_time now).2 = []
  /\ CollectorMain.writes (CollectorMain.main cfg w run_time now).2 = [].
Proof.
  intros Hd Hnone. unfold CollectorMain.main. rewrite Hd.
  destruct instances as [|i instances]; [done|].
  destruct Hnone as [?|Hnone]; [done|].
  unfold Collector.extract_all_ec2_metrics. rewrite Hnone. done.
Qed.

Lemma run_without_data_writes_nothing_witness :
  let out := CollectorMain.main Scenario.collector_cfg Scenario.silent
               Scenario.run_time Sample.clock in
  out.1 = Py.Ok tt
  /\ CollectorMain.puts out.2 = []
  /\ CollectorMain.writes out.2 = [].
Proof.
  intros out.
  apply (run_without_data_writes_nothing Scenario.collector_cfg Scenario.silent
           Scenario.run_time Sample.clock [Scenario.found]).
  - vm_compute. reflexivity.
  - right. vm_compute. reflexivity.
Defined.
